(** * pbalign: temporary-file manager and GMAP database lock protocol

    A shallow embedding of [pbalign/utils/tempfileutil.py] (classes
    [TempFile] and [TempFileManager]) and of [GMAPService._gmapCreateDB]
    from [pbalign/alignservice/gmap.py], together with the properties of
    the resource registry, the cleanup engine and the build-once protocol.

    The Python code acts on the file system, the clock, the logger and
    the shell.  These are gathered in a [World] that every operation
    takes and returns; what the platform decides (path normalisation,
    which deletions fail, the names [tempfile] draws, what [gmap_build]
    does) is gathered in an [Env]. *)

From Stdlib Require Import String Ascii List Bool Arith ZArith Lia.
From Stdlib Require Import DecimalString Permutation.
Import ListNotations.
Open Scope string_scope.

(** ** Exceptions and results *)

Inductive errno := EEXIST | ENOENT | EACCES | ENOTDIR | EISDIR.

Inductive exn :=
| IOError (msg : string)
| OSError (e : errno)
| RuntimeError (msg : string).

Inductive result (A : Type) :=
| Ok (a : A)
| Raise (e : exn).
Arguments Ok {A} a.
Arguments Raise {A} e.

Definition returns_normally {A} (r : result A) : bool :=
  match r with Ok _ => true | Raise _ => false end.

(** [except (IOError, OSError)] *)
Definition is_IOError_or_OSError (e : exn) : bool :=
  match e with IOError _ | OSError _ => true | RuntimeError _ => false end.

(** ** Paths ([os.path], POSIX flavour) *)

Module Path.

Definition slash : ascii := "/"%char.

Definition startswith_slash (s : string) : bool :=
  match s with String c _ => Ascii.eqb c slash | EmptyString => false end.

Fixpoint endswith_slash (s : string) : bool :=
  match s with
  | EmptyString => false
  | String c EmptyString => Ascii.eqb c slash
  | String _ r => endswith_slash r
  end.

(** [os.path.join(a, b)] *)
Definition join (a b : string) : string :=
  if startswith_slash b then b
  else if (a =? "") || endswith_slash a then a ++ b
  else a ++ "/" ++ b.

(** [p[:p.rfind('/') + 1]] *)
Fixpoint upto_last_slash (p : string) : string :=
  match p with
  | EmptyString => ""
  | String c r =>
      match upto_last_slash r with
      | EmptyString => if Ascii.eqb c slash then "/" else ""
      | h => String c h
      end
  end.

(** [p[p.rfind('/') + 1:]] *)
Fixpoint after_last_slash (p : string) : string :=
  match p with
  | EmptyString => ""
  | String c r =>
      match upto_last_slash r with
      | EmptyString => if Ascii.eqb c slash then r else String c r
      | _ => after_last_slash r
      end
  end.

(** [s.rstrip('/')] *)
Fixpoint rstrip_slash (s : string) : string :=
  match s with
  | EmptyString => ""
  | String c r =>
      match rstrip_slash r with
      | EmptyString => if Ascii.eqb c slash then "" else String c ""
      | r' => String c r'
      end
  end.

(** [os.path.split(p)]: the head loses its trailing slashes unless it
    consists of slashes only. *)
Definition split (p : string) : string * string :=
  let head := upto_last_slash p in
  let tail := after_last_slash p in
  match rstrip_slash head with
  | EmptyString => (head, tail)
  | h => (h, tail)
  end.

Definition dirname (p : string) : string := fst (split p).

(** [q] is [p] itself or lies below directory [p]. *)
Definition within (p q : string) : bool :=
  (q =? p) || String.prefix (join p "") q.

End Path.

(** ** The world the process runs in *)

Inductive node := RegFile | Directory.

Definition FS := string -> option node.

Definition fs_set (p : string) (n : option node) (f : FS) : FS :=
  fun q => if q =? p then n else f q.

(** Recursive removal: [p] and everything below it disappear. *)
Definition fs_prune (p : string) (f : FS) : FS :=
  fun q => if Path.within p q then None else f q.

Inductive level := DEBUG | INFO | WARNING | ERROR.

(** The commands the code hands to [backticks]. *)
Inductive command :=
| Touch (p : string)
| RmF (p : string)
| GmapBuild (dbName dbRoot inFa : string).

(** The command line of each, as the code formats it. *)
Definition cmdStr (c : command) : string :=
  match c with
  | Touch p => "touch " ++ p
  | RmF p => "rm -f " ++ p
  | GmapBuild dbName dbRoot inFa =>
      "gmap_build -k 12 --db=" ++ dbName ++ " --dir=" ++ dbRoot ++ " " ++ inFa
  end.

Definition newline : string := String (ascii_of_nat 10) "".

Record World := mkWorld {
  fs : FS;                          (* the file system *)
  clock : nat;                      (* seconds slept so far *)
  draws : nat;                      (* random values consumed so far *)
  log : list (level * string);      (* records sent to [logging], oldest first *)
  shell : list command              (* commands run by [backticks], oldest first *)
}.

Definition set_fs (f : FS) (w : World) : World :=
  mkWorld f (clock w) (draws w) (log w) (shell w).
Definition set_clock (t : nat) (w : World) : World :=
  mkWorld (fs w) t (draws w) (log w) (shell w).
Definition set_draws (d : nat) (w : World) : World :=
  mkWorld (fs w) (clock w) d (log w) (shell w).
Definition set_log (l : list (level * string)) (w : World) : World :=
  mkWorld (fs w) (clock w) (draws w) l (shell w).
Definition set_shell (s : list command) (w : World) : World :=
  mkWorld (fs w) (clock w) (draws w) (log w) s.

(** What the platform decides. *)
Record Env := mkEnv {
  (* [path.abspath(path.expanduser(p))] *)
  abspath_expanduser : string -> string;
  (* [fault p t]: at time [t] the platform refuses to create or delete
     [p] (permissions, a busy NFS handle, ...) *)
  fault : string -> nat -> bool;
  (* the n-th name drawn by [tempfile]'s candidate-name generator *)
  candidate_name : nat -> string;
  (* [tempfile.TMP_MAX] *)
  TMP_MAX : nat;
  (* [tempfile.gettempdir()] *)
  gettempdir : string;
  (* the n-th value drawn by [random.randint(100000, 1000000)] *)
  randint : nat -> Z;
  (* the external program [gmap_build]: given the database name, its
     root, the reference file, the file system and the time, the file
     system it leaves, its exit code and its error output *)
  gmap_build : string -> string -> string -> FS -> nat -> FS * (Z * string);
  (* what concurrent pbalign processes do to the shared file system
     during a pause that starts at the given time *)
  rivals : nat -> FS -> FS
}.

Section OS.

Variable E : Env.

(** *** [logging] *)

Definition logging (l : level) (msg : string) (w : World) : World :=
  set_log (log w ++ [(l, msg)]) w.

(** *** [time.sleep] *)

Definition sleep (seconds : nat) (w : World) : World :=
  set_clock (clock w + seconds) w.

(** *** File system queries *)

(** Modelled from the spec: [pbalign.utils.fileutil.isExist] is not
    part of the sources at hand; the spec describes it as the pure
    predicate [Exists(path)] answered by an ordinary file system
    lookup. *)
Definition isExist (p : string) (w : World) : bool :=
  match fs w p with Some _ => true | None => false end.

(** [os.path.isdir] *)
Definition isdir (p : string) (w : World) : bool :=
  match fs w p with Some Directory => true | _ => false end.

(** *** File system updates *)

(** Creating one entry: the name must be free, its parent must be a
    directory and the platform must allow it. *)
Definition create (n : node) (p : string) (w : World) : result unit * World :=
  match fs w p with
  | Some _ => (Raise (OSError EEXIST), w)
  | None =>
      if negb (isdir (Path.dirname p) w) then (Raise (OSError ENOENT), w)
      else if fault E p (clock w) then (Raise (OSError EACCES), w)
      else (Ok tt, set_fs (fs_set p (Some n) (fs w)) w)
  end.

(** [os.mkdir] *)
Definition mkdir (p : string) (w : World) : result unit * World :=
  create Directory p w.

(** [os.makedirs]: create the missing ancestors first, then the leaf. *)
Fixpoint makedirs_from (fuel : nat) (name : string) (w : World)
  : result unit * World :=
  match fuel with
  | 0 => mkdir name w
  | S fuel' =>
      let '(head, tail) := Path.split name in
      let '(head, tail) :=
        if tail =? "" then Path.split head else (head, tail) in
      if negb (head =? "") && negb (tail =? "") && negb (isExist head w) then
        match makedirs_from fuel' head w with
        | (Ok _, w') => mkdir name w'
        | (Raise (OSError EEXIST), w') => mkdir name w'
        | (Raise e, w') => (Raise e, w')
        end
      else mkdir name w
  end.

Definition makedirs (name : string) (w : World) : result unit * World :=
  makedirs_from (String.length name) name w.

(** [os.remove]: only a regular file can be removed. *)
Definition remove (p : string) (w : World) : result unit * World :=
  match fs w p with
  | None => (Raise (OSError ENOENT), w)
  | Some Directory => (Raise (OSError EISDIR), w)
  | Some RegFile =>
      if fault E p (clock w) then (Raise (OSError EACCES), w)
      else (Ok tt, set_fs (fs_set p None (fs w)) w)
  end.

(** [shutil.rmtree]: only a directory can be removed; a failed attempt
    leaves the directory in place. *)
Definition rmtree (p : string) (w : World) : result unit * World :=
  match fs w p with
  | None => (Raise (OSError ENOENT), w)
  | Some RegFile => (Raise (OSError ENOTDIR), w)
  | Some Directory =>
      if fault E p (clock w) then (Raise (OSError EACCES), w)
      else (Ok tt, set_fs (fs_prune p (fs w)) w)
  end.

(** *** [tempfile] *)

(** The loop shared by [tempfile.mkdtemp] and [tempfile.mkstemp]: draw
    a candidate name, try to create it, draw again when it exists. *)
Fixpoint mktemp_loop (tries : nat) (n : node) (dir pre suf : string)
    (w : World) : result string * World :=
  match tries with
  | 0 => (Raise (IOError "No usable temporary name found"), w)
  | S tries' =>
      let name := candidate_name E (draws w) in
      let w1 := set_draws (S (draws w)) w in
      let file := Path.join dir (pre ++ name ++ suf) in
      match create n file w1 with
      | (Ok _, w2) => (Ok file, w2)
      | (Raise (OSError EEXIST), w2) => mktemp_loop tries' n dir pre suf w2
      | (Raise e, w2) => (Raise e, w2)
      end
  end.

Definition or_tempdir (dir : option string) : string :=
  match dir with Some d => d | None => gettempdir E end.

(** [tempfile.mkdtemp(suffix, prefix, dir)] *)
Definition mkdtemp (dir : option string) (suffix prefix : string) (w : World)
  : result string * World :=
  mktemp_loop (TMP_MAX E) Directory (or_tempdir dir) prefix suffix w.

(** [tempfile.mkstemp(suffix, prefix, dir)]; the descriptor it opens is
    closed at once by the caller and is left out. *)
Definition mkstemp (dir : option string) (suffix prefix : string) (w : World)
  : result string * World :=
  mktemp_loop (TMP_MAX E) RegFile (or_tempdir dir) prefix suffix w.

End OS.

(** ** [tempfileutil.py] *)

(** [class TempFile] *)
Record TempFile := mkTempFile {
  name : string;
  own : bool;
  isDir : bool
}.

(** [class TempFileManager]; both registries are Python lists, newest
    entry last. *)
Record TempFileManager := mkManager {
  defaultRootDir : string;
  fileDB : list TempFile;
  dirDB : list TempFile
}.

Definition set_defaultRootDir (d : string) (self : TempFileManager) :=
  mkManager d (fileDB self) (dirDB self).
Definition set_fileDB (l : list TempFile) (self : TempFileManager) :=
  mkManager (defaultRootDir self) l (dirDB self).
Definition set_dirDB (l : list TempFile) (self : TempFileManager) :=
  mkManager (defaultRootDir self) (fileDB self) l.

(** Every registered path, files first. *)
Definition registered (self : TempFileManager) : list string :=
  map name (fileDB self) ++ map name (dirDB self).


Section TempFileUtil.

Variable E : Env.

(** [TempFileManager.SetRootDir]: the tail of the method, from
    [if changeRootDir:] on. *)
Definition SetRootDir_finish (changeRootDir : bool) (rootDir : string)
    (self : TempFileManager) (w : World)
  : result unit * TempFileManager * World :=
  if changeRootDir then
    match mkdtemp E None "" "tmp" w with
    | (Ok rootDir, w') =>
        (Ok tt,
         set_defaultRootDir rootDir
           (set_dirDB (dirDB self ++ [mkTempFile rootDir true true]) self),
         w')
    | (Raise e, w') =>
        if is_IOError_or_OSError e
        then (Ok tt, set_defaultRootDir "" self, w')
        else (Raise e, self, w')
    end
  else (Ok tt, set_defaultRootDir rootDir self, w).

(** [TempFileManager.SetRootDir] *)
Definition SetRootDir (rootDir : string) (self : TempFileManager) (w : World)
  : result unit * TempFileManager * World :=
  if negb (rootDir =? "") then
    let rootDir := abspath_expanduser E rootDir in
    if isdir rootDir w then
      match mkdtemp E (Some rootDir) "" "tmp" w with
      | (Ok rootDir, w') =>
          SetRootDir_finish false rootDir
            (set_dirDB (dirDB self ++ [mkTempFile rootDir true true]) self) w'
      | (Raise e, w') => (Raise e, self, w')
      end
    else if negb (isExist rootDir w) then
      match makedirs E rootDir w with
      | (Ok _, w') =>
          SetRootDir_finish false rootDir
            (set_dirDB (dirDB self ++ [mkTempFile rootDir true true]) self) w'
      | (Raise e, w') =>
          if is_IOError_or_OSError e
          then SetRootDir_finish true rootDir self w'
          else (Raise e, self, w')
      end
    else SetRootDir_finish true rootDir self w
  else SetRootDir_finish true rootDir self w.


(** [TempFileManager._isRegistered] *)
Definition _isRegistered (tempFileName : string) (self : TempFileManager)
  : bool :=
  let tempFileName := abspath_expanduser E tempFileName in
  if existsb (String.eqb tempFileName) (map name (fileDB self))
     || existsb (String.eqb tempFileName) (map name (dirDB self))
  then true else false.

(** [TempFileManager._RegisterTmpFile] *)
Definition _RegisterTmpFile (tmpFile : TempFile) (self : TempFileManager)
  : string * TempFileManager :=
  if isDir tmpFile
  then (name tmpFile, set_dirDB (dirDB self ++ [tmpFile]) self)
  else (name tmpFile, set_fileDB (fileDB self ++ [tmpFile]) self).

Definition fileOrDir (isDir : bool) : string :=
  if isDir then "directory" else "file".

(** [TempFileManager.RegisterNewTmpFile] *)
Definition RegisterNewTmpFile (isDir : bool) (rootDir suffix prefix : string)
    (self : TempFileManager) (w : World)
  : result string * TempFileManager * World :=
  if (rootDir =? "") && (defaultRootDir self =? "") then
    (Raise (IOError "TempManager default root dir not set."), self, w)
  else
    let rootDir := if rootDir =? "" then defaultRootDir self else rootDir in
    match (if isDir then mkdtemp E (Some rootDir) suffix prefix w
           else mkstemp E (Some rootDir) suffix prefix w) with
    | (Raise e, w') => (Raise e, self, w')
    | (Ok thisPath, w') =>
        let thisPath := abspath_expanduser E thisPath in
        if _isRegistered thisPath self then
          let errMsg := "Failed to register a temporary " ++ fileOrDir isDir
                        ++ " " ++ thisPath ++ " twice." in
          (Raise (IOError errMsg), self, logging ERROR errMsg w')
        else
          let '(p, self') :=
            _RegisterTmpFile (mkTempFile thisPath true isDir) self in
          (Ok p, self', w')
    end.

(** [TempFileManager.RegisterExistingTmpFile] *)
Definition RegisterExistingTmpFile (thisPath : string) (own isDir : bool)
    (self : TempFileManager) (w : World)
  : result string * TempFileManager * World :=
  let errMsg := "" in
  let thisPath := abspath_expanduser E thisPath in
  let errMsg :=
    if negb isDir && negb (isExist thisPath w)
    then "Failed to register a directory as a file." else errMsg in
  let errMsg :=
    if isDir && negb (isdir thisPath w)
    then "Failied to register a file as a directory." else errMsg in
  let errMsg :=
    if _isRegistered thisPath self
    then "Failed to register " ++ fileOrDir isDir ++ " " ++ thisPath
         ++ " as it has been registered."
    else errMsg in
  let errMsg :=
    if negb (isExist thisPath w)
    then "Failed to register " ++ fileOrDir isDir ++ " " ++ thisPath
         ++ " as it does not exist."
    else errMsg in
  if negb (errMsg =? "") then
    (Raise (IOError errMsg), self, logging ERROR errMsg w)
  else
    let '(p, self') := _RegisterTmpFile (mkTempFile thisPath own isDir) self in
    (Ok p, self', w).

(** The first loop of [CleanUp].  [self.fileDB] is used as a stack:
    [stack] is the list with the entry that [pop()] returns first, and
    what is returned is what is still on the stack when the loop ends
    or an exception leaves it. *)
Fixpoint CleanUp_files (realDelete : bool) (stack : list TempFile) (w : World)
  : result unit * list TempFile * World :=
  match stack with
  | [] => (Ok tt, [], w)
  | obj :: stack' =>
      if realDelete && own obj && isExist (name obj) w then
        let w1 := logging DEBUG ("Remove a temporary file " ++ name obj) w in
        match remove E (name obj) w1 with
        | (Ok _, w2) => CleanUp_files realDelete stack' w2
        | (Raise e, w2) => (Raise e, stack', w2)
        end
      else CleanUp_files realDelete stack' w
  end.

Definition maxTry : nat := 5.

(** The retry loop [while times < maxTry]; [left] is [maxTry - times].
    It yields the final value of [times]. *)
Fixpoint rmtree_retry (left times : nat) (p : string) (w : World)
  : result nat * World :=
  match left with
  | 0 => (Ok times, w)
  | S left' =>
      match rmtree E p w with
      | (Ok _, w') => (Ok times, w')
      | (Raise e, w') =>
          if is_IOError_or_OSError e
          then rmtree_retry left' (S times) p (sleep 3 w')
          else (Raise e, w')
      end
  end.

(** The body of the second loop of [CleanUp] for an owned directory
    that still exists. *)
Definition CleanUp_dir (obj : TempFile) (w : World) : result unit * World :=
  let w1 := logging DEBUG ("Remove a temporary dir " ++ name obj) w in
  match rmtree_retry maxTry 0 (name obj) w1 with
  | (Ok times, w2) =>
      if (maxTry <=? times)%nat
      then (Ok tt,
            logging WARNING
              ("Unable to remove a temporary dir " ++ name obj) w2)
      else (Ok tt, w2)
  | (Raise e, w2) => (Raise e, w2)
  end.

(** The second loop of [CleanUp]. *)
Fixpoint CleanUp_dirs (realDelete : bool) (stack : list TempFile) (w : World)
  : result unit * list TempFile * World :=
  match stack with
  | [] => (Ok tt, [], w)
  | obj :: stack' =>
      if realDelete && own obj && isExist (name obj) w then
        match CleanUp_dir obj w with
        | (Ok _, w1) => CleanUp_dirs realDelete stack' w1
        | (Raise e, w1) => (Raise e, stack', w1)
        end
      else CleanUp_dirs realDelete stack' w
  end.

(** [TempFileManager.CleanUp] *)
Definition CleanUp (realDelete : bool) (self : TempFileManager) (w : World)
  : result unit * TempFileManager * World :=
  match CleanUp_files realDelete (rev (fileDB self)) w with
  | (Raise e, stack, w1) => (Raise e, set_fileDB (rev stack) self, w1)
  | (Ok _, stack, w1) =>
      let self1 := set_fileDB (rev stack) self in
      match CleanUp_dirs realDelete (rev (dirDB self1)) w1 with
      | (Raise e, stack, w2) => (Raise e, set_dirDB (rev stack) self1, w2)
      | (Ok _, stack, w2) =>
          (Ok tt, set_defaultRootDir "" (set_dirDB (rev stack) self1), w2)
      end
  end.

End TempFileUtil.

(** ** [alignservice/gmap.py] *)

Section GMAP.

Variable E : Env.

(** [pbcore.util.Process.backticks]: run a command, yield its exit
    code and error output. *)
Definition backticks (c : command) (w : World) : (Z * string) * World :=
  let w := set_shell (shell w ++ [c]) w in
  match c with
  | Touch p =>
      match fs w p with
      | Some _ => ((0%Z, ""), w)
      | None =>
          match create E RegFile p w with
          | (Ok _, w') => ((0%Z, ""), w')
          | (Raise _, w') => ((1%Z, "touch: cannot touch " ++ p), w')
          end
      end
  | RmF p =>
      match fs w p with
      | None => ((0%Z, ""), w)
      | Some _ =>
          match remove E p w with
          | (Ok _, w') => ((0%Z, ""), w')
          | (Raise _, w') => ((1%Z, "rm: cannot remove " ++ p), w')
          end
      end
  | GmapBuild dbName dbRoot inFa =>
      let '(f, status) := gmap_build E dbName dbRoot inFa (fs w) (clock w) in
      (status, set_fs f w)
  end.

Definition is_build (c : command) : bool :=
  match c with GmapBuild _ _ _ => true | _ => false end.

(** How many times the external builder has run. *)
Definition builds (w : World) : nat := List.length (filter is_build (shell w)).

(** [GMAPService.name] *)
Definition service_name : string := "GMAPService".

(** One round of the waiting loop: [sleep(10)], during which the other
    pbalign processes go on. *)
Definition sleep_shared (seconds : nat) (w : World) : World :=
  let w' := sleep seconds w in
  set_fs (rivals E (clock w) (fs w')) w'.

(** [while isExist(dbLock): ... sleep(10)]; [None] when the lock is
    still there after [fuel] rounds. *)
Fixpoint wait_for_lock (fuel : nat) (referenceFile dbLock : string) (w : World)
  : option World :=
  if isExist dbLock w then
    match fuel with
    | 0 => None
    | S fuel' =>
        wait_for_lock fuel' referenceFile dbLock
          (sleep_shared 10
             (logging INFO
                (service_name ++ ": Waiting for GMAP database to be "
                 ++ "created for " ++ referenceFile) w))
    end
  else Some w.

(** Lines 221-266 of [_gmapCreateDB]: the lock protocol for the
    database [dbName] under [dbRoot]. *)
Definition createDB_at (fuel : nat) (referenceFile dbRoot dbName : string)
    (w : World) : option (result (string * string) * World) :=
  let dbPath := Path.join dbRoot dbName in
  let dbLock := dbPath ++ ".lock" in
  if isExist dbPath w && negb (isExist dbLock w) then
    Some (Ok (dbRoot, dbName),
          logging INFO
            (service_name ++ ": GMAP database " ++ dbPath ++ " found") w)
  else
    match wait_for_lock fuel referenceFile dbLock w with
    | None => None
    | Some w =>
        if negb (isExist dbPath w) then
          let '((errCode, errMsg), w) := backticks (Touch dbLock) w in
          let w := logging DEBUG
                     (service_name ++ ": Create a lock when GMAP DB is "
                      ++ "being built.") w in
          if negb (errCode =? 0)%Z then
            let w := logging ERROR
                       (service_name ++ ": Failed to create {dbLock}."
                        ++ newline ++ errMsg) w in
            let '(_, w) := backticks (RmF dbLock) w in
            Some (Raise (RuntimeError errMsg), w)
          else
            let w := logging INFO
                       (service_name ++ ": Create GMAP DB for "
                        ++ referenceFile ++ ".") w in
            let '((errCode, errMsg), w) :=
              backticks (GmapBuild dbName dbRoot referenceFile) w in
            let w := logging DEBUG
                       (service_name ++ ": Call "
                        ++ cmdStr (GmapBuild dbName dbRoot referenceFile)) w in
            if negb (errCode =? 0)%Z then
              let w := logging ERROR
                         (service_name ++ ": Failed to build GMAP db."
                          ++ newline ++ errMsg) w in
              let '(_, w) := backticks (RmF dbLock) w in
              Some (Raise (RuntimeError errMsg), w)
            else
              let '(_, w) := backticks (RmF dbLock) w in
              let w := logging DEBUG
                         (service_name ++ ": Release the lock for DB creation.")
                         w in
              Some (Ok (dbRoot, dbName), w)
        else Some (Ok (dbRoot, dbName), w)
    end.

(** Lines 206-219 of [_gmapCreateDB]: where the database goes.  Inside
    a reference repository it is [gmap_db] under the repository root;
    otherwise it gets a random name under [tempRootDir]. *)
Definition db_location (referenceFile : string) (isWithinRepository : bool)
    (tempRootDir : string) (w : World) : string * string * World :=
  if isWithinRepository then
    (fst (Path.split (Path.dirname referenceFile)), "gmap_db", w)
  else
    (tempRootDir,
     "gmap_db_" ++ NilZero.string_of_int (Z.to_int (randint E (draws w))),
     set_draws (S (draws w)) w).

(** [GMAPService._gmapCreateDB] *)
Definition _gmapCreateDB (fuel : nat) (referenceFile : string)
    (isWithinRepository : bool) (tempRootDir : string) (w : World)
  : option (result (string * string) * World) :=
  let '(dbRoot, dbName, w) :=
    db_location referenceFile isWithinRepository tempRootDir w in
  createDB_at fuel referenceFile dbRoot dbName w.

End GMAP.

(** ** Observations used in the statements *)



(** The records [CleanUp] writes for a directory. *)
Definition debug_dir (obj : TempFile) : level * string :=
  (DEBUG, "Remove a temporary dir " ++ name obj).

Definition warn_dir (obj : TempFile) : level * string :=
  (WARNING, "Unable to remove a temporary dir " ++ name obj).

(** [w'] was reached from [w] by deleting and logging only. *)
Definition shrinks (w w' : World) : Prop :=
  (forall q, fs w q = None -> fs w' q = None)
  /\ (exists l, log w' = (log w ++ l)%list).

(** ** Sample platforms and worlds *)

Definition fs_of (entries : list (string * node)) : FS :=
  fun p =>
    match find (fun e => fst e =? p) entries with
    | Some e => Some (snd e)
    | None => None
    end.

Definition world_of (entries : list (string * node)) : World :=
  mkWorld (fs_of entries) 0 0 [] [].

Definition decimal (n : nat) : string := NilZero.string_of_uint (Nat.to_uint n).

(** A builder that succeeds and leaves the database directory. *)
Definition good_builder (dbName dbRoot inFa : string) (f : FS) (t : nat)
  : FS * (Z * string) :=
  (fs_set (Path.join dbRoot dbName) (Some Directory) f, (0%Z, "")).

(** A builder that fails. *)
Definition bad_builder (dbName dbRoot inFa : string) (f : FS) (t : nat)
  : FS * (Z * string) :=
  (f, (1%Z, "gmap_build: cannot read " ++ inFa)).

(** Paths are already normal, nothing is refused, nobody else runs. *)
Definition calm : Env :=
  mkEnv (fun p => p) (fun _ _ => false) decimal 100 "/tmp"
        (fun n => (100000 + Z.of_nat n)%Z) good_builder (fun _ f => f).

(** As [calm], but [/tmp/busy] cannot be deleted before time [until]. *)
Definition busy (until : nat) : Env :=
  mkEnv (fun p => p) (fun p t => (p =? "/tmp/busy") && (t <? until)%nat)
        decimal 100 "/tmp"
        (fun n => (100000 + Z.of_nat n)%Z) good_builder (fun _ f => f).

(** As [calm], but the platform never lets [/tmp/f] be deleted. *)
Definition denied : Env :=
  mkEnv (fun p => p) (fun p _ => p =? "/tmp/f") decimal 100 "/tmp"
        (fun n => (100000 + Z.of_nat n)%Z) good_builder (fun _ f => f).

(** As [calm], but the builder fails. *)
Definition broken : Env :=
  mkEnv (fun p => p) (fun _ _ => false) decimal 100 "/tmp"
        (fun n => (100000 + Z.of_nat n)%Z) bad_builder (fun _ f => f).

(** A file and a directory, both owned. *)
Definition tidy_manager : TempFileManager :=
  mkManager "/tmp/w" [mkTempFile "/tmp/f" true false]
            [mkTempFile "/tmp/d" true true].

(** Two owned files and an owned directory. *)
Definition busy_manager : TempFileManager :=
  mkManager "/tmp/w" [mkTempFile "/tmp/w/keep.txt" true false;
                      mkTempFile "/tmp/f" true false]
            [mkTempFile "/tmp/w" true true].

(** A file that is not owned, below an owned directory, and an owned
    directory that is busy. *)
Definition nested_manager : TempFileManager :=
  mkManager "/tmp/w" [mkTempFile "/tmp/w/keep.txt" false false]
            [mkTempFile "/tmp/busy" true true; mkTempFile "/tmp/w" true true].

(** Nothing registered yet. *)
Definition empty_manager : TempFileManager := mkManager "/tmp/w" [] [].

(** A registered file that is no longer on disk. *)
Definition stale_manager : TempFileManager :=
  mkManager "/tmp/w" [mkTempFile "/tmp/w/0" true false] [].


(** A reference repository without a GMAP database. *)
Definition repo_world : World :=
  world_of [("/", Directory); ("/repo", Directory);
            ("/repo/sequence", Directory);
            ("/repo/sequence/ref.fa", RegFile)].

(** The same repository once the database has been built. *)
Definition built_world : World :=
  world_of [("/", Directory); ("/repo", Directory);
            ("/repo/sequence", Directory);
            ("/repo/sequence/ref.fa", RegFile);
            ("/repo/gmap_db", Directory)].

Definition tmp_world : World :=
  world_of [("/", Directory); ("/tmp", Directory);
            ("/tmp/d", Directory); ("/tmp/f", RegFile);
            ("/tmp/busy", Directory);
            ("/tmp/w", Directory); ("/tmp/w/keep.txt", RegFile)].

(** * More of the code *)

(** What is asked of [os.mkdir] and [os.makedirs] below: the log is
    left alone, success leaves a directory, failure is an [OSError]. *)
Definition makes_directory (name : string) (w : World)
    (out : result unit * World) : Prop :=
  log (snd out) = log w
  /\ (forall q, fs (snd out) q = None -> fs w q = None)
  /\ match fst out with
     | Ok _ => isdir name (snd out) = true
     | Raise e => is_IOError_or_OSError e = true
     end.

(** What [SetRootDir] leaves when it returns: the file registry is
    untouched, and either no root directory is set and nothing was
    registered, or the root directory is a directory that was not there
    before and is the newest entry of the directory registry, owned. *)
Definition root_allocated (self self' : TempFileManager) (w w' : World)
  : Prop :=
  fileDB self' = fileDB self
  /\ ((defaultRootDir self' = "" /\ dirDB self' = dirDB self)
      \/ (dirDB self'
          = (dirDB self ++ [mkTempFile (defaultRootDir self') true true])%list
          /\ isExist (defaultRootDir self') w = false
          /\ isdir (defaultRootDir self') w' = true)).

(** As [calm], but the platform lets nothing be created or deleted
    below [/tmp]. *)
Definition sealed : Env :=
  mkEnv (fun p => p) (fun p _ => String.prefix "/tmp/" p) decimal 100 "/tmp"
        (fun n => (100000 + Z.of_nat n)%Z) good_builder (fun _ f => f).

(** The owned directories of a list of entries. *)
Definition owned (l : list TempFile) : list TempFile := filter own l.

(** As [calm], but another process deletes [/repo/gmap_db.lock] during
    any pause that starts at time 10 or later. *)
Definition releasing : Env :=
  mkEnv (fun p => p) (fun _ _ => false) decimal 100 "/tmp"
        (fun n => (100000 + Z.of_nat n)%Z) good_builder
        (fun t f => if (10 <=? t)%nat
                    then fs_set "/repo/gmap_db.lock" None f else f).

(** A repository whose database is being built by somebody else. *)
Definition locked_world : World :=
  world_of [("/", Directory); ("/repo", Directory);
            ("/repo/sequence", Directory);
            ("/repo/sequence/ref.fa", RegFile);
            ("/repo/gmap_db.lock", RegFile)].

(** The record the waiting loop writes at each round. *)
Definition waiting_record (referenceFile : string) : level * string :=
  (INFO, service_name ++ ": Waiting for GMAP database to be "
         ++ "created for " ++ referenceFile).

(** ** [GMAPService._resolveAlgorithmOptions] *)

Module Py.

(** [s.split(sep)] for a one-character separator. *)
Fixpoint split (sep : ascii) (s : string) : list string :=
  match s with
  | EmptyString => [""]
  | String c r =>
      if Ascii.eqb c sep then "" :: split sep r
      else match split sep r with
           | x :: xs => String c x :: xs
           | [] => [String c ""]
           end
  end.

(** [sep.join(l)] *)
Fixpoint join (sep : string) (l : list string) : string :=
  match l with
  | [] => ""
  | [x] => x
  | x :: xs => x ++ sep ++ join sep xs
  end.

(** [del l[i:j]] *)
Definition del_slice {A} (i j : nat) (l : list A) : list A :=
  (firstn i l ++ skipn (Nat.max i j) l)%list.

(** [x in l] for strings *)
Definition str_in (x : string) (l : list string) : bool :=
  existsb (String.eqb x) l.

Definition is_space (c : ascii) : bool :=
  let n := nat_of_ascii c in
  ((n =? 32) || ((9 <=? n) && (n <=? 13)))%nat.

Fixpoint lstrip (s : string) : string :=
  match s with
  | String c r => if is_space c then lstrip r else s
  | EmptyString => ""
  end.

Fixpoint rstrip (s : string) : string :=
  match s with
  | EmptyString => ""
  | String c r =>
      match rstrip r with
      | EmptyString => if is_space c then "" else String c ""
      | r' => String c r'
      end
  end.

Definition digit (c : ascii) : option Z :=
  let n := nat_of_ascii c in
  if ((48 <=? n) && (n <=? 57))%nat then Some (Z.of_nat (n - 48)) else None.

Fixpoint digits (acc : Z) (s : string) : option Z :=
  match s with
  | EmptyString => Some acc
  | String c r =>
      match digit c with
      | Some d => digits (10 * acc + d) r
      | None => None
      end
  end.

(** [int(s)] for a string: blanks around, an optional sign, decimal
    digits; [None] stands for [ValueError]. *)
Definition int (s : string) : option Z :=
  match lstrip (rstrip s) with
  | EmptyString => None
  | String c r =>
      if Ascii.eqb c "-" then
        match r with
        | EmptyString => None
        | _ => option_map Z.opp (digits 0 r)
        end
      else if Ascii.eqb c "+" then
        match r with
        | EmptyString => None
        | _ => digits 0 r
        end
      else digits 0 (String c r)
  end.

(** [str(n)] for an int *)
Definition str_int (n : Z) : string := NilZero.string_of_int (Z.to_int n).

(** [str(x)] for an int or [None] *)
Definition str_opt (x : option Z) : string :=
  match x with Some n => str_int n | None => "None" end.

(** [str(x)] for a string or [None] *)
Definition str_or_None (x : option string) : string :=
  match x with Some s => s | None => "None" end.

End Py.

(** The options [gmap.py] reads, as the argument parser of [pbalign]
    leaves them: [algorithmOptions] a string or [None], the others an
    int or [None]. *)
Record Options := mkOptions {
  algorithmOptions : option string;
  maxHits : option Z;
  minAnchorSize : option Z;
  nproc : option Z
}.

Definition set_nproc (v : option Z) (o : Options) : Options :=
  mkOptions (algorithmOptions o) (maxHits o) (minAnchorSize o) v.
Definition set_algorithmOptions (v : option string) (o : Options) : Options :=
  mkOptions v (maxHits o) (minAnchorSize o) (nproc o).

Definition unsupportedOptions : list string :=
  ["-1"; "--selfalign"; "-2"; "--pairalign";
   "--cmdline"; "--cmetdir"; "--atoidir";
   "-v"; "--use-snps";
   "-V"; "--snpsdir"].

Definition ignoredBinaryOptions : list string := ["-D"; "-d"].

Definition ignoredUnitaryOptions : list string :=
  ["-S"; "-A"; "-3"; "-4"; "-Z"; "-E";
   "-P"; "-Q"; "-5"; "--no-sam-headers";
   "-f"; "--sam-use-0M"; "--dir"; "--db";
   "--kmer"; "--nthreads"; "--npaths";
   "--help"; "--version"].

(** How one round of the loop ends: with the list and the options it
    leaves, or with the text of the exception it raises. *)
Inductive round :=
| Goes_on (items : list string) (options : Options) (w : World)
| Raises (text : string) (options : Options) (w : World).

(** [int(items[j])]: the value, or the text of the [IndexError] or
    [ValueError]. *)
Definition int_item (items : list string) (j : nat) : string + Z :=
  match nth_error items j with
  | None => inl "list index out of range"
  | Some s =>
      match Py.int s with
      | Some v => inr v
      | None => inl ("invalid literal for int() with base 10: '" ++ s ++ "'")
      end
  end.

(** The end of the loop body: [if errMsg != "": ...] and
    [if infoMsg != "": ...]. *)
Definition round_end (infoMsg errMsg : string) (items : list string)
    (options : Options) (w : World) : round :=
  if negb (errMsg =? "") then
    Raises errMsg options (logging ERROR errMsg w)
  else if negb (infoMsg =? "") then
    Goes_on items options
      (logging INFO (service_name ++ ": Resolve algorithmOptions. " ++ infoMsg)
         w)
  else Goes_on items options w.

(** The body of [while i < len(items)]. *)
Definition resolve_round (i : nat) (items : list string) (options : Options)
    (w : World) : round :=
  let item := hd "" (Py.split "=" (nth i items "")) in
  if Py.str_in item unsupportedOptions then
    Raises ("Unsupported option: " ++ item) options w
  else if Py.str_in item ignoredUnitaryOptions then
    round_end ("Ignore option: " ++ item) ""
      (Py.del_slice i (i + 1) items) options w
  else if Py.str_in item ignoredBinaryOptions then
    round_end ("Ignore option: " ++ item) ""
      (Py.del_slice i (i + 2) items) options w
  else if item =? "-k" then
    match int_item items (i + 1) with
    | inl text => Raises text options w
    | inr val =>
        if match minAnchorSize options with
           | Some v => (v =? val)%Z
           | None => false
           end
        then round_end "" "" (Py.del_slice i (i + 2) items) options w
        else round_end ""
               ("Found conflicting options: "
                ++ "--algorithmOptions '-k=" ++ Py.str_int val ++ "'"
                ++ "and --minAnchorSize=" ++ Py.str_opt (minAnchorSize options)
                ++ ".")
               items options w
    end
  else if item =? "-t" then
    match int_item items (i + 1) with
    | inl text => Raises text options w
    | inr val =>
        let infoMsg :=
          if match nproc options with
             | None => true
             | Some v => negb (v =? val)%Z
             end
          then "Over write nproc with " ++ Py.str_int val ++ "."
          else "" in
        round_end infoMsg "" (Py.del_slice i (i + 2) items)
          (set_nproc (Some val) options) w
    end
  else if item =? "-n" then
    match int_item items (i + 1) with
    | inl text => Raises text options w
    | inr val =>
        if match maxHits options with
           | Some v => (v =? val)%Z
           | None => false
           end
        then round_end "" "" (Py.del_slice i (i + 2) items) options w
        else round_end ""
               ("Found conflicting options: "
                ++ "--algorithmsOptions '-n={n}' and "
                ++ "--maxHits=" ++ Py.str_opt (maxHits options) ++ ".")
               items options w
    end
  else round_end "" "" items options w.

(** [while i < len(items)]; the code never changes [i].  [None] when
    the loop is still running after [fuel] rounds. *)
Fixpoint resolve_loop (fuel i : nat) (items : list string) (options : Options)
    (w : World) : option round :=
  if (i <? List.length items)%nat then
    match fuel with
    | 0 => None
    | S fuel' =>
        match resolve_round i items options w with
        | Goes_on items' options' w' => resolve_loop fuel' i items' options' w'
        | Raises text options' w' => Some (Raises text options' w')
        end
    end
  else Some (Goes_on items options w).

(** How the method ends. *)
Inductive resolved :=
| Returned
| ValueError (msg : string).

(** [GMAPService._resolveAlgorithmOptions]: how it ends, the [options]
    object as it leaves it (the object it returns when it returns), and
    the world. *)
Definition _resolveAlgorithmOptions (fuel : nat) (options : Options)
    (w : World) : option (resolved * Options * World) :=
  match algorithmOptions options with
  | None => Some (Returned, options, w)
  | Some ao =>
      let items := Py.split " " ao in
      let i := 0 in
      match resolve_loop fuel i items options w with
      | None => None
      | Some (Raises text options w) =>
          let errMsg := "An error occured during parsing algorithmOptions "
                        ++ "'" ++ ao ++ "': " in
          Some (ValueError (errMsg ++ text), options,
                logging ERROR (errMsg ++ text) w)
      | Some (Goes_on items options w) =>
          Some (Returned,
                set_algorithmOptions (Some (Py.join " " items)) options, w)
      end
  end.

(** An option the loop knows what to do with. *)
Definition recognised (item : string) : bool :=
  Py.str_in item unsupportedOptions || Py.str_in item ignoredUnitaryOptions
  || Py.str_in item ignoredBinaryOptions
  || (item =? "-k") || (item =? "-t") || (item =? "-n").

(** What the loop keeps about the options, whatever happens. *)
Definition same_limits (o o' : Options) : Prop :=
  algorithmOptions o' = algorithmOptions o
  /\ maxHits o' = maxHits o /\ minAnchorSize o' = minAnchorSize o.

(** What one round of the loop may do to the list [items], the options
    [o] and the world [w]: raise with the options as they were, or go
    on with a shorter list, or go on with nothing changed at all. *)
Definition round_ok (items : list string) (o : Options) (w : World)
    (r : round) : Prop :=
  match r with
  | Raises text o' w' => o' = o /\ shell w' = shell w /\ fs w' = fs w
  | Goes_on items' o' w' =>
      same_limits o o' /\ shell w' = shell w /\ fs w' = fs w
      /\ (List.length items' < List.length items
          \/ (items' = items /\ o' = o /\ w' = w))
  end.


(** ** The rest of [GMAPService]: the command line and the preprocessing *)

(** The attributes of [PBAlignFiles] that [_toCmd] reads; both are
    [None] until the caller sets them. *)
Record PBAlignFiles := mkFiles {
  queryFileName : option string;
  alignerSamOut : option string
}.

(** Temporary file managers are objects, and a service and its caller
    may hold the same one: they live in a store and are passed by
    reference. *)
Definition Managers := nat -> TempFileManager.

Definition put (ref : nat) (m : TempFileManager) (h : Managers) : Managers :=
  fun r => if (r =? ref)%nat then m else h r.

(** The attributes of a [GMAPService] that the code at hand uses;
    [_tempFileManager] is set by the constructor of [AlignService]. *)
Record GMAPService := mkService {
  _tempFileManager : nat;
  dbRoot : option string;
  dbName : string
}.

Definition set_db (root : option string) (name : string) (self : GMAPService)
  : GMAPService :=
  mkService (_tempFileManager self) root name.

(** What [GMAPService.__init__] sets after the constructor of the
    parent class. *)
Definition GMAPService_init (tempFileManager : nat) : GMAPService :=
  mkService tempFileManager None "gmap_db".

Definition dquote : string := String (ascii_of_nat 34) "".

(** [GMAPService._toCmd] *)
Definition _toCmd (self : GMAPService) (options : Options)
    (fileNames : PBAlignFiles) (tempFileManager : nat) : string :=
  let cmdStr :=
    ("gmap -D " ++ Py.str_or_None (dbRoot self) ++ " ")
    ++ ("-d " ++ dbName self ++ " -f samse ")
    ++ ("--sam-use-0M " ++ Py.str_or_None (queryFileName fileNames) ++ " ") in
  let cmdStr :=
    match maxHits options with
    | Some n => cmdStr ++ ("-n " ++ Py.str_int n ++ " ")
    | None => cmdStr
    end in
  let cmdStr :=
    match minAnchorSize options with
    | Some k => cmdStr ++ ("-k " ++ Py.str_int k ++ " ")
    | None => cmdStr
    end in
  let cmdStr :=
    match nproc options with
    | Some t => cmdStr ++ ("-t " ++ Py.str_int t ++ " ")
    | None => cmdStr
    end in
  let cmdStr :=
    match algorithmOptions options with
    | Some ao => cmdStr ++ (ao ++ " ")
    | None => cmdStr
    end in
  cmdStr ++ ("> " ++ Py.str_or_None (alignerSamOut fileNames) ++ " ").

Section PreProcess.

Variable E : Env.

(** [getFileFormat(inputFileName) == FILE_FORMATS.FASTA]; the function
    is defined in [pbalign.utils.fileutil]. *)
Variable isFasta : string -> bool.

(** The external program [pls2fasta]: given its command line, the file
    system and the time, the file system it leaves, its exit code and
    its error output. *)
Variable pls2fasta : string -> FS -> nat -> FS * (Z * string).

(** [backticks(cmdStr)] for the conversion command. *)
Definition backticks_pls2fasta (cmdStr : string) (w : World)
  : (Z * string) * World :=
  let '(f, status) := pls2fasta cmdStr (fs w) (clock w) in
  (status, set_fs f w).

(** The command line [_pls2fasta] builds. *)
Definition pls2fasta_cmdStr (inputFileName outFastaFile : string)
    (regionTable : option string) (noSplitSubreads : bool) : string :=
  let cmdStr := "pls2fasta " ++ inputFileName ++ " " ++ outFastaFile ++ " " in
  let cmdStr :=
    match regionTable with
    | Some rt =>
        if negb (rt =? "") then cmdStr ++ (" -regionTable " ++ rt ++ " ")
        else cmdStr
    | None => cmdStr
    end in
  if noSplitSubreads then cmdStr ++ " -noSplitSubreads " else cmdStr.

(** [FastaBasedAlignService._pls2fasta] *)
Definition _pls2fasta (self : GMAPService) (inputFileName : string)
    (regionTable : option string) (noSplitSubreads : bool)
    (h : Managers) (w : World) : result string * Managers * World :=
  if isFasta inputFileName then (Ok inputFileName, h, w)
  else
    let ref := _tempFileManager self in
    match RegisterNewTmpFile E false "" ".fasta" "" (h ref) w with
    | (Raise e, m, w) => (Raise e, put ref m h, w)
    | (Ok outFastaFile, m, w) =>
        let h := put ref m h in
        let cmdStr :=
          pls2fasta_cmdStr inputFileName outFastaFile regionTable
            noSplitSubreads in
        let w :=
          logging INFO
            (service_name ++ ": Convert " ++ inputFileName
             ++ " to FASTA format.") w in
        let w :=
          logging DEBUG
            (service_name ++ ": Call " ++ dquote ++ cmdStr ++ dquote) w in
        let '((errCode, errMsg), w) := backticks_pls2fasta cmdStr w in
        if negb (errCode =? 0)%Z then
          let errMsg :=
            errMsg ++ ("Failed to convert " ++ inputFileName ++ " to "
                       ++ outFastaFile ++ ".") in
          (Raise (RuntimeError errMsg), h, logging ERROR errMsg w)
        else (Ok outFastaFile, h, w)
    end.

(** [GMAPService._preProcess]; [None] when the wait for the lock of the
    database has not ended after [fuel] rounds. *)
Definition _preProcess (fuel : nat) (self : GMAPService)
    (inputFileName referenceFile : string) (regionTable : option string)
    (noSplitSubreads : bool) (tempFileManager : nat)
    (isWithinRepository : bool) (h : Managers) (w : World)
  : option (result string * GMAPService * Managers * World) :=
  match _gmapCreateDB E fuel referenceFile isWithinRepository
          (defaultRootDir (h tempFileManager)) w with
  | None => None
  | Some (Raise e, w) => Some (Raise e, self, h, w)
  | Some (Ok (root, name), w) =>
      let self := set_db (Some root) name self in
      let '(registration, h, w) :=
        if negb isWithinRepository then
          let '(r, m, w) :=
            RegisterExistingTmpFile E (Path.join root name) true true
              (h tempFileManager) w in
          (r, put tempFileManager m h, w)
        else (Ok "", h, w) in
      match registration with
      | Raise e => Some (Raise e, self, h, w)
      | Ok _ =>
          let '(r, h, w) :=
            _pls2fasta self inputFileName regionTable noSplitSubreads h w in
          Some (r, self, h, w)
      end
  end.

End PreProcess.

(** A conversion program that writes its output file, and one that
    fails. *)
Definition good_pls2fasta (cmdStr : string) (f : FS) (t : nat)
  : FS * (Z * string) :=
  (fs_set (nth 2 (Py.split " " cmdStr) "") (Some RegFile) f, (0%Z, "")).

Definition bad_pls2fasta (cmdStr : string) (f : FS) (t : nat)
  : FS * (Z * string) :=
  (f, (1%Z, "pls2fasta: cannot open input. ")).

Definition fasta_suffix (p : string) : bool :=
  match Py.split "." p with
  | [] => false
  | x :: xs => last (x :: xs) "" =? "fasta"
  end.

(** Where the thread count that [_resolveAlgorithmOptions] leaves comes
    from: it is the one passed in, or an item of the list that reads as
    an int. *)
Definition nproc_from (items : list string) (o o' : Options) : Prop :=
  nproc o' = nproc o
  \/ exists s v, In s items /\ Py.int s = Some v /\ nproc o' = Some v.

(** A store in which every reference holds the manager [m]. *)
Definition all_managers (m : TempFileManager) : Managers := fun _ => m.

(** A scratch directory, a reference outside any repository and reads
    to convert. *)
Definition run_world : World :=
  world_of [("/", Directory); ("/tmp", Directory); ("/tmp/w", Directory);
            ("/data", Directory); ("/data/ref.fa", RegFile);
            ("/data/in.bas.h5", RegFile)].

(** A builder that exits with 0 and writes nothing. *)
Definition idle_builder (dbName dbRoot inFa : string) (f : FS) (t : nat)
  : FS * (Z * string) :=
  (f, (0%Z, "")).

(** As [calm], with the idle builder. *)
Definition idle : Env :=
  mkEnv (fun p => p) (fun _ _ => false) decimal 100 "/tmp"
        (fun n => (100000 + Z.of_nat n)%Z) idle_builder (fun _ f => f).
(** * Properties *)

(** ** Strings and paths *)

Lemma prefix_app (a x : string) : String.prefix a (a ++ x) = true.
Proof.
  induction a as [|c a IH]; simpl.
  - now destruct x.
  - destruct (ascii_dec c c) as [_|n]; [exact IH | now elim n].
Qed.

Lemma string_length_app (a x : string) :
  String.length (a ++ x) = String.length a + String.length x.
Proof. induction a as [|c a IH]; simpl; [reflexivity | now rewrite IH]. Qed.

Lemma app_neq_self (a x : string) : x <> "" -> a ++ x <> a.
Proof.
  intros Hx Heq. apply (f_equal String.length) in Heq.
  rewrite string_length_app in Heq. destruct x; [now elim Hx | simpl in Heq; lia].
Qed.

Lemma app_empty_r (a : string) : a ++ "" = a.
Proof. induction a as [|c a IH]; simpl; [reflexivity | now rewrite IH]. Qed.

Lemma app_assoc_str (a b c : string) : (a ++ b) ++ c = a ++ b ++ c.
Proof. induction a as [|x a IH]; simpl; [reflexivity | now rewrite IH]. Qed.

(** A relative component is appended below the directory. *)
Lemma join_relative (a b : string) :
  Path.startswith_slash b = false -> Path.join a b = Path.join a "" ++ b.
Proof.
  intros Hb. unfold Path.join. rewrite Hb. simpl.
  destruct ((a =? "") || Path.endswith_slash a).
  - now rewrite app_empty_r.
  - now rewrite app_assoc_str.
Qed.

Lemma join_within (a b : string) :
  Path.startswith_slash b = false -> Path.within a (Path.join a b) = true.
Proof.
  intros Hb. unfold Path.within. rewrite (join_relative a b Hb).
  rewrite prefix_app. apply orb_true_r.
Qed.

Lemma join_neq (a b : string) :
  Path.startswith_slash b = false -> b <> "" -> Path.join a b <> a.
Proof.
  intros Hb Hne. unfold Path.join. rewrite Hb.
  destruct ((a =? "") || Path.endswith_slash a).
  - now apply app_neq_self.
  - apply app_neq_self. discriminate.
Qed.

Lemma within_refl (p : string) : Path.within p p = true.
Proof. unfold Path.within. now rewrite String.eqb_refl. Qed.

(** ** The platform operations *)

#[local] Arguments String.append : simpl never.

Section OSFacts.

Variable E : Env.

Lemma isExist_logging l m p w : isExist p (logging l m w) = isExist p w.
Proof. reflexivity. Qed.

Lemma isExist_sleep n p w : isExist p (sleep n w) = isExist p w.
Proof. reflexivity. Qed.



(** What [os.remove] does, case by case. *)
Lemma remove_cases p w :
  (fs w p = Some RegFile /\ fault E p (clock w) = false /\
   remove E p w = (Ok tt, set_fs (fs_set p None (fs w)) w))
  \/ (exists e, remove E p w = (Raise (OSError e), w)).
Proof.
  unfold remove. destruct (fs w p) as [[|]|]; eauto.
  destruct (fault E p (clock w)); eauto.
Qed.

(** What [shutil.rmtree] does, case by case. *)
Lemma rmtree_cases p w :
  (fs w p = Some Directory /\ fault E p (clock w) = false /\
   rmtree E p w = (Ok tt, set_fs (fs_prune p (fs w)) w))
  \/ (exists e, rmtree E p w = (Raise (OSError e), w)).
Proof.
  unfold rmtree. destruct (fs w p) as [[|]|]; eauto.
  destruct (fault E p (clock w)); eauto.
Qed.





Lemma isExist_pruned p w : isExist p (set_fs (fs_prune p (fs w)) w) = false.
Proof. unfold isExist, fs_prune. simpl. now rewrite within_refl. Qed.

(** The retry loop never lets an exception through. *)
Lemma rmtree_retry_total left : forall times p w,
  exists t w', rmtree_retry E left times p w = (Ok t, w').
Proof.
  induction left as [|left IH]; intros times p w; simpl; eauto.
  destruct (rmtree_cases p w) as [(_ & _ & H)|[e H]]; rewrite H; simpl; eauto.
Qed.


End OSFacts.

(** ** The cleanup engine *)

Section CleanUpFacts.

Variable E : Env.

Lemma shrinks_refl w : shrinks w w.
Proof. split; [auto | exists []; now rewrite app_nil_r]. Qed.

Lemma shrinks_trans w1 w2 w3 : shrinks w1 w2 -> shrinks w2 w3 -> shrinks w1 w3.
Proof.
  intros [Hf1 [l1 Hl1]] [Hf2 [l2 Hl2]]. split; [auto|].
  exists (l1 ++ l2)%list. now rewrite Hl2, Hl1, app_assoc.
Qed.

Lemma shrinks_isExist w w' p :
  shrinks w w' -> isExist p w = false -> isExist p w' = false.
Proof.
  intros [Hf _]. unfold isExist. destruct (fs w p) eqn:Hp; [discriminate|].
  now rewrite (Hf p Hp).
Qed.

Lemma shrinks_log w w' e : shrinks w w' -> In e (log w) -> In e (log w').
Proof. intros [_ [l Hl]] Hin. rewrite Hl. apply in_or_app. now left. Qed.

(** The retry loop ends without an exception, having logged nothing;
    either it pruned the tree before the budget ran out or it used the
    whole budget and left the file system as it was. *)
Lemma rmtree_retry_outcome p : forall left times w,
  exists t w',
    rmtree_retry E left times p w = (Ok t, w')
    /\ log w' = log w
    /\ ((t < times + left /\ fs w' = fs_prune p (fs w))
        \/ (t = times + left /\ fs w' = fs w)).
Proof.
  induction left as [|left IH]; intros times w; simpl.
  - exists times, w. split; [reflexivity|]. split; [reflexivity|].
    right. split; [lia | reflexivity].
  - destruct (rmtree_cases E p w) as [(_ & _ & H)|[e H]]; rewrite H; simpl.
    + eexists _, _. split; [reflexivity|]. split; [reflexivity|].
      left. split; [lia | reflexivity].
    + destruct (IH (S times) (sleep 3 w)) as (t & w' & Hr & Hl & Hc).
      exists t, w'. rewrite Hr. split; [reflexivity|]. split; [exact Hl|].
      destruct Hc as [[Ht Hf]|[Ht Hf]]; [left | right]; (split; [lia | exact Hf]).
Qed.

(** One directory: never an exception; the tree is gone, or it is
    untouched and exactly one warning follows the debug record. *)
Lemma CleanUp_dir_outcome obj w :
  exists w',
    CleanUp_dir E obj w = (Ok tt, w')
    /\ ((fs w' = fs_prune (name obj) (fs w)
         /\ log w' = (log w ++ [debug_dir obj])%list)
        \/ (fs w' = fs w
            /\ log w' = (log w ++ [debug_dir obj; warn_dir obj])%list)).
Proof.
  unfold CleanUp_dir.
  destruct (rmtree_retry_outcome (name obj) maxTry 0
              (logging DEBUG ("Remove a temporary dir " ++ name obj) w))
    as (t & w' & Hr & Hl & Hc).
  rewrite Hr. destruct Hc as [[Ht Hf]|[Ht Hf]].
  - replace (maxTry <=? t)%nat with false
      by (symmetry; apply Nat.leb_gt; exact Ht).
    exists w'. split; [reflexivity|]. left. split; [exact Hf | exact Hl].
  - replace (maxTry <=? t)%nat with true
      by (symmetry; apply Nat.leb_le; lia).
    eexists. split; [reflexivity|]. right. split; [exact Hf|].
    unfold logging at 1. simpl. rewrite Hl. simpl.
    now rewrite <- app_assoc.
Qed.

Lemma fs_prune_None p f q : f q = None -> fs_prune p f q = None.
Proof. unfold fs_prune. intros ->. now destruct (Path.within p q). Qed.

Lemma CleanUp_dir_shrinks obj w w' :
  CleanUp_dir E obj w = (Ok tt, w') -> shrinks w w'.
Proof.
  intros H. destruct (CleanUp_dir_outcome obj w) as (w1 & H1 & Hc).
  rewrite H in H1. injection H1 as <-.
  destruct Hc as [[Hf Hl]|[Hf Hl]]; split; eauto; intros q Hq; rewrite Hf; auto.
  now apply fs_prune_None.
Qed.

(** The directory loop drains its stack and never raises. *)
Lemma CleanUp_dirs_total realDelete : forall stack w,
  exists w', CleanUp_dirs E realDelete stack w = (Ok tt, [], w').
Proof.
  induction stack as [|obj stack IH]; intros w; simpl; eauto.
  destruct (realDelete && own obj && isExist (name obj) w); [|apply IH].
  destruct (CleanUp_dir_outcome obj w) as (w1 & H1 & _). rewrite H1. apply IH.
Qed.

Lemma CleanUp_dirs_keep : forall stack w,
  CleanUp_dirs E false stack w = (Ok tt, [], w).
Proof. induction stack as [|obj stack IH]; intros w; simpl; auto. Qed.

Lemma CleanUp_files_keep : forall stack w,
  CleanUp_files E false stack w = (Ok tt, [], w).
Proof. induction stack as [|obj stack IH]; intros w; simpl; auto. Qed.

(** What the directory loop leaves behind. *)
Lemma CleanUp_dirs_post : forall stack w w',
  CleanUp_dirs E true stack w = (Ok tt, [], w') ->
  shrinks w w'
  /\ (forall obj, In obj stack -> own obj = true ->
        isExist (name obj) w' = false \/ In (warn_dir obj) (log w'))
  /\ (forall q,
        (forall obj, In obj stack -> own obj = true ->
           Path.within (name obj) q = false) ->
        fs w' q = fs w q).
Proof.
  induction stack as [|obj stack IH]; intros w w' H; simpl in H.
  - injection H as <-. split; [apply shrinks_refl|].
    split; [intros ? []| reflexivity].
  - destruct (own obj) eqn:Hown; simpl in H.
    + destruct (isExist (name obj) w) eqn:Hex.
      * destruct (CleanUp_dir_outcome obj w) as (w1 & H1 & Hc).
        rewrite H1 in H. destruct (IH _ _ H) as (Hs & Hd & Hq).
        pose proof (CleanUp_dir_shrinks _ _ _ H1) as Hs1.
        split; [eapply shrinks_trans; eauto|]. split.
        -- intros o [<-|Hin] Ho; [|now apply Hd].
           destruct Hc as [[Hf _]|[_ Hl]].
           ++ left. apply (shrinks_isExist w1 w'); [exact Hs|].
              unfold isExist. rewrite Hf. unfold fs_prune.
              now rewrite within_refl.
           ++ right. apply (shrinks_log w1 w'); [exact Hs|].
              rewrite Hl. apply in_or_app. right. simpl. auto.
        -- intros q Hout. rewrite Hq by (intros; apply Hout; simpl; auto).
           destruct Hc as [[Hf _]|[Hf _]]; rewrite Hf; [|reflexivity].
           unfold fs_prune. now rewrite (Hout obj (or_introl eq_refl) Hown).
      * destruct (IH _ _ H) as (Hs & Hd & Hq).
        split; [exact Hs|]. split.
        -- intros o [<-|Hin] Ho; [|now apply Hd].
           left. now apply (shrinks_isExist w w').
        -- intros q Hout. apply Hq. intros; apply Hout; simpl; auto.
    + destruct (IH _ _ H) as (Hs & Hd & Hq).
      split; [exact Hs|]. split.
      * intros o [<-|Hin] Ho; [congruence | now apply Hd].
      * intros q Hout. apply Hq. intros; apply Hout; simpl; auto.
Qed.

Lemma remove_shrinks p w w' : remove E p w = (Ok tt, w') -> shrinks w w'.
Proof.
  intros H. destruct (remove_cases E p w) as [(_ & _ & H1)|[e H1]];
    rewrite H1 in H; [|discriminate].
  injection H as <-. split; [|exists []; simpl; now rewrite app_nil_r].
  intros q Hq. simpl. unfold fs_set. now destruct (q =? p).
Qed.

Lemma logging_shrinks l m w : shrinks w (logging l m w).
Proof. split; [auto | now exists [(l, m)]]. Qed.

Lemma remove_logging l m p w :
  remove E p (logging l m w)
  = (fst (remove E p w), logging l m (snd (remove E p w))).
Proof.
  unfold remove. simpl. destruct (fs w p) as [[|]|]; try reflexivity.
  destruct (fault E p (clock w)); reflexivity.
Qed.


Lemma CleanUp_files_cons realDelete obj stack w :
  CleanUp_files E realDelete (obj :: stack) w
  = if realDelete && own obj && isExist (name obj) w then
      match remove E (name obj)
              (logging DEBUG ("Remove a temporary file " ++ name obj) w) with
      | (Ok _, w2) => CleanUp_files E realDelete stack w2
      | (Raise e, w2) => (Raise e, stack, w2)
      end
    else CleanUp_files E realDelete stack w.
Proof. reflexivity. Qed.

(** What the file loop leaves behind when it ends normally. *)
Lemma CleanUp_files_post : forall stack w rest w',
  CleanUp_files E true stack w = (Ok tt, rest, w') ->
  rest = []
  /\ shrinks w w'
  /\ (forall obj, In obj stack -> own obj = true ->
        isExist (name obj) w' = false)
  /\ (forall q,
        (forall obj, In obj stack -> own obj = true -> name obj <> q) ->
        fs w' q = fs w q).
Proof.
  induction stack as [|obj stack IH]; intros w rest w' H.
  - simpl in H. injection H as <- <-. split; [reflexivity|].
    split; [apply shrinks_refl|]. split; [intros ? []| reflexivity].
  - rewrite CleanUp_files_cons in H.
    destruct (own obj) eqn:Hown; cbn [andb] in H.
    + destruct (isExist (name obj) w) eqn:Hex.
      * rewrite remove_logging in H.
        destruct (remove_cases E (name obj) w) as [(_ & _ & H1)|[e H1]];
          rewrite H1 in H; cbn [fst snd] in H; [|discriminate].
        destruct (IH _ _ _ H) as (Hr & Hs & Hd & Hq).
        split; [exact Hr|]. split.
        { eapply shrinks_trans; [|exact Hs].
          eapply shrinks_trans; [|apply logging_shrinks].
          eapply remove_shrinks; exact H1. }
        split.
        -- intros o [<-|Hin] Ho; [|now apply Hd].
           eapply shrinks_isExist; [exact Hs|].
           unfold isExist, fs_set. simpl. now rewrite String.eqb_refl.
        -- intros q Hout. rewrite Hq by (intros; apply Hout; simpl; auto).
           simpl. unfold fs_set.
           destruct (q =? name obj) eqn:Heq; [|reflexivity].
           apply String.eqb_eq in Heq. subst q.
           now elim (Hout obj (or_introl eq_refl) Hown).
      * destruct (IH _ _ _ H) as (Hr & Hs & Hd & Hq).
        split; [exact Hr|]. split; [exact Hs|]. split.
        -- intros o [<-|Hin] Ho; [|now apply Hd].
           now apply (shrinks_isExist w w').
        -- intros q Hout. apply Hq. intros; apply Hout; simpl; auto.
    + destruct (IH _ _ _ H) as (Hr & Hs & Hd & Hq).
      split; [exact Hr|]. split; [exact Hs|]. split.
      * intros o [<-|Hin] Ho; [congruence | now apply Hd].
      * intros q Hout. apply Hq. intros; apply Hout; simpl; auto.
Qed.


End CleanUpFacts.

(** ** Claims about [CleanUp] *)




(** C5 (as amended).  When [CleanUp] returns normally both registries
    are empty and the root directory is cleared, whatever [realDelete]
    is.  With [realDelete] false the world is left as it was.  With
    [realDelete] true every owned registered file is gone, and every
    owned registered directory is gone or a warning that it could not
    be removed has been logged.  In every case a path that is not an
    owned registered file and is not inside an owned registered
    directory is left as it was. *)
Theorem CleanUp_postcondition (E : Env) (realDelete : bool)
    (self self' : TempFileManager) (w w' : World) :
  CleanUp E realDelete self w = (Ok tt, self', w') ->
  self' = mkManager "" [] []
  /\ (realDelete = false -> w' = w)
  /\ (realDelete = true ->
      (forall obj, In obj (fileDB self) -> own obj = true ->
         isExist (name obj) w' = false)
      /\ (forall obj, In obj (dirDB self) -> own obj = true ->
            isExist (name obj) w' = false \/ In (warn_dir obj) (log w')))
  /\ (forall q,
        (forall obj, In obj (fileDB self) -> own obj = true ->
           name obj <> q) ->
        (forall obj, In obj (dirDB self) -> own obj = true ->
           Path.within (name obj) q = false) ->
        fs w' q = fs w q).
Proof.
  unfold CleanUp. destruct realDelete.
  - destruct (CleanUp_files E true (rev (fileDB self)) w)
      as [[[[]|e] stack] w1] eqn:H1; [|discriminate].
    destruct (CleanUp_files_post E _ _ _ _ H1) as (-> & Hs1 & Hd1 & Hq1).
    destruct (CleanUp_dirs_total E true
                (rev (dirDB (set_fileDB (rev []) self))) w1) as [w2 H2].
    rewrite H2. intros H. injection H as <- <-.
    destruct (CleanUp_dirs_post E _ _ _ H2) as (Hs2 & Hd2 & Hq2).
    split; [reflexivity|]. split; [discriminate|]. split.
    + intros _. split.
      * intros obj Hin Ho. apply (shrinks_isExist w1 w2 _ Hs2).
        apply Hd1; [now apply in_rev in Hin | exact Ho].
      * intros obj Hin Ho. apply Hd2; [|exact Ho].
        now apply in_rev in Hin.
    + intros q Hf Hd. rewrite Hq2, Hq1; [reflexivity| |].
      * intros obj Hin. apply Hf. now apply in_rev.
      * intros obj Hin. apply Hd. now apply in_rev in Hin.
  - rewrite CleanUp_files_keep, CleanUp_dirs_keep.
    intros H. injection H as <- <-.
    split; [reflexivity|]. split; [reflexivity|]. split; [discriminate|].
    reflexivity.
Qed.

Lemma CleanUp_postcondition_witness :
  (forall obj, In obj (fileDB tidy_manager) -> own obj = true ->
     isExist (name obj)
       (snd (CleanUp calm true tidy_manager tmp_world)) = false)
  /\ fs (snd (CleanUp calm true tidy_manager tmp_world)) "/tmp/w/keep.txt"
     = fs tmp_world "/tmp/w/keep.txt".
Proof.
  destruct (CleanUp_postcondition calm true tidy_manager
              (mkManager "" [] [])
              tmp_world (snd (CleanUp calm true tidy_manager tmp_world))
              eq_refl) as (_ & _ & Hdel & Hkeep).
  split.
  - exact (proj1 (Hdel eq_refl)).
  - apply Hkeep.
    + intros obj [<-|[]] _; discriminate.
    + intros obj [<-|[]] _; reflexivity.
Defined.

(** C5 (as stated) fails.  With [/tmp/busy] refusing to go, [CleanUp]
    returns normally and the owned directory is still on disk, while
    the file [/tmp/w/keep.txt], registered as not owned, has gone with
    the owned directory above it.  And when [CleanUp] raises on the
    way, entries stay registered and the root directory stays set. *)
Lemma CleanUp_leaves_owned_directory :
  (fst (CleanUp (busy 100) true nested_manager tmp_world)
   = (Ok tt, mkManager "" [] [])
   /\ isExist "/tmp/busy"
        (snd (CleanUp (busy 100) true nested_manager tmp_world)) = true
   /\ isExist "/tmp/w/keep.txt" tmp_world = true
   /\ isExist "/tmp/w/keep.txt"
        (snd (CleanUp (busy 100) true nested_manager tmp_world)) = false)
  /\ fst (CleanUp denied true busy_manager tmp_world)
     = (Raise (OSError EACCES),
        mkManager "/tmp/w" [mkTempFile "/tmp/w/keep.txt" true false]
                  [mkTempFile "/tmp/w" true true]).
Proof. repeat split; reflexivity. Qed.

Section Retry.

Variable E : Env.




End Retry.



(** ** The registry *)

Section RegistryFacts.

Variable E : Env.

Lemma existsb_eqb_In (p : string) (l : list string) :
  existsb (String.eqb p) l = true <-> In p l.
Proof.
  rewrite existsb_exists. split.
  - intros (x & Hin & Heq). apply String.eqb_eq in Heq. now subst.
  - intros Hin. exists p. split; [exact Hin | apply String.eqb_refl].
Qed.

Lemma _isRegistered_In p self :
  _isRegistered E p self = true <-> In (abspath_expanduser E p) (registered self).
Proof.
  unfold _isRegistered, registered. rewrite in_app_iff.
  rewrite <- !existsb_eqb_In.
  destruct (existsb (String.eqb (abspath_expanduser E p)) (map name (fileDB self)));
    destruct (existsb (String.eqb (abspath_expanduser E p)) (map name (dirDB self)));
    simpl; intuition discriminate.
Qed.


(** Registering appends one entry to the collection of its kind. *)
Lemma _RegisterTmpFile_registered tmpFile self :
  fst (_RegisterTmpFile tmpFile self) = name tmpFile
  /\ forall q, In q (registered (snd (_RegisterTmpFile tmpFile self)))
               <-> q = name tmpFile \/ In q (registered self).
Proof.
  unfold _RegisterTmpFile, registered.
  destruct (isDir tmpFile); simpl; (split; [reflexivity|]); intros q;
    rewrite map_app; simpl; rewrite !in_app_iff; simpl; intuition.
Qed.


(** [RegisterExistingTmpFile] refuses exactly when a directory is
    expected and the path is not one, when the path is registered, or
    when it does not exist. *)
Lemma RegisterExistingTmpFile_cases thisPath own isDir self w :
  let p := abspath_expanduser E thisPath in
  if (isDir && negb (isdir p w)) || _isRegistered E p self
     || negb (isExist p w)
  then exists msg,
         RegisterExistingTmpFile E thisPath own isDir self w
         = (Raise (IOError msg), self, logging ERROR msg w)
  else RegisterExistingTmpFile E thisPath own isDir self w
       = (Ok p, snd (_RegisterTmpFile (mkTempFile p own isDir) self), w).
Proof.
  intros p. unfold RegisterExistingTmpFile. fold p.
  destruct isDir, (isdir p w), (_isRegistered E p self), (isExist p w);
    cbn [andb orb negb]; try (eexists; reflexivity);
    unfold _RegisterTmpFile; reflexivity.
Qed.

(** An exception leaves the manager as it was. *)
Lemma RegisterExistingTmpFile_raise thisPath own isDir self w e self' w' :
  RegisterExistingTmpFile E thisPath own isDir self w = (Raise e, self', w') ->
  self' = self /\ fs w' = fs w.
Proof.
  pose proof (RegisterExistingTmpFile_cases thisPath own isDir self w) as H.
  cbv zeta in H.
  destruct ((isDir && negb (isdir (abspath_expanduser E thisPath) w))
            || _isRegistered E (abspath_expanduser E thisPath) self
            || negb (isExist (abspath_expanduser E thisPath) w)).
  - destruct H as [msg ->]. intros H. now injection H as _ <- <-.
  - rewrite H. discriminate.
Qed.

Lemma create_cases n p w :
  (fs w p = None /\ isdir (Path.dirname p) w = true
   /\ create E n p w = (Ok tt, set_fs (fs_set p (Some n) (fs w)) w))
  \/ (exists e, create E n p w = (Raise (OSError e), w)).
Proof.
  unfold create. destruct (fs w p); eauto.
  destruct (isdir (Path.dirname p) w); simpl; eauto.
  destruct (fault E p (clock w)); eauto.
Qed.

(** A name that [tempfile] hands out was free and is now taken; the
    loop changes nothing else but the number of draws. *)
Lemma mktemp_loop_ok n dir pre suf : forall tries w file w',
  mktemp_loop E tries n dir pre suf w = (Ok file, w') ->
  (exists nm, file = Path.join dir (pre ++ nm ++ suf))
  /\ fs w file = None
  /\ fs w' = fs_set file (Some n) (fs w)
  /\ clock w' = clock w /\ log w' = log w /\ shell w' = shell w.
Proof.
  induction tries as [|tries IH]; intros w file w' H; [discriminate|].
  cbn [mktemp_loop] in H. cbv zeta in H.
  set (w1 := set_draws (S (draws w)) w) in *.
  set (f := Path.join dir (pre ++ candidate_name E (draws w) ++ suf)) in *.
  destruct (create_cases n f w1) as [(Hfree & _ & Hc)|[e Hc]];
    rewrite Hc in H.
  - injection H as <- <-. split; [now eexists|]. repeat split. exact Hfree.
  - destruct e; try discriminate.
    destruct (IH _ _ _ H) as (Hn & Hfree & Hfs & Hcl & Hl & Hs).
    repeat split; assumption.
Qed.

Lemma mktemp_loop_raise n dir pre suf : forall tries w e w',
  mktemp_loop E tries n dir pre suf w = (Raise e, w') ->
  is_IOError_or_OSError e = true /\ fs w' = fs w /\ log w' = log w.
Proof.
  induction tries as [|tries IH]; intros w e w' H.
  - injection H as <- <-. repeat split.
  - cbn [mktemp_loop] in H. cbv zeta in H.
    set (w1 := set_draws (S (draws w)) w) in *.
    set (f := Path.join dir (pre ++ candidate_name E (draws w) ++ suf)) in *.
    destruct (create_cases n f w1) as [(Hfree & _ & Hc)|[e' Hc]];
      rewrite Hc in H; [discriminate|].
    destruct e'; try (injection H as <- <-; repeat split).
    destruct (IH _ _ _ H) as (He & Hfs & Hl). repeat split; assumption.
Qed.

End RegistryFacts.

(** ** Claims about registration *)

(** C3 (the code departs from it).  An existing directory that is not
    registered yet is adopted with [isDir = False] without any error:
    the test guarding the message "Failed to register a directory as a
    file." asks whether the path exists, not whether it is a
    directory.  The directory ends up in the file registry. *)
Theorem RegisterExistingTmpFile_adopts_directory_as_file (E : Env)
    (thisPath : string) (own : bool) (self : TempFileManager) (w : World) :
  let p := abspath_expanduser E thisPath in
  isdir p w = true ->
  _isRegistered E p self = false ->
  RegisterExistingTmpFile E thisPath own false self w
  = (Ok p, set_fileDB (fileDB self ++ [mkTempFile p own false]) self, w).
Proof.
  intros p Hdir Hreg.
  pose proof (RegisterExistingTmpFile_cases E thisPath own false self w) as H.
  cbv zeta in H. fold p in H. rewrite Hreg in H.
  assert (Hex : isExist p w = true).
  { unfold isExist. unfold isdir in Hdir. now destruct (fs w p). }
  rewrite Hex in H. exact H.
Qed.

Lemma RegisterExistingTmpFile_adopts_directory_as_file_witness :
  isdir "/tmp/d" tmp_world = true
  /\ RegisterExistingTmpFile calm "/tmp/d" true false empty_manager tmp_world
     = (Ok "/tmp/d",
        mkManager "/tmp/w" [mkTempFile "/tmp/d" true false] [], tmp_world).
Proof.
  split; [reflexivity|].
  apply (RegisterExistingTmpFile_adopts_directory_as_file
           calm "/tmp/d" true empty_manager tmp_world); reflexivity.
Defined.

(** The other refusals that C3 lists are in the code: a path that is
    not a directory adopted with [isDir = True], a path that does not
    exist and a path that is registered all raise [IOError]. *)
Lemma RegisterExistingTmpFile_refuses (E : Env) (thisPath : string)
    (own isDir : bool) (self : TempFileManager) (w : World) :
  let p := abspath_expanduser E thisPath in
  (isDir = true /\ isdir p w = false) \/ isExist p w = false
  \/ _isRegistered E p self = true ->
  exists msg,
    RegisterExistingTmpFile E thisPath own isDir self w
    = (Raise (IOError msg), self, logging ERROR msg w).
Proof.
  intros p Hbad.
  pose proof (RegisterExistingTmpFile_cases E thisPath own isDir self w) as H.
  cbv zeta in H. fold p in H.
  destruct Hbad as [[-> Hd]|[Hx|Hr]].
  - rewrite Hd in H. exact H.
  - rewrite Hx in H. now rewrite !orb_true_r in H.
  - rewrite Hr in H. now rewrite orb_true_r in H.
Qed.

(** C10.  When [RegisterExistingTmpFile] raises, the manager - both
    registries and the root directory - is exactly as before the call,
    and so is the file system: every check comes before the entry is
    appended. *)
Theorem RegisterExistingTmpFile_failure_keeps_registry (E : Env)
    (thisPath : string) (own isDir : bool) (self self' : TempFileManager)
    (w w' : World) (e : exn) :
  RegisterExistingTmpFile E thisPath own isDir self w = (Raise e, self', w') ->
  self' = self
  /\ fileDB self' = fileDB self /\ dirDB self' = dirDB self
  /\ fs w' = fs w.
Proof.
  intros H.
  destruct (RegisterExistingTmpFile_raise E _ _ _ _ _ _ _ _ H) as [-> Hfs].
  repeat split. exact Hfs.
Qed.

Lemma RegisterExistingTmpFile_failure_keeps_registry_witness :
  snd (fst (RegisterExistingTmpFile calm "/tmp/missing" true false
              tidy_manager tmp_world)) = tidy_manager
  /\ snd (fst (RegisterExistingTmpFile calm "/tmp/f" true true
                 tidy_manager tmp_world)) = tidy_manager
  /\ snd (fst (RegisterExistingTmpFile calm "/tmp/d" true true
                 tidy_manager tmp_world)) = tidy_manager.
Proof.
  split; [|split].
  - exact (proj1 (RegisterExistingTmpFile_failure_keeps_registry
                    calm "/tmp/missing" true false tidy_manager _
                    tmp_world _ _ eq_refl)).
  - exact (proj1 (RegisterExistingTmpFile_failure_keeps_registry
                    calm "/tmp/f" true true tidy_manager _
                    tmp_world _ _ eq_refl)).
  - exact (proj1 (RegisterExistingTmpFile_failure_keeps_registry
                    calm "/tmp/d" true true tidy_manager _
                    tmp_world _ _ eq_refl)).
Defined.




Section NewFiles.

Variable E : Env.

(** The outcomes of [RegisterNewTmpFile], in the order of the code. *)
Lemma RegisterNewTmpFile_cases isDir rootDir suffix prefix self w :
  let root := if rootDir =? "" then defaultRootDir self else rootDir in
  let R := RegisterNewTmpFile E isDir rootDir suffix prefix self w in
  if (rootDir =? "") && (defaultRootDir self =? "") then
    R = (Raise (IOError "TempManager default root dir not set."), self, w)
  else
    match (if isDir then mkdtemp E (Some root) suffix prefix w
           else mkstemp E (Some root) suffix prefix w) with
    | (Raise e, w1) => R = (Raise e, self, w1)
    | (Ok raw, w1) =>
        let p := abspath_expanduser E raw in
        if _isRegistered E p self then
          exists msg, R = (Raise (IOError msg), self, logging ERROR msg w1)
        else
          R = (Ok p, snd (_RegisterTmpFile (mkTempFile p true isDir) self), w1)
    end.
Proof.
  intros root R. unfold R, RegisterNewTmpFile. fold root.
  destruct ((rootDir =? "") && (defaultRootDir self =? "")); [reflexivity|].
  destruct (if isDir then mkdtemp E (Some root) suffix prefix w
            else mkstemp E (Some root) suffix prefix w) as [[raw|e] w1];
    [|reflexivity].
  cbv zeta. destruct (_isRegistered E (abspath_expanduser E raw) self).
  - eexists. reflexivity.
  - unfold _RegisterTmpFile. destruct isDir; reflexivity.
Qed.

End NewFiles.



(** ** Claims about the root directory *)

(** C7.  When the preferred root, once normalised, is an existing
    directory, [SetRootDir] never takes that directory as the root.  If
    it returns, a directory [tmp...] that did not exist before has been
    created inside the preferred root, it has been appended to the
    directory registry as owned, and it is the new default root
    directory; it differs from the preferred root.  If the
    subdirectory cannot be created the exception leaves the manager as
    it was. *)
Theorem SetRootDir_existing_directory (E : Env) (rootDir : string)
    (self : TempFileManager) (w : World) :
  rootDir <> "" ->
  isdir (abspath_expanduser E rootDir) w = true ->
  match SetRootDir E rootDir self w with
  | (Ok _, self', w') =>
      exists nm,
        let sub := Path.join (abspath_expanduser E rootDir) ("tmp" ++ nm) in
        defaultRootDir self' = sub
        /\ dirDB self' = (dirDB self ++ [mkTempFile sub true true])%list
        /\ fileDB self' = fileDB self
        /\ sub <> abspath_expanduser E rootDir
        /\ Path.within (abspath_expanduser E rootDir) sub = true
        /\ isExist sub w = false
        /\ isdir sub w' = true
  | (Raise _, self', _) => self' = self
  end.
Proof.
  intros Hne Hdir. unfold SetRootDir.
  apply String.eqb_neq in Hne. rewrite Hne. cbn [negb]. rewrite Hdir.
  destruct (mkdtemp E (Some (abspath_expanduser E rootDir)) "" "tmp" w)
    as [[sub|e] w'] eqn:Hmk; [|reflexivity].
  unfold mkdtemp in Hmk. cbn [or_tempdir] in Hmk.
  destruct (mktemp_loop_ok E _ _ _ _ _ _ _ _ Hmk)
    as ([nm Hsub] & Hfree & Hfs & _).
  rewrite app_empty_r in Hsub.
  unfold SetRootDir_finish. exists nm. cbv zeta. rewrite <- Hsub.
  split; [reflexivity|]. split; [reflexivity|]. split; [reflexivity|].
  split; [|split; [|split]].
  - rewrite Hsub. apply join_neq; [reflexivity | discriminate].
  - rewrite Hsub. apply join_within. reflexivity.
  - unfold isExist. now rewrite Hfree.
  - unfold isdir. rewrite Hfs. unfold fs_set. now rewrite String.eqb_refl.
Qed.

Lemma SetRootDir_existing_directory_witness :
  isdir "/tmp" tmp_world = true
  /\ exists sub w',
       SetRootDir calm "/tmp" empty_manager tmp_world
       = (Ok tt, mkManager sub [] [mkTempFile sub true true], w')
       /\ sub <> "/tmp"
       /\ Path.within "/tmp" sub = true
       /\ isExist sub tmp_world = false
       /\ isdir sub w' = true.
Proof.
  split; [reflexivity|].
  pose proof (SetRootDir_existing_directory calm "/tmp" empty_manager
                tmp_world) as H.
  assert (Hne : "/tmp" <> "") by discriminate.
  specialize (H Hne eq_refl).
  destruct (SetRootDir calm "/tmp" empty_manager tmp_world)
    as [[[[]|e] self'] w'] eqn:Hrun.
  - destruct H as (nm & Hroot & Hdirs & Hfiles & Hneq & Hin & Hfree & Hdir).
    exists (Path.join "/tmp" ("tmp" ++ nm)), w'.
    split; [|repeat split; assumption].
    destruct self' as [d fl dl]. cbn in Hroot, Hdirs, Hfiles.
    now rewrite Hroot, Hdirs, Hfiles.
  - vm_compute in Hrun. discriminate.
Defined.

(** ** The lock protocol of [_gmapCreateDB] *)

Section GMAPFacts.

Variable E : Env.

Lemma builds_logging l m w : builds (logging l m w) = builds w.
Proof. reflexivity. Qed.

(** A waiter that finds no lock goes on at once. *)
Lemma wait_for_lock_free fuel referenceFile dbLock w :
  isExist dbLock w = false ->
  wait_for_lock E fuel referenceFile dbLock w = Some w.
Proof. intros H. destruct fuel; simpl; now rewrite H. Qed.

(** [rm -f] on a path that is not a directory and that the platform
    lets go leaves no such path; it touches no other path and whatever
    happens it runs no builder. *)
Lemma backticks_RmF p w :
  shell (snd (backticks E (RmF p) w)) = (shell w ++ [RmF p])%list
  /\ clock (snd (backticks E (RmF p) w)) = clock w
  /\ log (snd (backticks E (RmF p) w)) = log w
  /\ (fs w p <> Some Directory -> fault E p (clock w) = false ->
      isExist p (snd (backticks E (RmF p) w)) = false)
  /\ (forall q, q <> p -> fs (snd (backticks E (RmF p) w)) q = fs w q).
Proof.
  unfold backticks, remove, isExist. cbn [fs set_shell clock].
  destruct (fs w p) as [[|]|] eqn:Hp; cbn [snd].
  - destruct (fault E p (clock w)) eqn:Hf; cbn [snd fs set_fs];
      repeat split; try discriminate.
    + intros _ _. unfold fs_set. now rewrite String.eqb_refl.
    + intros q Hq. unfold fs_set. apply String.eqb_neq in Hq. now rewrite Hq.
  - repeat split. intros H. now elim H.
  - repeat split. intros _ _. cbn [fs set_shell]. now rewrite Hp.
Qed.

(** Waiting runs no command. *)
Lemma wait_for_lock_shell referenceFile dbLock : forall fuel w w1,
  wait_for_lock E fuel referenceFile dbLock w = Some w1 -> shell w1 = shell w.
Proof.
  induction fuel as [|fuel IH]; intros w w1; simpl;
    destruct (isExist dbLock w); try discriminate;
    try (intros H; now injection H as <-).
  intros H. now rewrite (IH _ _ H).
Qed.

Lemma backticks_Touch_shell p w :
  shell (snd (backticks E (Touch p) w)) = (shell w ++ [Touch p])%list.
Proof.
  unfold backticks, create. cbn [fs set_shell clock].
  destruct (fs w p); [reflexivity|].
  destruct (negb (isdir (Path.dirname p) (set_shell (shell w ++ [Touch p]) w)));
    [reflexivity|].
  destruct (fault E p (clock w)); reflexivity.
Qed.

(** The path taken when the builder succeeds. *)
Lemma createDB_at_builds fuel referenceFile dbRoot dbName w w1 w2 f3
    errMsg touchMsg :
  let dbPath := Path.join dbRoot dbName in
  let dbLock := dbPath ++ ".lock" in
  isExist dbPath w && negb (isExist dbLock w) = false ->
  wait_for_lock E fuel referenceFile dbLock w = Some w1 ->
  isExist dbPath w1 = false ->
  backticks E (Touch dbLock) w1 = ((0%Z, touchMsg), w2) ->
  gmap_build E dbName dbRoot referenceFile (fs w2) (clock w2)
  = (f3, (0%Z, errMsg)) ->
  exists w',
    createDB_at E fuel referenceFile dbRoot dbName w
    = Some (Ok (dbRoot, dbName), w')
    /\ shell w'
       = (shell w ++ [Touch dbLock; GmapBuild dbName dbRoot referenceFile;
                      RmF dbLock])%list
    /\ (forall q, q <> dbLock -> fs w' q = f3 q)
    /\ (f3 dbLock <> Some Directory -> fault E dbLock (clock w2) = false ->
        isExist dbLock w' = false).
Proof.
  intros dbPath dbLock Hnot Hwait Hdb Htouch Hbuild.
  unfold createDB_at. fold dbPath. fold dbLock. cbv zeta.
  rewrite Hnot, Hwait, Hdb. cbn [negb]. rewrite Htouch. cbn [Z.eqb negb].
  set (wb := logging INFO _ (logging DEBUG _ w2)).
  assert (Hrun : backticks E (GmapBuild dbName dbRoot referenceFile) wb
                 = ((0%Z, errMsg),
                    set_fs f3 (set_shell
                      (shell wb ++ [GmapBuild dbName dbRoot referenceFile]) wb))).
  { unfold backticks. cbv zeta.
    change (fs (set_shell (shell wb ++ [GmapBuild dbName dbRoot referenceFile])
                  wb)) with (fs w2).
    change (clock (set_shell
                     (shell wb ++ [GmapBuild dbName dbRoot referenceFile]) wb))
      with (clock w2).
    now rewrite Hbuild. }
  rewrite Hrun. cbn [Z.eqb negb].
  set (wc := logging DEBUG _ (set_fs f3 _)).
  destruct (backticks_RmF dbLock wc) as (Hsh & Hcl & Hlog & Hgone & Hkeep).
  destruct (backticks E (RmF dbLock) wc) as [st w'] eqn:Hrm.
  cbn [snd] in Hsh, Hcl, Hlog, Hgone, Hkeep.
  eexists. split; [reflexivity|]. split; [|split].
  - cbn [shell logging set_log]. rewrite Hsh. unfold wc, wb.
    cbn [shell logging set_log set_fs set_shell].
    pose proof (backticks_Touch_shell dbLock w1) as Ht.
    rewrite Htouch in Ht. cbn [snd] in Ht. rewrite Ht.
    rewrite (wait_for_lock_shell _ _ _ _ _ Hwait).
    now rewrite <- !app_assoc.
  - intros q Hq. cbn [fs logging set_log]. now rewrite (Hkeep q Hq).
  - intros Hnd Hfault. unfold isExist. cbn [fs logging set_log].
    apply Hgone; assumption.
Qed.

End GMAPFacts.

(** C2.  If the database path exists and the lock path does not,
    [_gmapCreateDB] returns [(dbRoot, dbName)] at once, whatever the
    fuel: no command is run, the builder in particular is not, and the
    file system and the clock are as before.  Hence two calls in a row
    for the same [(dbRoot, dbName)] run the builder exactly once when
    the first one builds successfully, that is: it gets past the
    waiting and finds no database, creates the lock, the builder exits
    with status 0 and leaves the database, and the lock can be
    deleted.  The second call returns the same pair, whatever its
    fuel. *)
Theorem gmapCreateDB_built_is_noop (E : Env) (referenceFile : string) :
  (forall fuel isWithinRepository tempRootDir w dbRoot dbName w0,
     db_location E referenceFile isWithinRepository tempRootDir w
     = (dbRoot, dbName, w0) ->
     isExist (Path.join dbRoot dbName) w = true ->
     isExist (Path.join dbRoot dbName ++ ".lock") w = false ->
     exists w',
       _gmapCreateDB E fuel referenceFile isWithinRepository tempRootDir w
       = Some (Ok (dbRoot, dbName), w')
       /\ shell w' = shell w /\ builds w' = builds w
       /\ fs w' = fs w /\ clock w' = clock w)
  /\ (forall fuel1 fuel2 dbRoot dbName w w1 w2 f3 errMsg touchMsg,
        isExist (Path.join dbRoot dbName) w
        && negb (isExist (Path.join dbRoot dbName ++ ".lock") w) = false ->
        wait_for_lock E fuel1 referenceFile
          (Path.join dbRoot dbName ++ ".lock") w = Some w1 ->
        isExist (Path.join dbRoot dbName) w1 = false ->
        backticks E (Touch (Path.join dbRoot dbName ++ ".lock")) w1
        = ((0%Z, touchMsg), w2) ->
        gmap_build E dbName dbRoot referenceFile (fs w2) (clock w2)
        = (f3, (0%Z, errMsg)) ->
        f3 (Path.join dbRoot dbName) <> None ->
        f3 (Path.join dbRoot dbName ++ ".lock") <> Some Directory ->
        fault E (Path.join dbRoot dbName ++ ".lock") (clock w2) = false ->
        exists wa wb,
          createDB_at E fuel1 referenceFile dbRoot dbName w
          = Some (Ok (dbRoot, dbName), wa)
          /\ builds wa = S (builds w)
          /\ createDB_at E fuel2 referenceFile dbRoot dbName wa
             = Some (Ok (dbRoot, dbName), wb)
          /\ builds wb = S (builds w)).
Proof.
  split.
  - intros fuel repo tempRootDir w dbRoot dbName w0 Hloc Hdb Hlock.
    unfold _gmapCreateDB. rewrite Hloc.
    assert (Hfs : fs w0 = fs w /\ shell w0 = shell w /\ clock w0 = clock w).
    { unfold db_location in Hloc. destruct repo; injection Hloc as <- <- <-;
        repeat split. }
    destruct Hfs as (Hfs & Hsh & Hcl).
    unfold createDB_at. cbv zeta. unfold isExist in *. rewrite Hfs, Hdb, Hlock.
    cbn [andb negb]. eexists. split; [reflexivity|].
    unfold builds. cbn [shell fs clock logging set_log].
    rewrite Hsh, Hfs, Hcl. repeat split.
  - intros fuel1 fuel2 dbRoot dbName w w1 w2 f3 errMsg touchMsg
           Hnot Hwait Hdb Htouch Hbuild Hmade Hnd Hfault.
    destruct (createDB_at_builds E fuel1 referenceFile dbRoot dbName
                w w1 w2 f3 errMsg touchMsg Hnot Hwait Hdb Htouch Hbuild)
      as (wa & Hrun & Hsh & Hkeep & Hgone).
    assert (Hba : builds wa = S (builds w)).
    { unfold builds. rewrite Hsh, filter_app, List.length_app. simpl. lia. }
    assert (Hdba : isExist (Path.join dbRoot dbName) wa = true).
    { unfold isExist. rewrite Hkeep.
      - now destruct (f3 (Path.join dbRoot dbName)).
      - intros Heq. symmetry in Heq. revert Heq. apply app_neq_self.
        discriminate. }
    assert (Hla : isExist (Path.join dbRoot dbName ++ ".lock") wa = false)
      by now apply Hgone.
    exists wa. eexists. split; [exact Hrun|]. split; [exact Hba|].
    unfold createDB_at at 1. cbv zeta. rewrite Hdba, Hla. cbn [andb negb].
    split; [reflexivity|]. rewrite builds_logging. exact Hba.
Qed.

Lemma gmapCreateDB_built_is_noop_witness :
  (exists w',
     _gmapCreateDB calm 0 "/repo/sequence/ref.fa" true "/tmp" built_world
     = Some (Ok ("/repo", "gmap_db"), w')
     /\ builds w' = 0)
  /\ (exists wa wb,
        createDB_at calm 0 "/repo/sequence/ref.fa" "/repo" "gmap_db" repo_world
        = Some (Ok ("/repo", "gmap_db"), wa)
        /\ builds wa = 1
        /\ createDB_at calm 7 "/repo/sequence/ref.fa" "/repo" "gmap_db" wa
           = Some (Ok ("/repo", "gmap_db"), wb)
        /\ builds wb = 1).
Proof.
  destruct (gmapCreateDB_built_is_noop calm "/repo/sequence/ref.fa")
    as [Hnoop Htwice].
  split.
  - destruct (Hnoop 0 true "/tmp" built_world "/repo" "gmap_db" built_world
                eq_refl eq_refl eq_refl) as (w' & Hrun & _ & Hb & _).
    exists w'. split; [exact Hrun | exact Hb].
  - apply (Htwice 0 7 "/repo" "gmap_db" repo_world repo_world
             (snd (backticks calm (Touch "/repo/gmap_db.lock") repo_world))
             (fst (good_builder "gmap_db" "/repo" "/repo/sequence/ref.fa"
                     (fs (snd (backticks calm (Touch "/repo/gmap_db.lock")
                                 repo_world))) 0))
             "" ""); try reflexivity; discriminate.
Defined.

(** C4.  When the waiting is over, the database is missing, the lock
    has been created and the builder then exits with a non-zero
    status, [_gmapCreateDB] runs [rm -f] on the lock after the builder
    and before raising [RuntimeError] with the builder's error output;
    the outcome of [rm -f] is not looked at.  Unless the lock path has
    become a directory or the platform refuses to delete it, the lock
    is gone afterwards and a process waiting for it goes on at once. *)
Theorem createDB_at_failed_build_clears_lock (E : Env) (fuel : nat)
    (referenceFile dbRoot dbName : string) (w w1 w2 : World)
    (f3 : FS) (errCode : Z) (errMsg touchMsg : string) :
  let dbPath := Path.join dbRoot dbName in
  let dbLock := dbPath ++ ".lock" in
  isExist dbPath w && negb (isExist dbLock w) = false ->
  wait_for_lock E fuel referenceFile dbLock w = Some w1 ->
  isExist dbPath w1 = false ->
  backticks E (Touch dbLock) w1 = ((0%Z, touchMsg), w2) ->
  gmap_build E dbName dbRoot referenceFile (fs w2) (clock w2)
  = (f3, (errCode, errMsg)) ->
  errCode <> 0%Z ->
  exists w',
    createDB_at E fuel referenceFile dbRoot dbName w
    = Some (Raise (RuntimeError errMsg), w')
    /\ shell w'
       = (shell w2 ++ [GmapBuild dbName dbRoot referenceFile; RmF dbLock])%list
    /\ builds w' = S (builds w2)
    /\ In (ERROR, service_name ++ ": Failed to build GMAP db." ++ newline
                  ++ errMsg) (log w')
    /\ (f3 dbLock <> Some Directory -> fault E dbLock (clock w2) = false ->
        isExist dbLock w' = false
        /\ forall fuel', wait_for_lock E fuel' referenceFile dbLock w' = Some w').
Proof.
  intros dbPath dbLock Hnot Hwait Hdb Htouch Hbuild Hcode.
  unfold createDB_at. fold dbPath. fold dbLock. cbv zeta.
  rewrite Hnot, Hwait, Hdb. cbn [negb]. rewrite Htouch. cbn [Z.eqb negb].
  set (wb := logging INFO _ (logging DEBUG _ w2)).
  assert (Hrun : backticks E (GmapBuild dbName dbRoot referenceFile) wb
                 = ((errCode, errMsg),
                    set_fs f3 (set_shell
                      (shell wb ++ [GmapBuild dbName dbRoot referenceFile]) wb))).
  { unfold backticks. cbv zeta.
    change (fs (set_shell (shell wb ++ [GmapBuild dbName dbRoot referenceFile])
                  wb)) with (fs w2).
    change (clock (set_shell
                     (shell wb ++ [GmapBuild dbName dbRoot referenceFile]) wb))
      with (clock w2).
    now rewrite Hbuild. }
  rewrite Hrun.
  replace (errCode =? 0)%Z with false
    by (symmetry; now apply Z.eqb_neq).
  cbn [negb].
  set (wc := logging ERROR _ (logging DEBUG _ _)).
  destruct (backticks_RmF E dbLock wc) as (Hsh & Hcl & Hlog & Hgone).
  destruct (backticks E (RmF dbLock) wc) as [st w'] eqn:Hrm.
  cbn [snd] in Hsh, Hcl, Hlog, Hgone.
  exists w'. split; [reflexivity|]. split; [|split; [|split]].
  - rewrite Hsh. unfold wc, wb. cbn [shell logging set_log set_fs set_shell].
    now rewrite <- app_assoc.
  - unfold builds. rewrite Hsh. unfold wc, wb.
    cbn [shell logging set_log set_fs set_shell].
    rewrite !filter_app, !List.length_app. simpl. lia.
  - rewrite Hlog. unfold wc. cbn [log logging set_log].
    apply in_or_app. right. now left.
  - intros Hnd Hfault.
    assert (Hx : isExist dbLock w' = false).
    { apply Hgone.
      - unfold wc, wb. cbn [fs logging set_log set_fs set_shell]. exact Hnd.
      - unfold wc, wb. cbn [clock logging set_log set_fs set_shell].
        exact Hfault. }
    split; [exact Hx|]. intros fuel'. now apply wait_for_lock_free.
Qed.

Lemma createDB_at_failed_build_clears_lock_witness :
  exists w',
    createDB_at broken 0 "/repo/sequence/ref.fa" "/repo" "gmap_db" repo_world
    = Some (Raise (RuntimeError "gmap_build: cannot read /repo/sequence/ref.fa"),
            w')
    /\ shell w'
       = [Touch "/repo/gmap_db.lock";
          GmapBuild "gmap_db" "/repo" "/repo/sequence/ref.fa";
          RmF "/repo/gmap_db.lock"]
    /\ isExist "/repo/gmap_db.lock" w' = false.
Proof.
  destruct (createDB_at_failed_build_clears_lock broken 0
              "/repo/sequence/ref.fa" "/repo" "gmap_db" repo_world repo_world
              (snd (backticks broken (Touch "/repo/gmap_db.lock") repo_world))
              (fs (snd (backticks broken (Touch "/repo/gmap_db.lock")
                          repo_world)))
              1%Z "gmap_build: cannot read /repo/sequence/ref.fa" ""
              eq_refl eq_refl eq_refl eq_refl eq_refl)
    as (w' & Hrun & Hsh & _ & _ & Hgone).
  - discriminate.
  - exists w'. split; [exact Hrun|]. split; [exact Hsh|].
    apply Hgone; [discriminate | reflexivity].
Defined.

(** * Further properties of [tempfileutil.py] *)

Section RootDirFacts.

Variable E : Env.

Lemma create_ok n p w w' :
  create E n p w = (Ok tt, w') ->
  fs w p = None /\ fs w' = fs_set p (Some n) (fs w)
  /\ clock w' = clock w /\ log w' = log w /\ shell w' = shell w
  /\ draws w' = draws w.
Proof.
  intros H. destruct (create_cases E n p w) as [(Hfree & _ & Hc)|[e Hc]];
    rewrite Hc in H; [|discriminate].
  injection H as <-. repeat split. exact Hfree.
Qed.

Lemma create_raise n p w e w' :
  create E n p w = (Raise e, w') ->
  is_IOError_or_OSError e = true /\ w' = w.
Proof.
  intros H. destruct (create_cases E n p w) as [(_ & _ & Hc)|[e' Hc]];
    rewrite Hc in H; [discriminate|].
  injection H as <- <-. split; reflexivity.
Qed.

Lemma mkdir_outcome name w : makes_directory name w (mkdir E name w).
Proof.
  unfold makes_directory, mkdir.
  destruct (create E Directory name w) as [[[]|e] w'] eqn:H; cbn [fst snd].
  - destruct (create_ok _ _ _ _ H) as (Hfree & Hfs & _ & Hl & _).
    split; [exact Hl|]. split.
    + intros q. rewrite Hfs. unfold fs_set.
      destruct (q =? name); [discriminate | auto].
    + unfold isdir. rewrite Hfs. unfold fs_set. now rewrite String.eqb_refl.
  - destruct (create_raise _ _ _ _ _ H) as [He ->]. now repeat split.
Qed.

Lemma makedirs_from_outcome : forall fuel name w,
  makes_directory name w (makedirs_from E fuel name w).
Proof.
  induction fuel as [|fuel IH]; intros name w; cbn [makedirs_from].
  - apply mkdir_outcome.
  - destruct (Path.split name) as [head tail].
    destruct (if tail =? "" then Path.split head else (head, tail))
      as [head' tail'].
    destruct (negb (head' =? "") && negb (tail' =? "")
              && negb (isExist head' w)); [|apply mkdir_outcome].
    pose proof (IH head' w) as Hrec. unfold makes_directory in Hrec.
    destruct (makedirs_from E fuel head' w) as [[[]|e] w1];
      cbn [fst snd] in Hrec; destruct Hrec as (Hl1 & Hk1 & Hr1).
    + pose proof (mkdir_outcome name w1) as (Hl & Hk & Hr).
      split; [now rewrite Hl|]. split; [auto | exact Hr].
    + destruct e as [msg|[]|msg];
        try (split; [exact Hl1|]; split; [exact Hk1 | exact Hr1]).
      pose proof (mkdir_outcome name w1) as (Hl & Hk & Hr).
      split; [now rewrite Hl|]. split; [auto | exact Hr].
Qed.

(** The tail of [SetRootDir] never raises. *)
Lemma SetRootDir_finish_fallback rootDir self w :
  exists self' w',
    SetRootDir_finish E true rootDir self w = (Ok tt, self', w')
    /\ root_allocated self self' w w'
    /\ log w' = log w
    /\ (forall q, fs w' q = None -> fs w q = None).
Proof.
  unfold SetRootDir_finish.
  destruct (mkdtemp E None "" "tmp" w) as [[d|e] w'] eqn:Hmk.
  - unfold mkdtemp in Hmk.
    destruct (mktemp_loop_ok E _ _ _ _ _ _ _ _ Hmk)
      as (_ & Hfree & Hfs & _ & Hl & _).
    eexists _, w'. split; [reflexivity|]. split; [|split; [exact Hl|]].
    + split; [reflexivity|]. right. cbn [defaultRootDir set_defaultRootDir
        dirDB set_dirDB]. split; [reflexivity|]. split.
      * unfold isExist. now rewrite Hfree.
      * unfold isdir. rewrite Hfs. unfold fs_set. now rewrite String.eqb_refl.
    + intros q. rewrite Hfs. unfold fs_set.
      destruct (q =? d); [discriminate | auto].
  - unfold mkdtemp in Hmk.
    destruct (mktemp_loop_raise E _ _ _ _ _ _ _ _ Hmk) as (He & Hfs & Hl).
    rewrite He. eexists _, w'. split; [reflexivity|].
    split; [|split; [exact Hl|]].
    + split; [reflexivity|]. left. split; reflexivity.
    + intros q. now rewrite Hfs.
Qed.

(** Every way through [SetRootDir]. *)
Lemma SetRootDir_outcome rootDir self w :
  (exists self' w',
     SetRootDir E rootDir self w = (Ok tt, self', w')
     /\ root_allocated self self' w w' /\ log w' = log w)
  \/ (exists e w',
        SetRootDir E rootDir self w = (Raise e, self, w')
        /\ rootDir <> ""
        /\ isdir (abspath_expanduser E rootDir) w = true
        /\ fs w' = fs w /\ log w' = log w).
Proof.
  unfold SetRootDir.
  destruct (rootDir =? "") eqn:Hroot; cbn [negb].
  { left. destruct (SetRootDir_finish_fallback rootDir self w)
      as (self' & w' & H & Hp & Hl & _). now exists self', w'. }
  apply String.eqb_neq in Hroot.
  set (d := abspath_expanduser E rootDir).
  destruct (isdir d w) eqn:Hdir.
  - destruct (mkdtemp E (Some d) "" "tmp" w) as [[sub|e] w'] eqn:Hmk;
      unfold mkdtemp in Hmk; cbn [or_tempdir] in Hmk.
    + left. destruct (mktemp_loop_ok E _ _ _ _ _ _ _ _ Hmk)
        as (_ & Hfree & Hfs & _ & Hl & _).
      unfold SetRootDir_finish. eexists _, w'. split; [reflexivity|].
      split; [|exact Hl]. split; [reflexivity|]. right.
      cbn [defaultRootDir set_defaultRootDir dirDB set_dirDB].
      split; [reflexivity|]. split.
      * unfold isExist. now rewrite Hfree.
      * unfold isdir. rewrite Hfs. unfold fs_set. now rewrite String.eqb_refl.
    + right. destruct (mktemp_loop_raise E _ _ _ _ _ _ _ _ Hmk)
        as (_ & Hfs & Hl).
      exists e, w'. repeat split; assumption.
  - left. destruct (isExist d w) eqn:Hex; cbn [negb].
    + destruct (SetRootDir_finish_fallback d self w)
        as (self' & w' & H & Hp & Hl & _). now exists self', w'.
    + pose proof (makedirs_from_outcome (String.length d) d w) as Hmk.
      unfold makes_directory in Hmk. unfold makedirs.
      destruct (makedirs_from E (String.length d) d w) as [[[]|e] w1];
        cbn [fst snd] in Hmk; destruct Hmk as (Hl1 & Hk1 & Hr1).
      * unfold SetRootDir_finish. eexists _, w1. split; [reflexivity|].
        split; [|exact Hl1]. split; [reflexivity|]. right.
        cbn [defaultRootDir set_defaultRootDir dirDB set_dirDB].
        split; [reflexivity|]. split; [exact Hex | exact Hr1].
      * rewrite Hr1.
        destruct (SetRootDir_finish_fallback d self w1)
          as (self' & w' & H & Hp & Hl & _).
        exists self', w'. split; [exact H|]. split; [|now rewrite Hl].
        destruct Hp as [Hf [Hnone|(Hd & Hx & Hdir')]];
          (split; [exact Hf|]); [now left | right].
        split; [exact Hd|]. split; [|exact Hdir'].
        unfold isExist in *.
        destruct (fs w1 (defaultRootDir self')) eqn:Hq; [discriminate|].
        now rewrite (Hk1 _ Hq).
Qed.

End RootDirFacts.

(** X1.  When [SetRootDir] returns, whatever the preferred root was, the
    file registry is as before and nothing was logged, and either no
    root directory is set and the directory registry is as before, or
    the root directory is a directory that did not exist before the
    call and has been appended to the directory registry as owned. *)
Theorem SetRootDir_returns_allocated (E : Env) (rootDir : string)
    (self self' : TempFileManager) (w w' : World) :
  SetRootDir E rootDir self w = (Ok tt, self', w') ->
  root_allocated self self' w w' /\ log w' = log w.
Proof.
  intros H.
  destruct (SetRootDir_outcome E rootDir self w)
    as [(s1 & w1 & H1 & Hp & Hl)|(e & w1 & H1 & _)];
    rewrite H1 in H; [|discriminate].
  injection H as <- <-. now split.
Qed.

Lemma SetRootDir_returns_allocated_witness :
  root_allocated empty_manager
    (snd (fst (SetRootDir calm "/tmp/new/dir" empty_manager tmp_world)))
    tmp_world (snd (SetRootDir calm "/tmp/new/dir" empty_manager tmp_world))
  /\ defaultRootDir
       (snd (fst (SetRootDir calm "/tmp/new/dir" empty_manager tmp_world)))
     = "/tmp/new/dir"
  /\ defaultRootDir
       (snd (fst (SetRootDir sealed "/tmp/new/dir" empty_manager tmp_world)))
     = "".
Proof.
  split; [|split; reflexivity].
  exact (proj1 (SetRootDir_returns_allocated calm "/tmp/new/dir"
                  empty_manager _ tmp_world _ eq_refl)).
Defined.





(** X4.  When [RegisterNewTmpFile] returns a path, that path is the
    normal form of an entry [root/prefix...suffix] that did not exist
    before and now exists with the kind asked for, nothing else on
    disk has changed, nothing was logged, and the manager has gained
    exactly one owned entry for it, in the directory registry for a
    directory and in the file registry for a file.  When it raises,
    the manager is as before. *)
Theorem RegisterNewTmpFile_postcondition (E : Env) (isDir : bool)
    (rootDir suffix prefix : string) (self self' : TempFileManager)
    (w w' : World) (r : result string) :
  RegisterNewTmpFile E isDir rootDir suffix prefix self w = (r, self', w') ->
  match r with
  | Ok p =>
      exists nm,
        let raw :=
          Path.join (if rootDir =? "" then defaultRootDir self else rootDir)
                    (prefix ++ nm ++ suffix) in
        p = abspath_expanduser E raw
        /\ fs w raw = None
        /\ fs w' = fs_set raw (Some (if isDir then Directory else RegFile))
                          (fs w)
        /\ self' = (if isDir
                    then set_dirDB (dirDB self ++ [mkTempFile p true true]) self
                    else set_fileDB (fileDB self ++ [mkTempFile p true false])
                           self)
        /\ log w' = log w
  | Raise _ => self' = self
  end.
Proof.
  intros H.
  pose proof (RegisterNewTmpFile_cases E isDir rootDir suffix prefix self w)
    as Hc. cbv zeta in Hc.
  destruct ((rootDir =? "") && (defaultRootDir self =? "")).
  { rewrite Hc in H. now injection H as <- <- <-. }
  set (root := if rootDir =? "" then defaultRootDir self else rootDir) in *.
  destruct (if isDir then mkdtemp E (Some root) suffix prefix w
            else mkstemp E (Some root) suffix prefix w)
    as [[raw|e] w1] eqn:Hmk.
  - destruct (_isRegistered E (abspath_expanduser E raw) self).
    + destruct Hc as [msg Hc]. rewrite Hc in H. now injection H as <- <- <-.
    + rewrite Hc in H. injection H as <- <- <-.
      assert (Hloop : mktemp_loop E (TMP_MAX E)
                        (if isDir then Directory else RegFile)
                        root prefix suffix w = (Ok raw, w1)).
      { destruct isDir; exact Hmk. }
      destruct (mktemp_loop_ok E _ _ _ _ _ _ _ _ Hloop)
        as ([nm Hnm] & Hfree & Hfs & _ & Hl & _).
      exists nm. cbv zeta. rewrite <- Hnm.
      split; [reflexivity|]. split; [exact Hfree|]. split; [exact Hfs|].
      split; [|exact Hl]. unfold _RegisterTmpFile. now destruct isDir.
  - rewrite Hc in H. now injection H as <- <- <-.
Qed.

Lemma RegisterNewTmpFile_postcondition_witness :
  (exists nm,
     fst (fst (RegisterNewTmpFile calm false "" ".fasta" "" empty_manager
                 tmp_world))
     = Ok (Path.join "/tmp/w" ("" ++ nm ++ ".fasta"))
     /\ fs tmp_world (Path.join "/tmp/w" ("" ++ nm ++ ".fasta")) = None)
  /\ snd (fst (RegisterNewTmpFile calm false "" "" "" stale_manager tmp_world))
     = stale_manager.
Proof.
  split.
  - pose proof (RegisterNewTmpFile_postcondition calm false "" ".fasta" ""
                  empty_manager) as H.
    destruct (RegisterNewTmpFile calm false "" ".fasta" "" empty_manager
                tmp_world) as [[[p|e] self'] w'] eqn:Hrun.
    + destruct (H _ _ _ _ Hrun) as (nm & Hp & Hfree & _).
      exists nm. split; [now rewrite Hp | exact Hfree].
    + vm_compute in Hrun. discriminate.
  - exact (RegisterNewTmpFile_postcondition calm false "" "" ""
             stale_manager _ tmp_world _ _ eq_refl).
Defined.

(** X5.  Provided normalising a normal path changes nothing: a path
    that [RegisterExistingTmpFile] or [RegisterNewTmpFile] has just
    returned is reported by [_isRegistered], every path registered
    before still is, and trying to adopt the returned path again
    raises [IOError] without changing the manager. *)
Theorem registration_is_visible (E : Env) (self self' : TempFileManager)
    (w w' : World) (p : string) :
  (forall q, abspath_expanduser E (abspath_expanduser E q)
             = abspath_expanduser E q) ->
  (exists thisPath own isDir,
     RegisterExistingTmpFile E thisPath own isDir self w = (Ok p, self', w'))
  \/ (exists isDir rootDir suffix prefix,
        RegisterNewTmpFile E isDir rootDir suffix prefix self w
        = (Ok p, self', w')) ->
  _isRegistered E p self' = true
  /\ (forall q, _isRegistered E q self = true -> _isRegistered E q self' = true)
  /\ (forall own isDir w2,
        exists msg,
          RegisterExistingTmpFile E p own isDir self' w2
          = (Raise (IOError msg), self', logging ERROR msg w2)).
Proof.
  intros Hidem Hreg.
  assert (Hnew : exists tmpFile,
            self' = snd (_RegisterTmpFile tmpFile self)
            /\ name tmpFile = p
            /\ exists raw, p = abspath_expanduser E raw).
  { destruct Hreg as [(thisPath & own & isDir & H)
                     |(isDir & rootDir & suffix & prefix & H)].
    - pose proof (RegisterExistingTmpFile_cases E thisPath own isDir self w)
        as Hc. cbv zeta in Hc.
      destruct ((isDir && negb (isdir (abspath_expanduser E thisPath) w))
                || _isRegistered E (abspath_expanduser E thisPath) self
                || negb (isExist (abspath_expanduser E thisPath) w)).
      + destruct Hc as [msg Hc]. rewrite Hc in H. discriminate.
      + rewrite Hc in H. injection H as <- <- <-.
        eexists. split; [reflexivity|]. split; [reflexivity|]. now eexists.
    - pose proof (RegisterNewTmpFile_cases E isDir rootDir suffix prefix
                    self w) as Hc. cbv zeta in Hc.
      destruct ((rootDir =? "") && (defaultRootDir self =? ""));
        [rewrite Hc in H; discriminate|].
      destruct (if isDir
                then mkdtemp E (Some (if rootDir =? "" then defaultRootDir self
                                      else rootDir)) suffix prefix w
                else mkstemp E (Some (if rootDir =? "" then defaultRootDir self
                                      else rootDir)) suffix prefix w)
        as [[raw|e] w1]; [|rewrite Hc in H; discriminate].
      destruct (_isRegistered E (abspath_expanduser E raw) self).
      + destruct Hc as [msg Hc]. rewrite Hc in H. discriminate.
      + rewrite Hc in H. injection H as <- <- <-.
        eexists. split; [reflexivity|]. split; [reflexivity|]. now eexists. }
  destruct Hnew as (tmpFile & -> & Hname & raw & Hraw).
  assert (Hnorm : abspath_expanduser E p = p) by (rewrite Hraw; apply Hidem).
  assert (Hvis : _isRegistered E p (snd (_RegisterTmpFile tmpFile self)) = true).
  { apply _isRegistered_In. rewrite Hnorm.
    apply _RegisterTmpFile_registered. now left. }
  split; [exact Hvis|]. split.
  - intros q Hq. apply _isRegistered_In. apply _isRegistered_In in Hq.
    apply _RegisterTmpFile_registered. now right.
  - intros own isDir w2. apply RegisterExistingTmpFile_refuses.
    right. right. rewrite Hnorm. exact Hvis.
Qed.

Lemma registration_is_visible_witness :
  _isRegistered calm "/tmp/d"
    (snd (fst (RegisterExistingTmpFile calm "/tmp/d" false true empty_manager
                 tmp_world))) = true
  /\ exists msg,
       fst (fst (RegisterExistingTmpFile calm "/tmp/d" true true
                   (snd (fst (RegisterExistingTmpFile calm "/tmp/d" false true
                                empty_manager tmp_world))) tmp_world))
       = Raise (IOError msg).
Proof.
  destruct (registration_is_visible calm empty_manager
              (snd (fst (RegisterExistingTmpFile calm "/tmp/d" false true
                           empty_manager tmp_world)))
              tmp_world tmp_world "/tmp/d" (fun q => eq_refl))
    as (Hvis & _ & Hagain).
  - left. exists "/tmp/d", false, true. reflexivity.
  - split; [exact Hvis|].
    destruct (Hagain true true tmp_world) as [msg Hmsg].
    exists msg. now rewrite Hmsg.
Defined.

Section CleanUpFrame.

Variable E : Env.

(** The retry loop: how long it takes and what it leaves alone. *)
Lemma rmtree_retry_frame p : forall left times w t w',
  rmtree_retry E left times p w = (Ok t, w') ->
  times <= t <= times + left
  /\ clock w' = clock w + 3 * (t - times)
  /\ shell w' = shell w /\ draws w' = draws w.
Proof.
  induction left as [|left IH]; intros times w t w' H; cbn [rmtree_retry] in H.
  - injection H as <- <-. repeat split; lia.
  - destruct (rmtree_cases E p w) as [(_ & _ & Hr)|[e Hr]]; rewrite Hr in H.
    + injection H as <- <-. cbn [clock shell draws set_fs].
      repeat split; lia.
    + cbn [is_IOError_or_OSError] in H.
      destruct (IH _ _ _ _ H) as (Ht & Hc & Hs & Hd).
      cbn [clock shell draws sleep set_clock] in Hc, Hs, Hd.
      repeat split; try assumption; lia.
Qed.

Lemma CleanUp_dir_frame obj w w' :
  CleanUp_dir E obj w = (Ok tt, w') ->
  clock w <= clock w' <= clock w + 3 * maxTry
  /\ shell w' = shell w /\ draws w' = draws w.
Proof.
  unfold CleanUp_dir. intros H.
  destruct (rmtree_retry E maxTry 0 (name obj)
              (logging DEBUG ("Remove a temporary dir " ++ name obj) w))
    as [[t|e] w1] eqn:Hr; [|discriminate].
  destruct (rmtree_retry_frame _ _ _ _ _ _ Hr) as (Ht & Hc & Hs & Hd).
  cbn [clock shell draws logging set_log] in Hc, Hs, Hd.
  destruct (maxTry <=? t)%nat; injection H as <-;
    cbn [clock shell draws logging set_log]; repeat split;
    try assumption; lia.
Qed.

(** The directory loop: it always drains its stack, only deletes and
    logs, and sleeps at most [3 * maxTry] seconds for each owned entry. *)
Lemma CleanUp_dirs_frame realDelete : forall stack w,
  exists w',
    CleanUp_dirs E realDelete stack w = (Ok tt, [], w')
    /\ shrinks w w'
    /\ clock w <= clock w' <= clock w + 3 * maxTry * List.length (owned stack)
    /\ shell w' = shell w /\ draws w' = draws w
    /\ (realDelete = false -> w' = w).
Proof.
  unfold owned.
  induction stack as [|obj stack IH]; intros w.
  - exists w. cbn. split; [reflexivity|]. split; [apply shrinks_refl|].
    repeat split; lia.
  - cbn [CleanUp_dirs filter].
    destruct realDelete; cbn [andb].
    + destruct (own obj) eqn:Hown; cbn [andb].
      * destruct (isExist (name obj) w).
        -- destruct (CleanUp_dir_outcome E obj w) as (w1 & H1 & _).
           rewrite H1.
           pose proof (CleanUp_dir_shrinks E _ _ _ H1) as Hs1.
           destruct (CleanUp_dir_frame _ _ _ H1) as (Hc1 & Hsh1 & Hd1).
           destruct (IH w1) as (w' & H & Hs & Hc & Hsh & Hd & _).
           exists w'. split; [exact H|].
           split; [eapply shrinks_trans; eauto|].
           cbn [List.length]. unfold maxTry in *.
           repeat split; try congruence; try discriminate; lia.
        -- destruct (IH w) as (w' & H & Hs & Hc & Hsh & Hd & _).
           exists w'. split; [exact H|]. split; [exact Hs|].
           cbn [List.length]. unfold maxTry in *.
           repeat split; try assumption; try discriminate; lia.
      * destruct (IH w) as (w' & H & Hs & Hc & Hsh & Hd & _).
        exists w'. split; [exact H|]. split; [exact Hs|].
        unfold maxTry in *.
        repeat split; try assumption; try discriminate; lia.
    + destruct (IH w) as (w' & H & Hs & Hc & Hsh & Hd & Hsame).
      exists w'. split; [exact H|]. split; [exact Hs|].
      rewrite (Hsame eq_refl). repeat split; try reflexivity; lia.
Qed.

(** The file loop: it only deletes and logs and never sleeps; when it
    stops on an exception, what is left on the stack is what it had not
    visited, and the entry it stopped at is owned and still on disk. *)
Lemma CleanUp_files_frame realDelete : forall stack w r rest w',
  CleanUp_files E realDelete stack w = (r, rest, w') ->
  shrinks w w'
  /\ clock w' = clock w /\ shell w' = shell w /\ draws w' = draws w
  /\ match r with
     | Ok _ => rest = []
     | Raise e =>
         realDelete = true
         /\ (exists en, e = OSError en)
         /\ exists visited obj,
              stack = (visited ++ obj :: rest)%list
              /\ own obj = true
              /\ isExist (name obj) w' = true
     end.
Proof.
  induction stack as [|obj stack IH]; intros w r rest w' H.
  - cbn in H. injection H as <- <- <-.
    split; [apply shrinks_refl|]. repeat split.
  - rewrite CleanUp_files_cons in H.
    destruct (realDelete && own obj && isExist (name obj) w) eqn:Hgo.
    + apply andb_prop in Hgo. destruct Hgo as [Hgo Hex].
      apply andb_prop in Hgo. destruct Hgo as [Hrd Hown].
      rewrite remove_logging in H.
      destruct (remove_cases E (name obj) w) as [(_ & _ & H1)|[en H1]];
        rewrite H1 in H; cbn [fst snd] in H.
      * destruct (IH _ _ _ _ H) as (Hs & Hc & Hsh & Hd & Hr).
        split.
        { eapply shrinks_trans; [|exact Hs].
          eapply shrinks_trans; [|apply logging_shrinks].
          eapply remove_shrinks; exact H1. }
        split; [exact Hc|]. split; [exact Hsh|]. split; [exact Hd|].
        destruct r as [u|e]; [exact Hr|].
        destruct Hr as (Hrd' & Hen & visited & o & Hst & Ho & Hx).
        split; [exact Hrd'|]. split; [exact Hen|].
        exists (obj :: visited), o. rewrite Hst. now repeat split.
      * injection H as <- <- <-.
        split; [apply logging_shrinks|]. repeat split; try assumption.
        -- now exists en.
        -- exists [], obj. repeat split; assumption.
    + destruct (IH _ _ _ _ H) as (Hs & Hc & Hsh & Hd & Hr).
      split; [exact Hs|]. split; [exact Hc|]. split; [exact Hsh|].
      split; [exact Hd|].
      destruct r as [u|e]; [exact Hr|].
      destruct Hr as (Hrd' & Hen & visited & o & Hst & Ho & Hx).
      split; [exact Hrd'|]. split; [exact Hen|].
      exists (obj :: visited), o. rewrite Hst. now repeat split.
Qed.

End CleanUpFrame.

(** Every way through [CleanUp]. *)
Lemma CleanUp_outcome (E : Env) (realDelete : bool)
    (self self' : TempFileManager) (w w' : World) (r : result unit) :
  CleanUp E realDelete self w = (r, self', w') ->
  shrinks w w'
  /\ shell w' = shell w /\ draws w' = draws w
  /\ clock w <= clock w'
     <= clock w + 3 * maxTry * List.length (owned (dirDB self))
  /\ match r with
     | Ok _ => self' = mkManager "" [] []
     | Raise e =>
         realDelete = true
         /\ (exists en, e = OSError en)
         /\ dirDB self' = dirDB self
         /\ defaultRootDir self' = defaultRootDir self
         /\ clock w' = clock w
         /\ exists obj later,
              fileDB self = (fileDB self' ++ obj :: later)%list
              /\ own obj = true
              /\ isExist (name obj) w' = true
     end.
Proof.
  unfold CleanUp. intros H.
  destruct (CleanUp_files E realDelete (rev (fileDB self)) w)
    as [[r1 rest] w1] eqn:H1.
  destruct (CleanUp_files_frame E _ _ _ _ _ _ H1) as (Hs1 & Hc1 & Hsh1 & Hd1 & Hr1).
  destruct r1 as [u|e].
  - subst rest.
    destruct (CleanUp_dirs_frame E realDelete
                (rev (dirDB (set_fileDB (rev []) self))) w1)
      as (w2 & H2 & Hs2 & Hc2 & Hsh2 & Hd2 & _).
    rewrite H2 in H. injection H as <- <- <-.
    cbn [dirDB set_fileDB] in Hc2.
    unfold owned in *. rewrite filter_rev, length_rev in Hc2.
    split; [eapply shrinks_trans; eauto|].
    split; [congruence|]. split; [congruence|]. split; [lia | reflexivity].
  - injection H as <- <- <-.
    destruct Hr1 as (Hrd & Hen & visited & obj & Hst & Hown & Hex).
    split; [exact Hs1|]. split; [exact Hsh1|]. split; [exact Hd1|].
    split; [lia|]. split; [exact Hrd|]. split; [exact Hen|].
    split; [reflexivity|]. split; [reflexivity|]. split; [exact Hc1|].
    exists obj, (rev visited). cbn [fileDB set_fileDB].
    split; [|now split].
    rewrite <- (rev_involutive (fileDB self)), Hst.
    rewrite rev_app_distr. cbn [rev]. now rewrite <- app_assoc.
Qed.

(** X6.  Once [CleanUp] has returned, calling it again, with either
    value of [realDelete], does nothing: the manager stays empty with
    no root directory and the world is not touched. *)
Theorem CleanUp_twice (E : Env) (realDelete again : bool)
    (self self' : TempFileManager) (w w' : World) :
  CleanUp E realDelete self w = (Ok tt, self', w') ->
  CleanUp E again self' w' = (Ok tt, self', w').
Proof.
  intros H. destruct (CleanUp_outcome _ _ _ _ _ _ _ H) as (_ & _ & _ & _ & ->).
  reflexivity.
Qed.

Lemma CleanUp_twice_witness :
  CleanUp calm true
    (snd (fst (CleanUp calm true tidy_manager tmp_world)))
    (snd (CleanUp calm true tidy_manager tmp_world))
  = (Ok tt, mkManager "" [] [],
     snd (CleanUp calm true tidy_manager tmp_world)).
Proof.
  exact (CleanUp_twice calm true true tidy_manager (mkManager "" [] [])
           tmp_world _ eq_refl).
Defined.

(** X7.  Whether [CleanUp] returns or raises, it has only deleted and
    logged: a path that did not exist before does not exist after,
    every earlier log record is still there, no shell command was run
    and no temporary name was drawn. *)
Theorem CleanUp_only_deletes (E : Env) (realDelete : bool)
    (self self' : TempFileManager) (w w' : World) (r : result unit) :
  CleanUp E realDelete self w = (r, self', w') ->
  (forall q, isExist q w = false -> isExist q w' = false)
  /\ (exists l, log w' = (log w ++ l)%list)
  /\ shell w' = shell w /\ draws w' = draws w.
Proof.
  intros H. destruct (CleanUp_outcome _ _ _ _ _ _ _ H) as (Hs & Hsh & Hd & _).
  split; [intros q; now apply shrinks_isExist|].
  split; [apply Hs|]. now split.
Qed.

Lemma CleanUp_only_deletes_witness :
  isExist "/tmp/new" (snd (CleanUp denied true busy_manager tmp_world)) = false
  /\ shell (snd (CleanUp calm true nested_manager tmp_world)) = [].
Proof.
  split.
  - exact (proj1 (CleanUp_only_deletes denied true busy_manager _ tmp_world
                    _ _ eq_refl) "/tmp/new" eq_refl).
  - exact (proj1 (proj2 (proj2 (CleanUp_only_deletes calm true nested_manager
                                  _ tmp_world _ _ eq_refl)))).
Defined.

(** X8.  [CleanUp] sleeps at most 15 seconds (5 attempts, 3 seconds
    after each failed one) for each owned entry of the directory
    registry, and not at all when it raises or for the files. *)
Theorem CleanUp_time_bound (E : Env) (realDelete : bool)
    (self self' : TempFileManager) (w w' : World) (r : result unit) :
  CleanUp E realDelete self w = (r, self', w') ->
  clock w <= clock w' <= clock w + 15 * List.length (owned (dirDB self))
  /\ (returns_normally r = false -> clock w' = clock w).
Proof.
  intros H.
  destruct (CleanUp_outcome _ _ _ _ _ _ _ H) as (_ & _ & _ & Hc & Hr).
  unfold maxTry in Hc. split; [lia|].
  destruct r as [u|e]; [discriminate|].
  intros _. apply Hr.
Qed.

Lemma CleanUp_time_bound_witness :
  clock (snd (CleanUp (busy 100) true nested_manager tmp_world)) = 15
  /\ clock (snd (CleanUp (busy 100) true nested_manager tmp_world))
     <= 0 + 15 * 2.
Proof.
  split; [reflexivity|].
  exact (proj2 (proj1 (CleanUp_time_bound (busy 100) true nested_manager _
                         tmp_world _ _ eq_refl))).
Defined.

(** X9.  When [CleanUp] raises, it is an [OSError] from removing a file
    with [realDelete] true.  The entry whose removal failed has left
    the file registry although the file is still on disk; the entries
    registered before it are still registered, those registered after
    it have been visited, and the directory registry and the root
    directory are as before. *)
Theorem CleanUp_raise_state (E : Env) (realDelete : bool)
    (self self' : TempFileManager) (w w' : World) (e : exn) :
  CleanUp E realDelete self w = (Raise e, self', w') ->
  realDelete = true
  /\ (exists en, e = OSError en)
  /\ dirDB self' = dirDB self
  /\ defaultRootDir self' = defaultRootDir self
  /\ exists obj later,
       fileDB self = (fileDB self' ++ obj :: later)%list
       /\ own obj = true
       /\ isExist (name obj) w' = true.
Proof.
  intros H.
  destruct (CleanUp_outcome _ _ _ _ _ _ _ H)
    as (_ & _ & _ & _ & Hrd & Hen & Hd & Hroot & _ & Hobj).
  repeat split; assumption.
Qed.

Lemma CleanUp_raise_state_witness :
  exists obj later,
    fileDB busy_manager
    = (fileDB (snd (fst (CleanUp denied true busy_manager tmp_world)))
       ++ obj :: later)%list
    /\ own obj = true
    /\ isExist (name obj) (snd (CleanUp denied true busy_manager tmp_world))
       = true.
Proof.
  exact (proj2 (proj2 (proj2 (proj2
           (CleanUp_raise_state denied true busy_manager _ tmp_world _
              (OSError EACCES) eq_refl))))).
Defined.

(** * Further properties of [_gmapCreateDB] *)

Section LockFacts.

Variable E : Env.

(** [backticks] records the command it runs and nothing else. *)
Lemma backticks_shell c w :
  shell (snd (backticks E c w)) = (shell w ++ [c])%list.
Proof.
  destruct c as [p|p|dbName dbRoot inFa].
  - apply backticks_Touch_shell.
  - apply backticks_RmF.
  - unfold backticks. cbv zeta.
    destruct (gmap_build E dbName dbRoot inFa
                (fs (set_shell (shell w ++ [GmapBuild dbName dbRoot inFa]) w))
                (clock (set_shell (shell w ++ [GmapBuild dbName dbRoot inFa])
                          w))) as [f st].
    reflexivity.
Qed.

(** The waiting loop, round by round. *)
Lemma wait_for_lock_rounds referenceFile dbLock : forall fuel w w1,
  wait_for_lock E fuel referenceFile dbLock w = Some w1 ->
  isExist dbLock w1 = false
  /\ exists k,
       k <= fuel
       /\ clock w1 = clock w + 10 * k
       /\ log w1 = (log w ++ repeat (waiting_record referenceFile) k)%list
       /\ (k = 0 <-> isExist dbLock w = false)
       /\ forall fuel', fuel <= fuel' ->
            wait_for_lock E fuel' referenceFile dbLock w = Some w1.
Proof.
  induction fuel as [|fuel IH]; intros w w1 H.
  - cbn [wait_for_lock] in H. destruct (isExist dbLock w) eqn:Hx;
      [discriminate|]. injection H as <-. split; [exact Hx|].
    exists 0. split; [lia|]. split; [lia|].
    split; [cbn; now rewrite app_nil_r|]. split; [tauto|].
    intros fuel' _. now apply wait_for_lock_free.
  - cbn [wait_for_lock] in H. destruct (isExist dbLock w) eqn:Hx.
    + destruct (IH _ _ H) as (Hfree & k & Hk & Hc & Hl & _ & Hmore).
      split; [exact Hfree|]. exists (S k). split; [lia|].
      cbn [clock sleep_shared sleep set_clock set_fs logging set_log] in Hc.
      split; [lia|]. split.
      * rewrite Hl. cbn [log sleep_shared sleep set_clock set_fs logging
                           set_log repeat].
        now rewrite <- app_assoc.
      * split; [split; [lia | congruence]|].
        intros [|fuel'] Hle; [lia|]. cbn [wait_for_lock]. rewrite Hx.
        apply Hmore. lia.
    + injection H as <-. split; [exact Hx|].
      exists 0. split; [lia|]. split; [lia|].
      split; [cbn; now rewrite app_nil_r|]. split; [tauto|].
      intros fuel' _. now apply wait_for_lock_free.
Qed.

(** A lock that the other processes never delete is never passed. *)
Lemma wait_for_lock_stuck referenceFile dbLock :
  (forall t f, f dbLock <> None -> rivals E t f dbLock <> None) ->
  forall fuel w,
    isExist dbLock w = true ->
    wait_for_lock E fuel referenceFile dbLock w = None.
Proof.
  intros Hkeep. induction fuel as [|fuel IH]; intros w Hx;
    cbn [wait_for_lock]; rewrite Hx; [reflexivity|].
  apply IH. unfold isExist in *.
  cbn [fs sleep_shared sleep set_clock set_fs logging set_log clock].
  destruct (rivals E (clock w) (fs w) dbLock) eqn:Hr; [reflexivity|].
  exfalso. apply (Hkeep (clock w) (fs w)); [|exact Hr].
  now destruct (fs w dbLock).
Qed.

(** The commands one call may run. *)
Lemma createDB_at_commands fuel referenceFile dbRoot dbName w r w' :
  createDB_at E fuel referenceFile dbRoot dbName w = Some (r, w') ->
  let dbLock := Path.join dbRoot dbName ++ ".lock" in
  (shell w' = shell w
   \/ shell w' = (shell w ++ [Touch dbLock; RmF dbLock])%list
   \/ shell w'
      = (shell w ++ [Touch dbLock; GmapBuild dbName dbRoot referenceFile;
                     RmF dbLock])%list)
  /\ match r with
     | Ok location => location = (dbRoot, dbName)
     | Raise e => exists msg, e = RuntimeError msg
     end.
Proof.
  unfold createDB_at. cbv zeta.
  set (dbPath := Path.join dbRoot dbName).
  set (dbLock := dbPath ++ ".lock").
  destruct (isExist dbPath w && negb (isExist dbLock w)).
  { intros H. injection H as <- <-. split; [now left | reflexivity]. }
  destruct (wait_for_lock E fuel referenceFile dbLock w) as [w1|] eqn:Hw;
    [|discriminate].
  pose proof (wait_for_lock_shell E _ _ _ _ _ Hw) as Hs1.
  destruct (isExist dbPath w1); cbn [negb].
  1:{ intros H. injection H as <- <-. split; [left; exact Hs1 | reflexivity]. }
  pose proof (backticks_shell (Touch dbLock) w1) as Hs2.
  destruct (backticks E (Touch dbLock) w1) as [[code msg] w2].
  cbn [snd] in Hs2.
  destruct (negb (code =? 0)%Z).
  - match goal with
    | |- context [backticks E (RmF dbLock) ?x] =>
        pose proof (backticks_shell (RmF dbLock) x) as Hs3;
        destruct (backticks E (RmF dbLock) x) as [st w3]
    end.
    cbn [snd shell logging set_log] in Hs3.
    intros H. injection H as <- <-. split; [|now eexists].
    right. left. rewrite Hs3, Hs2, Hs1. now rewrite <- app_assoc.
  - match goal with
    | |- context [backticks E (GmapBuild dbName dbRoot referenceFile) ?x] =>
        pose proof (backticks_shell
                      (GmapBuild dbName dbRoot referenceFile) x) as Hs3;
        destruct (backticks E (GmapBuild dbName dbRoot referenceFile) x)
          as [[code2 msg2] w3]
    end.
    cbn [snd shell logging set_log] in Hs3.
    destruct (negb (code2 =? 0)%Z).
    + match goal with
      | |- context [backticks E (RmF dbLock) ?x] =>
          pose proof (backticks_shell (RmF dbLock) x) as Hs4;
          destruct (backticks E (RmF dbLock) x) as [st w4]
      end.
      cbn [snd shell logging set_log] in Hs4.
      intros H. injection H as <- <-. split; [|now eexists].
      right. right. rewrite Hs4, Hs3, Hs2, Hs1. now rewrite <- !app_assoc.
    + match goal with
      | |- context [backticks E (RmF dbLock) ?x] =>
          pose proof (backticks_shell (RmF dbLock) x) as Hs4;
          destruct (backticks E (RmF dbLock) x) as [st w4]
      end.
      cbn [snd shell logging set_log] in Hs4.
      intros H. injection H as <- <-. split; [|reflexivity].
      right. right. cbn [shell logging set_log].
      rewrite Hs4, Hs3, Hs2, Hs1. now rewrite <- !app_assoc.
Qed.

End LockFacts.

(** X10.  When the waiting loop of [_gmapCreateDB] ends, the lock is
    gone.  The loop has then made some number [k] of rounds, within the
    fuel: it has slept [10 * k] seconds, logged one INFO record per
    round and run no command; [k] is 0 exactly when there was no lock
    to begin with; and more fuel gives the same result. *)
Theorem wait_for_lock_outcome (E : Env) (fuel : nat)
    (referenceFile dbLock : string) (w w1 : World) :
  wait_for_lock E fuel referenceFile dbLock w = Some w1 ->
  isExist dbLock w1 = false
  /\ shell w1 = shell w
  /\ exists k,
       k <= fuel
       /\ clock w1 = clock w + 10 * k
       /\ log w1 = (log w ++ repeat (waiting_record referenceFile) k)%list
       /\ (k = 0 <-> isExist dbLock w = false)
       /\ forall fuel', fuel <= fuel' ->
            wait_for_lock E fuel' referenceFile dbLock w = Some w1.
Proof.
  intros H. destruct (wait_for_lock_rounds E _ _ _ _ _ H) as [Hfree Hk].
  split; [exact Hfree|]. split; [|exact Hk].
  exact (wait_for_lock_shell E _ _ _ _ _ H).
Qed.

Lemma wait_for_lock_outcome_witness :
  exists w1,
    wait_for_lock releasing 5 "/repo/sequence/ref.fa" "/repo/gmap_db.lock"
      locked_world = Some w1
    /\ isExist "/repo/gmap_db.lock" w1 = false
    /\ clock w1 = 20
    /\ wait_for_lock releasing 9 "/repo/sequence/ref.fa" "/repo/gmap_db.lock"
         locked_world = Some w1.
Proof.
  destruct (wait_for_lock releasing 5 "/repo/sequence/ref.fa"
              "/repo/gmap_db.lock" locked_world) as [w1|] eqn:Hrun.
  - destruct (wait_for_lock_outcome releasing 5 "/repo/sequence/ref.fa"
                "/repo/gmap_db.lock" locked_world w1 Hrun)
      as (Hfree & _ & k & _ & _ & _ & _ & Hmore).
    exists w1. split; [reflexivity|]. split; [exact Hfree|].
    split; [|apply Hmore; lia].
    vm_compute in Hrun. injection Hrun as <-. reflexivity.
  - vm_compute in Hrun. discriminate.
Defined.

(** X11.  While the lock exists and the other processes do not delete
    it, [_gmapCreateDB] does not return, however much fuel it is
    given: there is no timeout and a lock left behind blocks every
    later call. *)
Theorem createDB_at_stale_lock (E : Env) (referenceFile dbRoot dbName : string)
    (w : World) :
  (forall t f, f (Path.join dbRoot dbName ++ ".lock") <> None ->
     rivals E t f (Path.join dbRoot dbName ++ ".lock") <> None) ->
  isExist (Path.join dbRoot dbName ++ ".lock") w = true ->
  forall fuel, createDB_at E fuel referenceFile dbRoot dbName w = None.
Proof.
  intros Hkeep Hx fuel. unfold createDB_at. cbv zeta. rewrite Hx.
  rewrite andb_false_r.
  now rewrite (wait_for_lock_stuck E referenceFile _ Hkeep fuel w Hx).
Qed.

Lemma createDB_at_stale_lock_witness :
  isExist "/repo/gmap_db.lock" locked_world = true
  /\ createDB_at calm 1000 "/repo/sequence/ref.fa" "/repo" "gmap_db"
       locked_world = None.
Proof.
  split; [reflexivity|].
  apply (createDB_at_stale_lock calm "/repo/sequence/ref.fa" "/repo" "gmap_db"
           locked_world); [|reflexivity].
  intros t f Hf. exact Hf.
Defined.

(** X12.  Whatever [_gmapCreateDB] returns or raises, it has run no
    command at all, or [touch] and [rm -f] on the lock, or [touch], one
    [gmap_build] and [rm -f]: at most one build, and a lock it has
    created is always followed by its removal.  What it returns is the
    pair it computed at the start; what it raises is a
    [RuntimeError]. *)
Theorem gmapCreateDB_commands (E : Env) (fuel : nat) (referenceFile : string)
    (isWithinRepository : bool) (tempRootDir : string) (w w' : World)
    (r : result (string * string)) :
  _gmapCreateDB E fuel referenceFile isWithinRepository tempRootDir w
  = Some (r, w') ->
  let location :=
    fst (db_location E referenceFile isWithinRepository tempRootDir w) in
  let dbLock := Path.join (fst location) (snd location) ++ ".lock" in
  (shell w' = shell w
   \/ shell w' = (shell w ++ [Touch dbLock; RmF dbLock])%list
   \/ shell w'
      = (shell w ++ [Touch dbLock;
                     GmapBuild (snd location) (fst location) referenceFile;
                     RmF dbLock])%list)
  /\ builds w' <= S (builds w)
  /\ match r with
     | Ok returned => returned = location
     | Raise e => exists msg, e = RuntimeError msg
     end.
Proof.
  unfold _gmapCreateDB.
  destruct (db_location E referenceFile isWithinRepository tempRootDir w)
    as [[dbRoot dbName] w0] eqn:Hloc.
  assert (Hsh : shell w0 = shell w).
  { unfold db_location in Hloc.
    destruct isWithinRepository; now injection Hloc as <- <- <-. }
  intros H. apply createDB_at_commands in H. cbv zeta in H.
  cbn [fst snd]. rewrite Hsh in H. destruct H as [Hcmd Hr].
  split; [exact Hcmd|]. split; [|exact Hr].
  unfold builds.
  destruct Hcmd as [-> | [-> | ->]];
    rewrite ?filter_app, ?List.length_app; simpl; lia.
Qed.

Lemma gmapCreateDB_commands_witness :
  builds (snd (match _gmapCreateDB broken 0 "/repo/sequence/ref.fa" false "/tmp"
                       tmp_world with
               | Some out => out
               | None => (Ok ("", ""), tmp_world)
               end)) <= 1
  /\ exists msg,
       fst (match _gmapCreateDB broken 0 "/repo/sequence/ref.fa" false "/tmp"
                    tmp_world with
            | Some out => out
            | None => (Ok ("", ""), tmp_world)
            end) = Raise (RuntimeError msg).
Proof.
  destruct (_gmapCreateDB broken 0 "/repo/sequence/ref.fa" false "/tmp"
              tmp_world) as [[r w']|] eqn:Hrun.
  - destruct (gmapCreateDB_commands broken 0 "/repo/sequence/ref.fa" false
                "/tmp" tmp_world w' r Hrun) as (_ & Hb & Hr).
    split; [exact Hb|]. cbn [fst].
    destruct r as [p|e]; [vm_compute in Hrun; discriminate|].
    destruct Hr as [msg ->]. now exists msg.
  - vm_compute in Hrun. discriminate.
Defined.

(** X13.  When the lock cannot be created ([touch] exits with a
    non-zero status), [_gmapCreateDB] does not start the builder: it
    logs the failure, runs [rm -f] on the lock and raises
    [RuntimeError] with the error output of [touch]. *)
Theorem createDB_at_lock_not_created (E : Env) (fuel : nat)
    (referenceFile dbRoot dbName : string) (w w1 w2 : World)
    (errCode : Z) (errMsg : string) :
  isExist (Path.join dbRoot dbName) w
  && negb (isExist (Path.join dbRoot dbName ++ ".lock") w) = false ->
  wait_for_lock E fuel referenceFile (Path.join dbRoot dbName ++ ".lock") w
  = Some w1 ->
  isExist (Path.join dbRoot dbName) w1 = false ->
  backticks E (Touch (Path.join dbRoot dbName ++ ".lock")) w1
  = ((errCode, errMsg), w2) ->
  errCode <> 0%Z ->
  exists w',
    createDB_at E fuel referenceFile dbRoot dbName w
    = Some (Raise (RuntimeError errMsg), w')
    /\ shell w'
       = (shell w ++ [Touch (Path.join dbRoot dbName ++ ".lock");
                      RmF (Path.join dbRoot dbName ++ ".lock")])%list
    /\ builds w' = builds w
    /\ In (ERROR, service_name ++ ": Failed to create {dbLock}." ++ newline
                  ++ errMsg) (log w').
Proof.
  intros Hnot Hwait Hdb Htouch Hcode.
  unfold createDB_at. cbv zeta. rewrite Hnot, Hwait, Hdb. cbn [negb].
  rewrite Htouch.
  replace (errCode =? 0)%Z with false by (symmetry; now apply Z.eqb_neq).
  cbn [negb].
  set (wc := logging ERROR _ (logging DEBUG _ w2)).
  pose proof (backticks_shell E (RmF (Path.join dbRoot dbName ++ ".lock")) wc)
    as Hsh.
  destruct (backticks_RmF E (Path.join dbRoot dbName ++ ".lock") wc)
    as (_ & _ & Hlog & _).
  destruct (backticks E (RmF (Path.join dbRoot dbName ++ ".lock")) wc)
    as [st w'].
  cbn [snd] in Hsh, Hlog.
  assert (Hs2 : shell w2
                = (shell w ++ [Touch (Path.join dbRoot dbName ++ ".lock")])%list).
  { pose proof (backticks_shell E (Touch (Path.join dbRoot dbName ++ ".lock"))
                  w1) as Ht.
    rewrite Htouch in Ht. cbn [snd] in Ht.
    now rewrite Ht, (wait_for_lock_shell E _ _ _ _ _ Hwait). }
  assert (Hfull : shell w'
            = (shell w ++ [Touch (Path.join dbRoot dbName ++ ".lock");
                           RmF (Path.join dbRoot dbName ++ ".lock")])%list).
  { rewrite Hsh. unfold wc. cbn [shell logging set_log]. rewrite Hs2.
    now rewrite <- app_assoc. }
  exists w'. split; [reflexivity|]. split; [exact Hfull|]. split.
  - unfold builds. rewrite Hfull, filter_app, List.length_app. simpl. lia.
  - rewrite Hlog. unfold wc. cbn [log logging set_log].
    apply in_or_app. right. now left.
Qed.

Lemma createDB_at_lock_not_created_witness :
  exists w',
    createDB_at calm 0 "/repo/sequence/ref.fa" "/nowhere" "gmap_db" repo_world
    = Some (Raise (RuntimeError "touch: cannot touch /nowhere/gmap_db.lock"),
            w')
    /\ builds w' = 0.
Proof.
  destruct (createDB_at_lock_not_created calm 0 "/repo/sequence/ref.fa"
              "/nowhere" "gmap_db" repo_world repo_world
              (snd (backticks calm (Touch "/nowhere/gmap_db.lock") repo_world))
              1%Z "touch: cannot touch /nowhere/gmap_db.lock"
              eq_refl eq_refl eq_refl eq_refl)
    as (w' & Hrun & _ & Hb & _).
  - discriminate.
  - exists w'. split; [exact Hrun | exact Hb].
Defined.

(** * [_resolveAlgorithmOptions] *)

Lemma split_not_nil sep s : Py.split sep s <> [].
Proof.
  destruct s as [|c r]; cbn [Py.split]; [discriminate|].
  destruct (Ascii.eqb c sep); [discriminate|].
  destruct (Py.split sep r); discriminate.
Qed.

Lemma del_slice_shorter {A} (i k : nat) (l : list A) :
  i < List.length l -> 0 < k ->
  List.length (Py.del_slice i (i + k) l) < List.length l.
Proof.
  intros Hi Hk. unfold Py.del_slice.
  rewrite List.length_app, List.length_firstn, List.length_skipn. lia.
Qed.


Lemma round_end_cases infoMsg errMsg items o w :
  round_end infoMsg errMsg items o w
  = Raises errMsg o (logging ERROR errMsg w)
  \/ round_end infoMsg errMsg items o w = Goes_on items o w
  \/ exists m, round_end infoMsg errMsg items o w
               = Goes_on items o (logging INFO m w).
Proof.
  unfold round_end. destruct (negb (errMsg =? "")); [now left|].
  destruct (negb (infoMsg =? "")); [right; right; now eexists | right; now left].
Qed.

Lemma same_limits_refl o : same_limits o o.
Proof. repeat split. Qed.

Lemma same_limits_nproc o v : same_limits o (set_nproc v o).
Proof. repeat split. Qed.

Lemma same_limits_trans o1 o2 o3 :
  same_limits o1 o2 -> same_limits o2 o3 -> same_limits o1 o3.
Proof.
  intros (Ha & Hb & Hc) (Ha' & Hb' & Hc'). repeat split; congruence.
Qed.

(** A round that ends through [round_end] with a shorter list. *)
Lemma round_end_shorter infoMsg errMsg items' items o o0 w :
  same_limits o0 o -> (errMsg <> "" -> o = o0) ->
  List.length items' < List.length items ->
  round_ok items o0 w (round_end infoMsg errMsg items' o w).
Proof.
  intros Hlim Herr Hlen. unfold round_end.
  destruct (negb (errMsg =? "")) eqn:He.
  - cbn [round_ok]. split; [|split; reflexivity].
    apply Herr. intros ->. discriminate.
  - destruct (negb (infoMsg =? "")); cbn [round_ok];
      (split; [exact Hlim|]); (split; [reflexivity|]);
      (split; [reflexivity|]); now left.
Qed.

(** A round that ends through [round_end] with a message of conflict. *)
Lemma round_end_conflict errMsg items o w :
  errMsg <> "" ->
  round_end "" errMsg items o w = Raises errMsg o (logging ERROR errMsg w).
Proof.
  intros He. unfold round_end. apply String.eqb_neq in He. now rewrite He.
Qed.

(** Each round raises, shortens the list, or changes nothing. *)
Lemma resolve_round_ok i items o w :
  i < List.length items -> round_ok items o w (resolve_round i items o w).
Proof.
  intros Hi. unfold resolve_round.
  set (item := hd "" (Py.split "=" (nth i items ""))).
  destruct (Py.str_in item unsupportedOptions); [now repeat split|].
  destruct (Py.str_in item ignoredUnitaryOptions).
  { apply round_end_shorter; [apply same_limits_refl | now intros [] |].
    apply del_slice_shorter; [exact Hi | lia]. }
  destruct (Py.str_in item ignoredBinaryOptions).
  { apply round_end_shorter; [apply same_limits_refl | now intros [] |].
    apply del_slice_shorter; [exact Hi | lia]. }
  destruct (item =? "-k").
  { destruct (int_item items (i + 1)) as [text|val]; [now repeat split|].
    destruct (match minAnchorSize o with
              | Some v => (v =? val)%Z
              | None => false
              end).
    - apply round_end_shorter; [apply same_limits_refl | now intros [] |].
      apply del_slice_shorter; [exact Hi | lia].
    - rewrite round_end_conflict by discriminate. now repeat split. }
  destruct (item =? "-t").
  { destruct (int_item items (i + 1)) as [text|val]; [now repeat split|].
    apply round_end_shorter; [apply same_limits_nproc | now intros [] |].
    apply del_slice_shorter; [exact Hi | lia]. }
  destruct (item =? "-n").
  { destruct (int_item items (i + 1)) as [text|val]; [now repeat split|].
    destruct (match maxHits o with
              | Some v => (v =? val)%Z
              | None => false
              end).
    - apply round_end_shorter; [apply same_limits_refl | now intros [] |].
      apply del_slice_shorter; [exact Hi | lia].
    - rewrite round_end_conflict by discriminate. now repeat split. }
  cbn. split; [apply same_limits_refl|]. split; [reflexivity|].
  split; [reflexivity|]. right. now repeat split.
Qed.

(** An item the loop does not know changes nothing. *)
Lemma resolve_round_unrecognised i items o w :
  recognised (hd "" (Py.split "=" (nth i items ""))) = false ->
  resolve_round i items o w = Goes_on items o w.
Proof.
  unfold recognised, resolve_round.
  set (item := hd "" (Py.split "=" (nth i items ""))).
  intros H.
  destruct (Py.str_in item unsupportedOptions); [discriminate|].
  destruct (Py.str_in item ignoredUnitaryOptions); [discriminate|].
  destruct (Py.str_in item ignoredBinaryOptions); [discriminate|].
  destruct (item =? "-k"); [discriminate|].
  destruct (item =? "-t"); [discriminate|].
  destruct (item =? "-n"); [discriminate|].
  reflexivity.
Qed.

(** A round that changes nothing will be repeated for ever. *)
Lemma resolve_loop_stuck i items o w :
  i < List.length items ->
  resolve_round i items o w = Goes_on items o w ->
  forall fuel, resolve_loop fuel i items o w = None.
Proof.
  intros Hi Hsame. apply Nat.ltb_lt in Hi.
  induction fuel as [|fuel IH]; cbn [resolve_loop]; rewrite Hi;
    [reflexivity|]. now rewrite Hsame.
Qed.

(** With the index at 0, as the code has it: when the loop ends
    normally the list is empty. *)
Lemma resolve_loop_ends : forall fuel items o w items' o' w',
  resolve_loop fuel 0 items o w = Some (Goes_on items' o' w') ->
  items' = [] /\ same_limits o o' /\ shell w' = shell w /\ fs w' = fs w.
Proof.
  induction fuel as [|fuel IH]; intros items o w items' o' w' H;
    cbn [resolve_loop] in H.
  - destruct items; cbn in H; [|discriminate].
    injection H as <- <- <-. split; [reflexivity|].
    split; [apply same_limits_refl|]. now split.
  - destruct items as [|x items]; cbn [List.length Nat.ltb Nat.leb] in H.
    + injection H as <- <- <-. split; [reflexivity|].
      split; [apply same_limits_refl|]. now split.
    + pose proof (resolve_round_ok 0 (x :: items) o w
                    ltac:(cbn; lia)) as Hok.
      destruct (resolve_round 0 (x :: items) o w) as [it1 o1 w1|t1 o1 w1];
        [|discriminate].
      destruct Hok as (Hlim & Hsh & Hfs & _).
      destruct (IH _ _ _ _ _ _ H) as (Hnil & Hlim' & Hsh' & Hfs').
      split; [exact Hnil|]. split; [eapply same_limits_trans; eauto|].
      split; congruence.
Qed.

(** When the loop raises: the options it leaves differ from the first
    ones in [nproc] at most. *)
Lemma resolve_loop_raises : forall fuel items o w text o' w',
  resolve_loop fuel 0 items o w = Some (Raises text o' w') ->
  same_limits o o' /\ shell w' = shell w /\ fs w' = fs w.
Proof.
  induction fuel as [|fuel IH]; intros items o w text o' w' H;
    cbn [resolve_loop] in H.
  - destruct (0 <? List.length items)%nat; discriminate.
  - destruct items as [|x items]; cbn [List.length Nat.ltb Nat.leb] in H;
      [discriminate|].
    pose proof (resolve_round_ok 0 (x :: items) o w ltac:(cbn; lia)) as Hok.
    destruct (resolve_round 0 (x :: items) o w) as [it1 o1 w1|t1 o1 w1].
    + destruct Hok as (Hlim & Hsh & Hfs & _).
      destruct (IH _ _ _ _ _ _ H) as (Hlim' & Hsh' & Hfs').
      split; [eapply same_limits_trans; eauto|]. split; congruence.
    + injection H as <- <- <-. destruct Hok as (-> & Hsh & Hfs).
      split; [apply same_limits_refl|]. now split.
Qed.

(** The loop ends within as many rounds as the list has items, or it
    never ends. *)
Lemma resolve_loop_fuel : forall n items o w fuel,
  List.length items <= n -> n < fuel ->
  resolve_loop fuel 0 items o w = resolve_loop (S n) 0 items o w.
Proof.
  induction n as [|n IH]; intros items o w fuel Hlen Hfuel.
  - destruct items; [|cbn in Hlen; lia].
    destruct fuel; reflexivity.
  - destruct fuel as [|fuel]; [lia|].
    destruct items as [|x items]; [reflexivity|].
    cbn [resolve_loop List.length Nat.ltb Nat.leb].
    pose proof (resolve_round_ok 0 (x :: items) o w ltac:(cbn; lia)) as Hok.
    destruct (resolve_round 0 (x :: items) o w) as [it1 o1 w1|t1 o1 w1] eqn:Hr;
      [|reflexivity].
    destruct Hok as (_ & _ & _ & [Hshort|(-> & -> & ->)]).
    + cbn [List.length] in Hshort, Hlen.
      rewrite (IH it1 o1 w1 fuel) by lia. reflexivity.
    + change (resolve_loop fuel 0 (x :: items) o w
              = resolve_loop (S n) 0 (x :: items) o w).
      assert (Hpos : 0 < List.length (x :: items)) by (cbn; lia).
      now rewrite !(resolve_loop_stuck 0 (x :: items) o w Hpos Hr).
Qed.

(** X14.  When [_resolveAlgorithmOptions] returns and
    [algorithmOptions] was a string, [algorithmOptions] is the empty
    string afterwards: the index [i] stays at 0, so the loop only ends
    when every item has been deleted.  [maxHits] and [minAnchorSize]
    are as before, no command was run and the file system is as
    before.  When [algorithmOptions] was [None] nothing changes. *)
Theorem resolveAlgorithmOptions_returns_empty (fuel : nat)
    (o o' : Options) (w w' : World) :
  _resolveAlgorithmOptions fuel o w = Some (Returned, o', w') ->
  (algorithmOptions o = None -> o' = o /\ w' = w)
  /\ (algorithmOptions o <> None -> algorithmOptions o' = Some "")
  /\ maxHits o' = maxHits o /\ minAnchorSize o' = minAnchorSize o
  /\ shell w' = shell w /\ fs w' = fs w.
Proof.
  unfold _resolveAlgorithmOptions. intros H.
  destruct (algorithmOptions o) as [ao|] eqn:Hao.
  - cbv zeta in H.
    destruct (resolve_loop fuel 0 (Py.split " " ao) o w)
      as [[items o1 w1|text o1 w1]|] eqn:Hloop; try discriminate.
    injection H as <- <-.
    destruct (resolve_loop_ends _ _ _ _ _ _ _ Hloop)
      as (-> & (_ & Hm & Hk) & Hsh & Hfs).
    split; [discriminate|]. split; [reflexivity|].
    repeat split; assumption.
  - injection H as <- <-. split; [now split|].
    split; [intros Hn; now elim Hn|]. repeat split.
Qed.

Lemma resolveAlgorithmOptions_returns_empty_witness :
  exists o' w',
    _resolveAlgorithmOptions 9
      (mkOptions (Some "-S -D gmapdb -t 8 -k 12") None (Some 12%Z) None)
      (world_of [])
    = Some (Returned, o', w')
    /\ algorithmOptions o' = Some ""
    /\ nproc o' = Some 8%Z.
Proof.
  destruct (_resolveAlgorithmOptions 9
              (mkOptions (Some "-S -D gmapdb -t 8 -k 12") None (Some 12%Z) None)
              (world_of [])) as [[[[|msg] o'] w']|] eqn:Hrun;
    try (vm_compute in Hrun; discriminate).
  destruct (resolveAlgorithmOptions_returns_empty _ _ _ _ _ Hrun)
    as (_ & Hempty & _).
  exists o', w'. split; [reflexivity|]. split; [apply Hempty; discriminate|].
  vm_compute in Hrun. now injection Hrun as <- <-.
Defined.

(** X15.  When the first item of [algorithmOptions], up to its first
    [=], is none of the options the loop handles, the method never
    returns: the round changes nothing and [i] is not advanced.  The
    empty string is such a value, and so is any other gmap option. *)
Theorem resolveAlgorithmOptions_unrecognised_hangs (o : Options) (w : World)
    (ao : string) :
  algorithmOptions o = Some ao ->
  recognised (hd "" (Py.split "=" (hd "" (Py.split " " ao)))) = false ->
  forall fuel, _resolveAlgorithmOptions fuel o w = None.
Proof.
  intros Hao Hun fuel. unfold _resolveAlgorithmOptions. rewrite Hao. cbv zeta.
  pose proof (split_not_nil " " ao) as Hne.
  destruct (Py.split " " ao) as [|x items] eqn:Hsp; [now elim Hne|].
  rewrite (resolve_loop_stuck 0 (x :: items) o w); [reflexivity | cbn; lia |].
  now apply resolve_round_unrecognised.
Qed.

Lemma resolveAlgorithmOptions_unrecognised_hangs_witness :
  _resolveAlgorithmOptions 1000 (mkOptions (Some "") None None None)
    (world_of []) = None
  /\ _resolveAlgorithmOptions 1000
       (mkOptions (Some "--min-intronlength=9 -t 8") None None None)
       (world_of []) = None.
Proof.
  split.
  - now apply (resolveAlgorithmOptions_unrecognised_hangs _ _ "").
  - now apply (resolveAlgorithmOptions_unrecognised_hangs _ _
                 "--min-intronlength=9 -t 8").
Defined.

(** X16.  The loop of [_resolveAlgorithmOptions] makes at most as many
    rounds as [algorithmOptions] has items, or it never ends: with more
    fuel than there are items the result no longer depends on the
    fuel. *)
Theorem resolveAlgorithmOptions_rounds (o : Options) (w : World) (ao : string)
    (fuel : nat) :
  algorithmOptions o = Some ao ->
  List.length (Py.split " " ao) < fuel ->
  _resolveAlgorithmOptions fuel o w
  = _resolveAlgorithmOptions (S (List.length (Py.split " " ao))) o w.
Proof.
  intros Hao Hfuel. unfold _resolveAlgorithmOptions. rewrite Hao. cbv zeta.
  now rewrite (resolve_loop_fuel (List.length (Py.split " " ao))
                 (Py.split " " ao) o w fuel) by lia.
Qed.

Lemma resolveAlgorithmOptions_rounds_witness :
  _resolveAlgorithmOptions 50
    (mkOptions (Some "-S -D gmapdb -t 8") None None None) (world_of [])
  = _resolveAlgorithmOptions 5
      (mkOptions (Some "-S -D gmapdb -t 8") None None None) (world_of []).
Proof.
  assert (Hfuel : List.length (Py.split " " "-S -D gmapdb -t 8") < 50)
    by (vm_compute; lia).
  exact (resolveAlgorithmOptions_rounds
           (mkOptions (Some "-S -D gmapdb -t 8") None None None)
           (world_of []) "-S -D gmapdb -t 8" 50 eq_refl Hfuel).
Defined.

(** X17.  Every exception that leaves [_resolveAlgorithmOptions] is a
    [ValueError] whose text starts with "An error occured during
    parsing algorithmOptions", quotes the option string and ends with
    the text of the exception raised in the loop; it is the last record
    of the log, at level ERROR.  The options then differ from the ones
    passed in [nproc] at most, no command was run and the file system
    is as before. *)
Theorem resolveAlgorithmOptions_raises (fuel : nat) (o o' : Options)
    (w w' : World) (msg : string) :
  _resolveAlgorithmOptions fuel o w = Some (ValueError msg, o', w') ->
  exists ao text,
    algorithmOptions o = Some ao
    /\ msg = ("An error occured during parsing algorithmOptions "
              ++ "'" ++ ao ++ "': ") ++ text
    /\ (exists earlier, log w' = (earlier ++ [(ERROR, msg)])%list)
    /\ same_limits o o'
    /\ shell w' = shell w /\ fs w' = fs w.
Proof.
  unfold _resolveAlgorithmOptions. intros H.
  destruct (algorithmOptions o) as [ao|] eqn:Hao; [|discriminate].
  cbv zeta in H.
  destruct (resolve_loop fuel 0 (Py.split " " ao) o w)
    as [[items o1 w1|text o1 w1]|] eqn:Hloop; try discriminate.
  injection H as <- <- <-.
  destruct (resolve_loop_raises _ _ _ _ _ _ _ Hloop) as (Hlim & Hsh & Hfs).
  exists ao, text. split; [reflexivity|]. split; [reflexivity|].
  split; [now exists (log w1)|]. split; [|now split].
  destruct Hlim as (Ha & Hm & Hk). repeat split; congruence.
Qed.

Lemma resolveAlgorithmOptions_raises_witness :
  exists o' w' text,
    _resolveAlgorithmOptions 9
      (mkOptions (Some "-t 4 -V") None None None) (world_of [])
    = Some (ValueError
              (("An error occured during parsing algorithmOptions "
                ++ "'" ++ "-t 4 -V" ++ "': ") ++ text), o', w')
    /\ maxHits o' = None.
Proof.
  destruct (_resolveAlgorithmOptions 9
              (mkOptions (Some "-t 4 -V") None None None) (world_of []))
    as [[[[|msg] o'] w']|] eqn:Hrun; try (vm_compute in Hrun; discriminate).
  destruct (resolveAlgorithmOptions_raises _ _ _ _ _ _ Hrun)
    as (ao & text & Hao & Hmsg & _ & (_ & Hm & _) & _).
  injection Hao as <-. exists o', w', text. rewrite Hmsg.
  split; [reflexivity | exact Hm].
Defined.

(** X18.  A leading [-k v] whose value differs from [minAnchorSize],
    and a leading [-n v] whose value differs from [maxHits], make
    [_resolveAlgorithmOptions] raise [ValueError], whatever follows;
    the conflict is logged at level ERROR before the exception is
    wrapped, and the options are left as they were. *)
Theorem resolveAlgorithmOptions_conflict (fuel : nat) (o : Options) (w : World)
    (ao flag value : string) (rest : list string) (v : Z) :
  algorithmOptions o = Some ao ->
  Py.split " " ao = flag :: value :: rest ->
  Py.int value = Some v ->
  (flag = "-k" /\ minAnchorSize o <> Some v)
  \/ (flag = "-n" /\ maxHits o <> Some v) ->
  exists text,
    _resolveAlgorithmOptions (S fuel) o w
    = Some (ValueError
              (("An error occured during parsing algorithmOptions "
                ++ "'" ++ ao ++ "': ") ++ text),
            o,
            logging ERROR
              (("An error occured during parsing algorithmOptions "
                ++ "'" ++ ao ++ "': ") ++ text)
              (logging ERROR text w)).
Proof.
  intros Hao Hsp Hint Hflag.
  unfold _resolveAlgorithmOptions. rewrite Hao. cbv zeta. rewrite Hsp.
  cbn [resolve_loop List.length Nat.ltb Nat.leb].
  unfold resolve_round. cbn [nth].
  destruct Hflag as [[-> Hdiff]|[-> Hdiff]]; cbn [Py.split hd];
    cbn -[round_end String.append Py.str_int Py.str_opt];
    unfold int_item; cbn [nth_error Nat.add]; rewrite Hint.
  - assert (Hne : match minAnchorSize o with
                  | Some v0 => (v0 =? v)%Z
                  | None => false
                  end = false).
    { destruct (minAnchorSize o) as [v0|]; [|reflexivity].
      apply Z.eqb_neq. intros ->. now elim Hdiff. }
    rewrite Hne, round_end_conflict by discriminate. now eexists.
  - assert (Hne : match maxHits o with
                  | Some v0 => (v0 =? v)%Z
                  | None => false
                  end = false).
    { destruct (maxHits o) as [v0|]; [|reflexivity].
      apply Z.eqb_neq. intros ->. now elim Hdiff. }
    rewrite Hne, round_end_conflict by discriminate. now eexists.
Qed.

Lemma resolveAlgorithmOptions_conflict_witness :
  exists text w',
    _resolveAlgorithmOptions 1
      (mkOptions (Some "-k 13 -S") None (Some 12%Z) None) (world_of [])
    = Some (ValueError
              (("An error occured during parsing algorithmOptions "
                ++ "'" ++ "-k 13 -S" ++ "': ") ++ text),
            mkOptions (Some "-k 13 -S") None (Some 12%Z) None, w').
Proof.
  destruct (resolveAlgorithmOptions_conflict 0
              (mkOptions (Some "-k 13 -S") None (Some 12%Z) None)
              (world_of []) "-k 13 -S" "-k" "13" ["-S"] 13%Z
              eq_refl eq_refl eq_refl) as [text Hrun].
  - left. split; [reflexivity | discriminate].
  - exists text. eexists. exact Hrun.
Defined.

(** ** The command line of [GMAPService] *)

Lemma in_firstn_list {A} (x : A) n l : In x (firstn n l) -> In x l.
Proof.
  intros H. rewrite <- (firstn_skipn n l). apply in_or_app. now left.
Qed.

Lemma in_skipn_list {A} (x : A) n l : In x (skipn n l) -> In x l.
Proof.
  intros H. rewrite <- (firstn_skipn n l). apply in_or_app. now right.
Qed.

Lemma del_slice_In {A} (x : A) i j l : In x (Py.del_slice i j l) -> In x l.
Proof.
  unfold Py.del_slice. intros H. apply in_app_or in H as [H|H].
  - now apply in_firstn_list in H.
  - now apply in_skipn_list in H.
Qed.

Lemma round_end_goes infoMsg errMsg items o w items' o' w' :
  round_end infoMsg errMsg items o w = Goes_on items' o' w' ->
  items' = items /\ o' = o.
Proof.
  destruct (round_end_cases infoMsg errMsg items o w) as [H|[H|[m H]]];
    rewrite H; intros H'; [discriminate | |]; now injection H' as <- <- <-.
Qed.

Lemma int_item_In items j v :
  int_item items j = inr v -> exists s, In s items /\ Py.int s = Some v.
Proof.
  unfold int_item. destruct (nth_error items j) as [s|] eqn:Hn; [|discriminate].
  destruct (Py.int s) as [v'|] eqn:Hi; [|discriminate].
  intros H. injection H as <-. exists s. split; [|exact Hi].
  eapply nth_error_In. exact Hn.
Qed.

Lemma nproc_from_refl items o : nproc_from items o o.
Proof. now left. Qed.

(** One round: the items only get fewer, and a new thread count is an
    item read as an int. *)
Lemma resolve_round_nproc i items o w items' o' w' :
  resolve_round i items o w = Goes_on items' o' w' ->
  nproc_from items o o' /\ (forall s, In s items' -> In s items).
Proof.
  unfold resolve_round.
  set (item := hd "" (Py.split "=" (nth i items ""))).
  destruct (Py.str_in item unsupportedOptions); [discriminate|].
  destruct (Py.str_in item ignoredUnitaryOptions).
  { intros H. apply round_end_goes in H as [-> ->].
    split; [apply nproc_from_refl | intros s; apply del_slice_In]. }
  destruct (Py.str_in item ignoredBinaryOptions).
  { intros H. apply round_end_goes in H as [-> ->].
    split; [apply nproc_from_refl | intros s; apply del_slice_In]. }
  destruct (item =? "-k").
  { destruct (int_item items (i + 1)) as [text|val]; [discriminate|].
    destruct (match minAnchorSize o with
              | Some v => (v =? val)%Z
              | None => false
              end);
      intros H; apply round_end_goes in H as [-> ->];
      (split; [apply nproc_from_refl | intros s; try apply del_slice_In; auto]). }
  destruct (item =? "-t").
  { destruct (int_item items (i + 1)) as [text|val] eqn:Hint; [discriminate|].
    intros H. apply round_end_goes in H as [-> ->].
    split; [|intros s; apply del_slice_In].
    destruct (int_item_In _ _ _ Hint) as (s & Hin & Hs).
    right. now exists s, val. }
  destruct (item =? "-n").
  { destruct (int_item items (i + 1)) as [text|val]; [discriminate|].
    destruct (match maxHits o with
              | Some v => (v =? val)%Z
              | None => false
              end);
      intros H; apply round_end_goes in H as [-> ->];
      (split; [apply nproc_from_refl | intros s; try apply del_slice_In; auto]). }
  intros H. apply round_end_goes in H as [-> ->].
  split; [apply nproc_from_refl | auto].
Qed.

Lemma resolve_loop_nproc : forall fuel items o w items' o' w',
  resolve_loop fuel 0 items o w = Some (Goes_on items' o' w') ->
  nproc_from items o o'.
Proof.
  induction fuel as [|fuel IH]; intros items o w items' o' w' H;
    cbn [resolve_loop] in H.
  - destruct items; cbn in H; [|discriminate].
    injection H as <- <- <-. apply nproc_from_refl.
  - destruct items as [|x items]; cbn [List.length Nat.ltb Nat.leb] in H.
    + injection H as <- <- <-. apply nproc_from_refl.
    + destruct (resolve_round 0 (x :: items) o w) as [it1 o1 w1|t1 o1 w1] eqn:Hr;
        [|discriminate].
      destruct (resolve_round_nproc _ _ _ _ _ _ _ Hr) as (Hfrom & Hincl).
      destruct (IH _ _ _ _ _ _ H) as [Heq|(s & v & Hin & Hs & Hv)].
      * destruct Hfrom as [Hfrom|(s & v & Hin & Hs & Hv)].
        -- left. congruence.
        -- right. exists s, v. repeat split; [assumption..|congruence].
      * right. exists s, v. repeat split; auto.
Qed.

(** X19.  The command line [_toCmd] builds from options that
    [_resolveAlgorithmOptions] has returned carries nothing of the
    text of [algorithmOptions]: it is the fixed head, [-n] and [-k]
    with the values the options had before the resolution, [-t] with
    the thread count, one more blank for the emptied
    [algorithmOptions], and the redirection.  The thread count is the
    one passed in or an item of [algorithmOptions] read as an int. *)
Theorem toCmd_after_resolution (self : GMAPService) (fileNames : PBAlignFiles)
    (tempFileManager fuel : nat) (o o' : Options) (w w' : World) (ao : string) :
  algorithmOptions o = Some ao ->
  _resolveAlgorithmOptions fuel o w = Some (Returned, o', w') ->
  _toCmd self o' fileNames tempFileManager
  = (((((("gmap -D " ++ Py.str_or_None (dbRoot self) ++ " ")
         ++ ("-d " ++ dbName self ++ " -f samse ")
         ++ ("--sam-use-0M " ++ Py.str_or_None (queryFileName fileNames)
             ++ " "))
        ++ match maxHits o with
           | Some n => "-n " ++ Py.str_int n ++ " "
           | None => ""
           end)
       ++ match minAnchorSize o with
          | Some k => "-k " ++ Py.str_int k ++ " "
          | None => ""
          end)
      ++ match nproc o' with
         | Some t => "-t " ++ Py.str_int t ++ " "
         | None => ""
         end)
     ++ " ")
    ++ ("> " ++ Py.str_or_None (alignerSamOut fileNames) ++ " ")
  /\ nproc_from (Py.split " " ao) o o'.
Proof.
  intros Hao H. unfold _resolveAlgorithmOptions in H. rewrite Hao in H.
  cbv zeta in H.
  destruct (resolve_loop fuel 0 (Py.split " " ao) o w)
    as [[items o1 w1|text o1 w1]|] eqn:Hloop; try discriminate.
  injection H as <- <-.
  destruct (resolve_loop_ends _ _ _ _ _ _ _ Hloop) as (-> & (_ & Hm & Hk) & _).
  pose proof (resolve_loop_nproc _ _ _ _ _ _ _ Hloop) as Hfrom.
  split; [|exact Hfrom].
  unfold _toCmd.
  cbn [algorithmOptions maxHits minAnchorSize nproc set_algorithmOptions
       Py.join].
  rewrite <- Hm, <- Hk.
  destruct (maxHits o1), (minAnchorSize o1), (nproc o1);
    rewrite ?app_empty_r; reflexivity.
Qed.

Lemma toCmd_after_resolution_witness :
  exists o' w',
    _resolveAlgorithmOptions 9
      (mkOptions (Some "-S -D gmapdb -t 8 -k 12") None (Some 12%Z) (Some 4%Z))
      (world_of [])
    = Some (Returned, o', w')
    /\ _toCmd (mkService 0 (Some "/tmp/w") "gmap_db_100000") o'
         (mkFiles (Some "/tmp/w/1.fasta") (Some "/tmp/w/out.sam")) 0
       = "gmap -D /tmp/w -d gmap_db_100000 -f samse "
         ++ "--sam-use-0M /tmp/w/1.fasta -k 12 -t 8  > /tmp/w/out.sam ".
Proof.
  destruct (_resolveAlgorithmOptions 9
              (mkOptions (Some "-S -D gmapdb -t 8 -k 12") None (Some 12%Z)
                 (Some 4%Z))
              (world_of [])) as [[[[|msg] o'] w']|] eqn:Hrun;
    try (vm_compute in Hrun; discriminate).
  destruct (toCmd_after_resolution
              (mkService 0 (Some "/tmp/w") "gmap_db_100000")
              (mkFiles (Some "/tmp/w/1.fasta") (Some "/tmp/w/out.sam")) 0
              9 (mkOptions (Some "-S -D gmapdb -t 8 -k 12") None (Some 12%Z)
                   (Some 4%Z))
              o' (world_of []) w' "-S -D gmapdb -t 8 -k 12" eq_refl Hrun)
    as (Hcmd & _).
  exists o', w'. split; [reflexivity|]. rewrite Hcmd.
  vm_compute in Hrun. injection Hrun as <- <-. reflexivity.
Defined.

(** ** The preprocessing of [GMAPService] *)

Lemma put_same ref m h : put ref m h ref = m.
Proof. unfold put. now rewrite Nat.eqb_refl. Qed.

Lemma put_other ref m h r : r <> ref -> put ref m h r = h r.
Proof.
  intros Hne. unfold put. destruct (r =? ref)%nat eqn:Heq; [|reflexivity].
  apply Nat.eqb_eq in Heq. now elim Hne.
Qed.

(** [CleanUp] deals with every owned directory of the registry. *)
Lemma CleanUp_owned_dir (E : Env) (self self' : TempFileManager)
    (w w' : World) (obj : TempFile) :
  CleanUp E true self w = (Ok tt, self', w') ->
  In obj (dirDB self) -> own obj = true ->
  isExist (name obj) w' = false \/ In (warn_dir obj) (log w').
Proof.
  unfold CleanUp. intros H Hin Hown.
  destruct (CleanUp_files E true (rev (fileDB self)) w) as [[[u|e] rest] w1];
    [|discriminate].
  destruct (CleanUp_dirs_total E true
              (rev (dirDB (set_fileDB (rev rest) self))) w1) as [w2 H2].
  rewrite H2 in H. injection H as _ <-.
  destruct (CleanUp_dirs_post E _ _ _ H2) as (_ & Hd & _).
  apply Hd; [|exact Hown]. apply in_rev. now rewrite rev_involutive.
Qed.

Section PreProcessFacts.

Variable E : Env.
Variable isFasta : string -> bool.
Variable pls2fasta : string -> FS -> nat -> FS * (Z * string).

(** What registering a new file does to the manager. *)
Lemma RegisterNewTmpFile_file rootDir suffix prefix self w r self' w' :
  RegisterNewTmpFile E false rootDir suffix prefix self w = (r, self', w') ->
  match r with
  | Ok p =>
      self' = set_fileDB (fileDB self ++ [mkTempFile p true false])%list self
      /\ _isRegistered E p self = false
  | Raise e => self' = self /\ is_IOError_or_OSError e = true
  end.
Proof.
  intros H.
  pose proof (RegisterNewTmpFile_cases E false rootDir suffix prefix self w)
    as Hc. cbv zeta in Hc.
  destruct ((rootDir =? "") && (defaultRootDir self =? "")).
  { rewrite Hc in H. injection H as <- <- <-. now split. }
  destruct (mkstemp E (Some (if rootDir =? "" then defaultRootDir self
                             else rootDir)) suffix prefix w)
    as [[raw|e] w1] eqn:Hmk.
  - destruct (_isRegistered E (abspath_expanduser E raw) self) eqn:Hreg.
    + destruct Hc as [msg Hc]. rewrite Hc in H. injection H as <- <- <-.
      now split.
    + rewrite Hc in H. injection H as <- <- <-. now split.
  - rewrite Hc in H. injection H as <- <- <-. split; [reflexivity|].
    unfold mkstemp in Hmk.
    now destruct (mktemp_loop_raise E _ _ _ _ _ _ _ _ Hmk).
Qed.

(** Every way through [_pls2fasta]. *)
Lemma pls2fasta_cases self inputFileName regionTable noSplitSubreads h w
    res h' w' :
  _pls2fasta E isFasta pls2fasta self inputFileName regionTable
    noSplitSubreads h w = (res, h', w') ->
  let ref := _tempFileManager self in
  (forall r, r <> ref -> h' r = h r)
  /\ match res with
     | Ok out =>
         if isFasta inputFileName
         then out = inputFileName /\ h' ref = h ref /\ w' = w
         else h' ref
              = set_fileDB (fileDB (h ref) ++ [mkTempFile out true false])%list
                  (h ref)
              /\ _isRegistered E out (h ref) = false
     | Raise e =>
         isFasta inputFileName = false
         /\ match e with
            | RuntimeError msg =>
                exists out errMsg earlier,
                  h' ref
                  = set_fileDB
                      (fileDB (h ref) ++ [mkTempFile out true false])%list
                      (h ref)
                  /\ msg = errMsg ++ ("Failed to convert " ++ inputFileName
                                      ++ " to " ++ out ++ ".")
                  /\ log w' = (earlier ++ [(ERROR, msg)])%list
            | _ => h' ref = h ref
            end
     end.
Proof.
  intros H ref. unfold _pls2fasta in H. fold ref in H.
  destruct (isFasta inputFileName) eqn:Hfa.
  { injection H as <- <- <-. split; [reflexivity|]. now repeat split. }
  destruct (RegisterNewTmpFile E false "" ".fasta" "" (h ref) w)
    as [[[out|e] m] w1] eqn:Hreg;
    pose proof (RegisterNewTmpFile_file _ _ _ _ _ _ _ _ Hreg) as Hr;
    cbv beta iota in Hr.
  - destruct Hr as [-> Hfree]. cbv zeta in H.
    destruct (backticks_pls2fasta pls2fasta
                (pls2fasta_cmdStr inputFileName out regionTable
                   noSplitSubreads)
                (logging DEBUG
                   (service_name ++ ": Call " ++ dquote
                    ++ pls2fasta_cmdStr inputFileName out regionTable
                         noSplitSubreads ++ dquote)
                   (logging INFO
                      (service_name ++ ": Convert " ++ inputFileName
                       ++ " to FASTA format.") w1)))
      as [[errCode errMsg] w2].
    destruct (negb (errCode =? 0)%Z); injection H as <- <- <-.
    + split; [intros r Hne; now apply put_other|].
      split; [reflexivity|].
      exists out, errMsg, (log w2). rewrite put_same.
      split; [reflexivity|]. split; reflexivity.
    + split; [intros r Hne; now apply put_other|].
      rewrite put_same. now split.
  - destruct Hr as [-> He]. injection H as <- <- <-.
    split; [intros r Hne; now apply put_other|].
    split; [reflexivity|]. rewrite put_same.
    destruct e; [reflexivity | reflexivity | discriminate].
Qed.

End PreProcessFacts.

(** X20.  [_pls2fasta] hands a FASTA input back untouched.  For any
    other input the temporary FASTA file is registered, owned, in the
    manager of the service before the conversion runs, and it stays
    registered when the conversion fails: the [RuntimeError] then
    carries the error output followed by "Failed to convert ... to
    ...", logged at ERROR.  An [IOError] or [OSError] means the file
    could not be registered, and the manager is as before.  No other
    manager and no directory registry is touched. *)
Theorem pls2fasta_outcome (E : Env) (isFasta : string -> bool)
    (pls2fasta : string -> FS -> nat -> FS * (Z * string))
    (self : GMAPService) (inputFileName : string)
    (regionTable : option string) (noSplitSubreads : bool)
    (h h' : Managers) (w w' : World) (res : result string) :
  _pls2fasta E isFasta pls2fasta self inputFileName regionTable
    noSplitSubreads h w = (res, h', w') ->
  (forall r, r <> _tempFileManager self -> h' r = h r)
  /\ dirDB (h' (_tempFileManager self)) = dirDB (h (_tempFileManager self))
  /\ match res with
     | Ok out =>
         if isFasta inputFileName
         then out = inputFileName
              /\ h' (_tempFileManager self) = h (_tempFileManager self)
              /\ w' = w
         else fileDB (h' (_tempFileManager self))
              = (fileDB (h (_tempFileManager self))
                 ++ [mkTempFile out true false])%list
              /\ _isRegistered E out (h (_tempFileManager self)) = false
     | Raise (RuntimeError msg) =>
         isFasta inputFileName = false
         /\ exists out errMsg earlier,
              fileDB (h' (_tempFileManager self))
              = (fileDB (h (_tempFileManager self))
                 ++ [mkTempFile out true false])%list
              /\ msg = errMsg ++ ("Failed to convert " ++ inputFileName
                                  ++ " to " ++ out ++ ".")
              /\ log w' = (earlier ++ [(ERROR, msg)])%list
     | Raise _ =>
         isFasta inputFileName = false
         /\ h' (_tempFileManager self) = h (_tempFileManager self)
     end.
Proof.
  intros H.
  destruct (pls2fasta_cases E isFasta pls2fasta _ _ _ _ _ _ _ _ _ H)
    as (Hother & Hres).
  split; [exact Hother|].
  destruct res as [out|e].
  - destruct (isFasta inputFileName).
    + destruct Hres as (-> & Hh & ->). rewrite Hh. now repeat split.
    + destruct Hres as (Hh & Hfree). rewrite Hh. now repeat split.
  - destruct Hres as (Hfa & He). destruct e as [msg|en|msg].
    + rewrite He. now repeat split.
    + rewrite He. now repeat split.
    + destruct He as (out & errMsg & earlier & Hh & Hmsg & Hlog).
      rewrite Hh. split; [reflexivity|]. split; [exact Hfa|].
      now exists out, errMsg, earlier.
Qed.

Lemma pls2fasta_outcome_witness :
  exists out errMsg h' w',
    _pls2fasta calm fasta_suffix bad_pls2fasta (GMAPService_init 0)
      "/data/in.bas.h5" None false (all_managers empty_manager) run_world
    = (Raise (RuntimeError
                (errMsg ++ ("Failed to convert " ++ "/data/in.bas.h5"
                            ++ " to " ++ out ++ "."))), h', w')
    /\ fileDB (h' 0) = [mkTempFile out true false].
Proof.
  destruct (_pls2fasta calm fasta_suffix bad_pls2fasta (GMAPService_init 0)
              "/data/in.bas.h5" None false (all_managers empty_manager)
              run_world) as [[[p|[msg|en|msg]] h'] w'] eqn:Hrun;
    try (vm_compute in Hrun; discriminate).
  destruct (pls2fasta_outcome _ _ _ _ _ _ _ _ _ _ _ _ Hrun)
    as (_ & _ & _ & out & errMsg & earlier & Hdb & Hmsg & _).
  exists out, errMsg, h', w'. rewrite Hmsg. split; [reflexivity | exact Hdb].
Defined.

Section PreProcessRun.

Variable E : Env.
Variable isFasta : string -> bool.
Variable pls2fasta : string -> FS -> nat -> FS * (Z * string).

(** [_pls2fasta] leaves every directory registry and every root as it
    was, and adds at most one owned file to the manager of the
    service. *)
Lemma pls2fasta_frame self inputFileName regionTable noSplitSubreads h w
    res h' w' :
  _pls2fasta E isFasta pls2fasta self inputFileName regionTable
    noSplitSubreads h w = (res, h', w') ->
  forall r,
    dirDB (h' r) = dirDB (h r)
    /\ defaultRootDir (h' r) = defaultRootDir (h r)
    /\ (fileDB (h' r) = fileDB (h r)
        \/ exists out,
             r = _tempFileManager self
             /\ fileDB (h' r)
                = (fileDB (h r) ++ [mkTempFile out true false])%list).
Proof.
  intros H r.
  destruct (pls2fasta_cases E isFasta pls2fasta _ _ _ _ _ _ _ _ _ H)
    as (Hother & Hres). cbv zeta in Hres.
  destruct (Nat.eq_dec r (_tempFileManager self)) as [->|Hne].
  2:{ rewrite (Hother r Hne). split; [reflexivity|]. split; [reflexivity|].
      now left. }
  destruct res as [out|e].
  - destruct (isFasta inputFileName).
    + destruct Hres as (_ & -> & _). split; [reflexivity|].
      split; [reflexivity|]. now left.
    + destruct Hres as (-> & _). split; [reflexivity|].
      split; [reflexivity|]. right. now exists out.
  - destruct Hres as (_ & He). destruct e as [msg|en|msg].
    + rewrite He. split; [reflexivity|]. split; [reflexivity|]. now left.
    + rewrite He. split; [reflexivity|]. split; [reflexivity|]. now left.
    + destruct He as (out & errMsg & earlier & -> & _).
      split; [reflexivity|]. split; [reflexivity|]. right. now exists out.
Qed.

(** The steps of [_preProcess] outside a repository. *)
Lemma preProcess_private fuel self inputFileName referenceFile regionTable
    noSplitSubreads tempFileManager h w out :
  _preProcess E isFasta pls2fasta fuel self inputFileName referenceFile
    regionTable noSplitSubreads tempFileManager false h w = Some out ->
  let root := defaultRootDir (h tempFileManager) in
  let name :=
    "gmap_db_" ++ NilZero.string_of_int (Z.to_int (randint E (draws w))) in
  let self1 := set_db (Some root) name self in
  exists r1 w1,
    _gmapCreateDB E fuel referenceFile false root w = Some (r1, w1)
    /\ match r1 with
       | Raise e => out = (Raise e, self, h, w1)
       | Ok location =>
           location = (root, name)
           /\ match RegisterExistingTmpFile E (Path.join root name) true true
                      (h tempFileManager) w1 with
              | (Raise e, m, w2) =>
                  out = (Raise e, self1, put tempFileManager m h, w2)
              | (Ok _, m, w2) =>
                  exists res h3 w3,
                    _pls2fasta E isFasta pls2fasta self1 inputFileName
                      regionTable noSplitSubreads (put tempFileManager m h) w2
                    = (res, h3, w3)
                    /\ out = (res, self1, h3, w3)
              end
       end.
Proof.
  intros H root name self1. unfold _preProcess in H. fold root in H.
  destruct (_gmapCreateDB E fuel referenceFile false root w)
    as [[r1 w1]|] eqn:Hdb; [|discriminate].
  exists r1, w1. split; [reflexivity|].
  unfold _gmapCreateDB, db_location in Hdb. fold name in Hdb.
  destruct (createDB_at_commands E _ _ _ _ _ _ _ Hdb) as (_ & Hloc).
  destruct r1 as [location|e]; [|now injection H as <-].
  subst location. split; [reflexivity|]. cbn [negb] in H.
  fold self1 in H.
  destruct (RegisterExistingTmpFile E (Path.join root name) true true
              (h tempFileManager) w1) as [[[p|e] m] w2].
  - destruct (_pls2fasta E isFasta pls2fasta self1 inputFileName regionTable
                noSplitSubreads (put tempFileManager m h) w2)
      as [[res h3] w3].
    exists res, h3, w3. split; [reflexivity|]. now injection H as <-.
  - now injection H as <-.
Qed.

End PreProcessRun.

(** X21.  Outside a reference repository, when [_preProcess] returns
    the query file, the service points at the database
    [gmap_db_<random>] under the root directory of the manager passed
    in, the path of that database was not registered before and is now
    the newest entry of the directory registry of that manager, as an
    owned directory; a [CleanUp] of that manager that runs next and
    returns has therefore deleted the database or logged the warning
    that it could not. *)
Theorem preProcess_registers_private_database (E : Env)
    (isFasta : string -> bool)
    (pls2fasta : string -> FS -> nat -> FS * (Z * string))
    (fuel : nat) (self self' : GMAPService)
    (inputFileName referenceFile query : string)
    (regionTable : option string) (noSplitSubreads : bool)
    (tempFileManager : nat) (h h' : Managers) (w w' : World) :
  _preProcess E isFasta pls2fasta fuel self inputFileName referenceFile
    regionTable noSplitSubreads tempFileManager false h w
  = Some (Ok query, self', h', w') ->
  let root := defaultRootDir (h tempFileManager) in
  let dbPath := abspath_expanduser E (Path.join root (dbName self')) in
  dbRoot self' = Some root
  /\ dbName self'
     = "gmap_db_" ++ NilZero.string_of_int (Z.to_int (randint E (draws w)))
  /\ _isRegistered E dbPath (h tempFileManager) = false
  /\ dirDB (h' tempFileManager)
     = (dirDB (h tempFileManager) ++ [mkTempFile dbPath true true])%list
  /\ forall m2 w2,
       CleanUp E true (h' tempFileManager) w' = (Ok tt, m2, w2) ->
       isExist dbPath w2 = false
       \/ In (warn_dir (mkTempFile dbPath true true)) (log w2).
Proof.
  intros H root dbPath.
  destruct (preProcess_private E isFasta pls2fasta _ _ _ _ _ _ _ _ _ _ H)
    as (r1 & w1 & _ & Hr1). cbv zeta in Hr1. fold root in Hr1.
  destruct r1 as [location|e]; [|discriminate].
  destruct Hr1 as (_ & Hreg).
  set (name := "gmap_db_"
               ++ NilZero.string_of_int (Z.to_int (randint E (draws w)))) in *.
  pose proof (RegisterExistingTmpFile_cases E (Path.join root name) true true
                (h tempFileManager) w1) as Hc. cbv zeta in Hc.
  destruct (RegisterExistingTmpFile E (Path.join root name) true true
              (h tempFileManager) w1) as [[[p|e] m] w2]; [|discriminate].
  destruct Hreg as (res & h3 & w3 & Hpls & Hout).
  injection Hout as <- -> -> ->.
  unfold dbPath. cbn [dbRoot dbName set_db].
  set (path := abspath_expanduser E (Path.join root name)) in *.
  destruct (_isRegistered E path (h tempFileManager)) eqn:Hfree.
  { rewrite orb_true_r in Hc. cbn [orb] in Hc. destruct Hc as [msg Hc].
    discriminate. }
  destruct ((true && negb (isdir path w1)) || false || negb (isExist path w1));
    [destruct Hc as [msg Hc]; discriminate|].
  injection Hc as _ -> _.
  assert (Hdirs : dirDB (h3 tempFileManager)
                  = (dirDB (h tempFileManager)
                     ++ [mkTempFile path true true])%list).
  { destruct (pls2fasta_frame E isFasta pls2fasta _ _ _ _ _ _ _ _ _ Hpls
                tempFileManager) as (-> & _).
    now rewrite put_same. }
  split; [reflexivity|]. split; [reflexivity|]. split; [reflexivity|].
  split; [exact Hdirs|].
  intros m2 w4 Hclean.
  apply (CleanUp_owned_dir E _ _ _ _ (mkTempFile path true true) Hclean);
    [|reflexivity].
  rewrite Hdirs. apply in_or_app. right. now left.
Qed.

Lemma preProcess_registers_private_database_witness :
  exists query self' h' w',
    _preProcess calm fasta_suffix good_pls2fasta 5 (GMAPService_init 0)
      "/data/in.bas.h5" "/data/ref.fa" None false 0 false
      (all_managers empty_manager) run_world
    = Some (Ok query, self', h', w')
    /\ dirDB (h' 0) = [mkTempFile "/tmp/w/gmap_db_100000" true true].
Proof.
  destruct (_preProcess calm fasta_suffix good_pls2fasta 5 (GMAPService_init 0)
              "/data/in.bas.h5" "/data/ref.fa" None false 0 false
              (all_managers empty_manager) run_world)
    as [[[[[query|e] self'] h'] w']|] eqn:Hrun;
    try (vm_compute in Hrun; discriminate).
  destruct (preProcess_registers_private_database _ _ _ _ _ _ _ _ _ _ _ _ _ _
              _ _ Hrun) as (_ & Hname & _ & Hdirs & _).
  exists query, self', h', w'. split; [reflexivity|].
  rewrite Hdirs, Hname. reflexivity.
Defined.

(** X22.  Inside a reference repository [_preProcess] registers no
    directory: whatever the outcome, every directory registry and
    every root directory is as before, so this call does not hand the
    shared database to [CleanUp]; at most one owned file, the converted
    reads, is added to the manager of the service.  The service is left as it
    was or points at [gmap_db] under the repository. *)
Theorem preProcess_repository_registers_no_directory (E : Env)
    (isFasta : string -> bool)
    (pls2fasta : string -> FS -> nat -> FS * (Z * string))
    (fuel : nat) (self self' : GMAPService)
    (inputFileName referenceFile : string)
    (regionTable : option string) (noSplitSubreads : bool)
    (tempFileManager : nat) (h h' : Managers) (w w' : World)
    (res : result string) :
  _preProcess E isFasta pls2fasta fuel self inputFileName referenceFile
    regionTable noSplitSubreads tempFileManager true h w
  = Some (res, self', h', w') ->
  (forall r,
     dirDB (h' r) = dirDB (h r)
     /\ defaultRootDir (h' r) = defaultRootDir (h r)
     /\ (fileDB (h' r) = fileDB (h r)
         \/ exists out,
              r = _tempFileManager self
              /\ fileDB (h' r)
                 = (fileDB (h r) ++ [mkTempFile out true false])%list))
  /\ (self' = self
      \/ self' = set_db (Some (fst (Path.split (Path.dirname referenceFile))))
                   "gmap_db" self).
Proof.
  intros H. unfold _preProcess in H.
  destruct (_gmapCreateDB E fuel referenceFile true
              (defaultRootDir (h tempFileManager)) w)
    as [[r1 w1]|] eqn:Hdb; [|discriminate].
  unfold _gmapCreateDB, db_location in Hdb.
  destruct (createDB_at_commands E _ _ _ _ _ _ _ Hdb) as (_ & Hloc).
  destruct r1 as [location|e].
  2:{ injection H as <- <- <- <-. split.
      - intros r. split; [reflexivity|]. split; [reflexivity|]. now left.
      - now left. }
  subst location. cbn [negb] in H.
  destruct (_pls2fasta E isFasta pls2fasta
              (set_db (Some (fst (Path.split (Path.dirname referenceFile))))
                 "gmap_db" self)
              inputFileName regionTable noSplitSubreads h w1)
    as [[res3 h3] w3] eqn:Hpls.
  injection H as <- <- <- <-. split.
  - intros r.
    exact (pls2fasta_frame E isFasta pls2fasta _ _ _ _ _ _ _ _ _ Hpls r).
  - now right.
Qed.

Lemma preProcess_repository_registers_no_directory_witness :
  exists res self' h' w',
    _preProcess calm fasta_suffix good_pls2fasta 5 (GMAPService_init 0)
      "/data/reads.fasta" "/repo/sequence/ref.fa" None false 0 true
      (all_managers tidy_manager) repo_world
    = Some (res, self', h', w')
    /\ dirDB (h' 0) = [mkTempFile "/tmp/d" true true]
    /\ isdir "/repo/gmap_db" w' = true.
Proof.
  destruct (_preProcess calm fasta_suffix good_pls2fasta 5 (GMAPService_init 0)
              "/data/reads.fasta" "/repo/sequence/ref.fa" None false 0 true
              (all_managers tidy_manager) repo_world)
    as [[[[res self'] h'] w']|] eqn:Hrun;
    [|vm_compute in Hrun; discriminate].
  destruct (preProcess_repository_registers_no_directory _ _ _ _ _ _ _ _ _ _
              _ _ _ _ _ _ Hrun) as (Hframe & _).
  destruct (Hframe 0) as (Hdirs & _).
  exists res, self', h', w'. split; [reflexivity|]. split; [exact Hdirs|].
  vm_compute in Hrun. now injection Hrun as _ _ _ <-.
Defined.

(** X23.  Outside a repository, when the database step ends without an
    exception but there is no directory at the path of the database
    afterwards (the builder exited with 0 and wrote nothing, or the
    path is a regular file), [_preProcess] raises [IOError], logged at
    ERROR: the service already points at the database, nothing has
    been registered and the reads are not converted. *)
Theorem preProcess_database_not_a_directory (E : Env)
    (isFasta : string -> bool)
    (pls2fasta : string -> FS -> nat -> FS * (Z * string))
    (fuel : nat) (self : GMAPService) (inputFileName referenceFile : string)
    (regionTable : option string) (noSplitSubreads : bool)
    (tempFileManager : nat) (h : Managers) (w w1 : World)
    (root name : string) :
  _gmapCreateDB E fuel referenceFile false
    (defaultRootDir (h tempFileManager)) w = Some (Ok (root, name), w1) ->
  isdir (abspath_expanduser E (Path.join root name)) w1 = false ->
  exists msg h',
    _preProcess E isFasta pls2fasta fuel self inputFileName referenceFile
      regionTable noSplitSubreads tempFileManager false h w
    = Some (Raise (IOError msg), set_db (Some root) name self, h',
            logging ERROR msg w1)
    /\ forall r, h' r = h r.
Proof.
  intros Hdb Hnodir. unfold _preProcess. rewrite Hdb. cbn [negb].
  pose proof (RegisterExistingTmpFile_cases E (Path.join root name) true true
                (h tempFileManager) w1) as Hc. cbv zeta in Hc.
  rewrite Hnodir in Hc. cbn [negb andb orb] in Hc. destruct Hc as [msg ->].
  exists msg, (put tempFileManager (h tempFileManager) h).
  split; [reflexivity|].
  intros r. destruct (Nat.eq_dec r tempFileManager) as [->|Hne].
  - apply put_same.
  - now apply put_other.
Qed.

Lemma preProcess_database_not_a_directory_witness :
  exists msg self' h' w',
    _preProcess idle fasta_suffix good_pls2fasta 5 (GMAPService_init 0)
      "/data/in.bas.h5" "/data/ref.fa" None false 0 false
      (all_managers empty_manager) run_world
    = Some (Raise (IOError msg), self', h', w')
    /\ dbName self' = "gmap_db_100000"
    /\ fileDB (h' 0) = [] /\ dirDB (h' 0) = [].
Proof.
  destruct (_gmapCreateDB idle 5 "/data/ref.fa" false
              (defaultRootDir (all_managers empty_manager 0)) run_world)
    as [[[[root name]|e] w1]|] eqn:Hdb; try (vm_compute in Hdb; discriminate).
  pose proof Hdb as Hrun. vm_compute in Hrun. injection Hrun as Hroot Hname Hw.
  assert (Hnodir : isdir (abspath_expanduser idle (Path.join root name)) w1
                   = false).
  { rewrite <- Hroot, <- Hname, <- Hw. reflexivity. }
  destruct (preProcess_database_not_a_directory idle fasta_suffix
              good_pls2fasta 5 (GMAPService_init 0) "/data/in.bas.h5"
              "/data/ref.fa" None false 0 (all_managers empty_manager)
              run_world w1 root name Hdb Hnodir) as (msg & h' & Hpre & Hh).
  exists msg, (set_db (Some root) name (GMAPService_init 0)), h',
    (logging ERROR msg w1).
  split; [exact Hpre|]. split; [now rewrite <- Hname|].
  rewrite Hh. now split.
Defined.
